(** * G7KAIH: authorization, identity merge and submission gate

    A shallow embedding of the request-entry route guard
    ([src/middleware.ts] and its later revision with the [kepsek] role),
    the teacher student-listing routes (scope composition, alias expansion
    and statistics aggregation), the daily-inactive report route and the
    [GET /api/kegiatan/:kegiatanid] handler (submission window and
    once-per-day check), together with the properties the specification
    states about them.

    Modelling conventions.
    - JavaScript strings are [string]s of bytes; every string the code
      compares against is ASCII.
    - A table of the relational store is the [list] of the rows the
      querying client can see; a query is a [filter] over it.
    - A handler is a pure function of the request and of the store
      contents it reads; its result is the HTTP response it returns. *)

From Stdlib Require Import ZArith Ascii String List Lia Permutation.
From stdpp Require Import base option list strings gmap.

Local Open Scope string_scope.
Local Open Scope Z_scope.

(** ** JavaScript primitives used by the handlers *)

Module JS.

(** [s.startsWith(p)] *)
Definition startsWith (s p : string) : bool := String.prefix p s.

Definition lower_ascii (c : ascii) : ascii :=
  let n := nat_of_ascii c in
  if (Nat.leb 65 n && Nat.leb n 90)%bool then ascii_of_nat (n + 32) else c.

(** [s.toLowerCase()] on ASCII text. *)
Fixpoint toLowerCase (s : string) : string :=
  match s with
  | EmptyString => EmptyString
  | String c r => String (lower_ascii c) (toLowerCase r)
  end.

(** Truthiness of a [string | undefined] value: [undefined] and the empty
    string are falsy. *)
Definition truthy (v : option string) : bool :=
  match v with
  | Some s => negb (String.eqb s "")
  | None => false
  end.

(** [a > b] on strings: lexicographic order of the code units. *)
Definition gt (a b : string) : bool :=
  match String.compare a b with
  | Gt => true
  | _ => false
  end.

(** The result of PostgREST's [.single()]: the row when the filter selects
    exactly one, [null] data otherwise. *)
Definition single {A} (rows : list A) : option A :=
  match rows with
  | [r] => Some r
  | _ => None
  end.

(** The result of [.maybeSingle()]: [data] and the error code.  No row is
    not an error; several rows give error [PGRST116] and no data. *)
Definition maybeSingle {A} (rows : list A) : option A * option string :=
  match rows with
  | [] => (None, None)
  | [r] => (Some r, None)
  | _ => (None, Some "PGRST116")
  end.

(** A [Map<string, V>], or an object keyed by ids that are not array
    indices: the entries in insertion order.  [set] keeps the position of
    a key that is already present. *)
Fixpoint entries_get {V} (m : list (string * V)) (k : string) : option V :=
  match m with
  | [] => None
  | (k', v) :: rest => if String.eqb k' k then Some v else entries_get rest k
  end.

Fixpoint entries_set {V} (m : list (string * V)) (k : string) (v : V)
  : list (string * V) :=
  match m with
  | [] => [(k, v)]
  | (k', v') :: rest =>
      if String.eqb k' k then (k, v) :: rest
      else (k', v') :: entries_set rest k v
  end.

(** A [Set<string>] in insertion order. *)
Definition set_has (s : list string) (x : string) : bool :=
  existsb (String.eqb x) s.

Definition set_add (s : list string) (x : string) : list string :=
  if set_has s x then s else s ++ [x].

(** [new Set(ids)] *)
Definition set_of (ids : list string) : list string :=
  fold_left set_add ids [].

Definition is_space (c : ascii) : bool :=
  let n := nat_of_ascii c in
  (Nat.eqb n 32 || (Nat.leb 9 n && Nat.leb n 13))%bool.

Fixpoint trimStart (s : string) : string :=
  match s with
  | String c r => if is_space c then trimStart r else s
  | EmptyString => EmptyString
  end.

Fixpoint trimEnd (s : string) : string :=
  match s with
  | String c r =>
      match trimEnd r with
      | EmptyString => if is_space c then EmptyString else String c EmptyString
      | r' => String c r'
      end
  | EmptyString => EmptyString
  end.

(** [s.trim()] on ASCII white space. *)
Definition trim (s : string) : string := trimEnd (trimStart s).

End JS.

(** ** The relational store *)

(** A row of [user_profiles], with the columns the handlers select. *)
Record user_profile := {
  userid : string;
  username : option string;
  email : option string;
  roleid : option Z;
  kelas : option string;
  is_guruwali : option bool;
  guruwali_userid : option string
}.

(** A row of [role]. *)
Record role_row := {
  role_roleid : Z;
  rolename : option string
}.

(** [.eq(column, n)] on a nullable integer column. *)
Definition roleid_eqb (r : option Z) (n : Z) : bool :=
  match r with
  | Some m => m =? n
  | None => false
  end.

(** [.eq(column, v)] on a nullable text column. *)
Definition column_eqb (c : option string) (v : string) : bool :=
  match c with
  | Some s => String.eqb s v
  | None => false
  end.

(** [for (const student of rows) if (student?.userid)
    studentMap.set(student.userid, student)] *)
Definition add_students (studentMap : list (string * user_profile))
    (rows : list user_profile) : list (string * user_profile) :=
  fold_left
    (fun m student =>
       if String.eqb (userid student) "" then m
       else JS.entries_set m (userid student) student)
    rows studentMap.

(** ** Route guard: [middleware] *)

Module RouteGuard.

(** What the middleware returns. *)
Inductive response :=
| Next                                               (* supabaseResponse *)
| Redirect (path : string) (origin : option string) (status : Z)
| Json (error : string) (status : Z).

Record request := {
  pathname : string;
  (* [sanitizeRedirectPath] of the requested path, query and fragment *)
  originPath : option string;
  user : option string;                 (* id of [supabase.auth.getUser()] *)
  user_profiles : list user_profile;
  role : list role_row
}.

(** The response [NextResponse.redirect(new URL(p, request.url), 302)]. *)
Definition landing (p : string) : response := Redirect p None 302.

(** [return NextResponse.redirect(new URL(p, request.url), 302)] *)
Definition redirect (p : string) : option response := Some (landing p).

Definition publicRoutes : list string :=
  ["/login"; "/auth/callback"; "/auth/confirm"; "/error";
   "/auth/auth-code-error"; "/tos"].

Definition isPublicRoute (pathname : string) : bool :=
  existsb (fun route => JS.startsWith pathname route) publicRoutes.

Definition isApiRoute (pathname : string) : bool :=
  JS.startsWith pathname "/api".

(** [profile?.roleid] is used as a condition: [null] and [0] are falsy. *)
Definition truthy_roleid (r : option Z) : bool :=
  match r with
  | Some n => negb (n =? 0)
  | None => false
  end.

Definition find_profile (req : request) (uid : string) : option user_profile :=
  JS.single (List.filter (fun p => String.eqb (userid p) uid) (user_profiles req)).

Definition find_role (req : request) (rid : Z) : option role_row :=
  JS.single (List.filter (fun r => role_roleid r =? rid) (role req)).

(** [roleKey = roleData?.rolename?.toLowerCase() ?? roleName ?? ''] *)
Definition roleKey_of (roleData : option role_row) : string :=
  match roleData with
  | Some r =>
      match rolename r with
      | Some n => JS.toLowerCase n
      | None => ""
      end
  | None => ""
  end.

Definition is_true (b : option bool) : bool :=
  match b with
  | Some true => true
  | _ => false
  end.

(** The branch for a request without a user. *)
Definition unauthenticated (req : request) : option response :=
  if isApiRoute (pathname req) then
    Some (Json "Unauthorized" 401)
  else if (negb (isPublicRoute (pathname req))
           && negb (String.eqb (pathname req) "/"))%bool then
    let origin :=
      match originPath req with
      | Some o =>
          if (negb (String.eqb o "") && negb (String.eqb o "/login"))%bool
          then Some o else None
      | None => None
      end in
    Some (Redirect "/login" origin 302)
  else None.

Definition guard_dashboard (pathname roleKey : string) : option response :=
  if (JS.startsWith pathname "/dashboard"
      && negb (String.eqb roleKey "admin")
      && negb (String.eqb roleKey "teacher"))%bool then
    if String.eqb roleKey "teacher" then redirect "/guru"
    else if String.eqb roleKey "guruwali" then redirect "/guruwali"
    else if String.eqb roleKey "student" then redirect "/siswa"
    else if String.eqb roleKey "parent" then redirect "/orangtua"
    else redirect "/unknown"
  else None.

Definition guard_siswa (pathname roleKey : string) : option response :=
  if (JS.startsWith pathname "/siswa"
      && negb (String.eqb roleKey "student"))%bool then
    if String.eqb roleKey "admin" then redirect "/dashboard"
    else if String.eqb roleKey "teacher" then redirect "/guru"
    else if String.eqb roleKey "guruwali" then redirect "/guruwali"
    else if String.eqb roleKey "parent" then redirect "/orangtua"
    else redirect "/unknown"
  else None.

(** [pathname.startsWith('/guru') && !isTeacher && !isGuruWali]; the
    last argument is [isGuruWali], respectively [canAccessGuruwali]. *)
Definition guard_guru (pathname roleKey : string) (guruwali : bool)
  : option response :=
  let isTeacher := String.eqb roleKey "teacher" in
  if (JS.startsWith pathname "/guru" && negb isTeacher && negb guruwali)%bool
  then
    if String.eqb roleKey "admin" then redirect "/dashboard"
    else if String.eqb roleKey "student" then redirect "/siswa"
    else if String.eqb roleKey "parent" then redirect "/orangtua"
    else redirect "/unknown"
  else None.

Definition guard_guruwali (pathname roleKey : string) (guruwali : bool)
  : option response :=
  if (JS.startsWith pathname "/guruwali" && negb guruwali)%bool then
    if String.eqb roleKey "admin" then redirect "/dashboard"
    else if String.eqb roleKey "teacher" then redirect "/guru"
    else if String.eqb roleKey "student" then redirect "/siswa"
    else if String.eqb roleKey "parent" then redirect "/orangtua"
    else redirect "/unknown"
  else None.

Definition guard_kepsek (pathname roleKey : string) : option response :=
  if (JS.startsWith pathname "/kepsek"
      && negb (String.eqb roleKey "kepsek"))%bool then
    if String.eqb roleKey "admin" then redirect "/dashboard"
    else if String.eqb roleKey "teacher" then redirect "/guru"
    else if String.eqb roleKey "guruwali" then redirect "/guruwali"
    else if String.eqb roleKey "student" then redirect "/siswa"
    else if String.eqb roleKey "parent" then redirect "/orangtua"
    else redirect "/unknown"
  else None.

Definition guard_orangtua (pathname roleKey : string) : option response :=
  if (JS.startsWith pathname "/orangtua"
      && negb (String.eqb roleKey "parent"))%bool then
    if String.eqb roleKey "admin" then redirect "/dashboard"
    else if String.eqb roleKey "teacher" then redirect "/guru"
    else if String.eqb roleKey "guruwali" then redirect "/guruwali"
    else if String.eqb roleKey "student" then redirect "/siswa"
    else redirect "/unknown"
  else None.

(** Users with role 'unknown' can only access /unknown. *)
Definition guard_unknown (pathname roleKey : string) : option response :=
  if (String.eqb roleKey "unknown"
      && negb (String.eqb pathname "/unknown"))%bool
  then redirect "/unknown" else None.

(** The first guard that returns decides. *)
Fixpoint first_return (steps : list (option response)) : option response :=
  match steps with
  | [] => None
  | Some r :: _ => Some r
  | None :: rest => first_return rest
  end.

(** *** [src/middleware.ts] *)

Definition root_redirect (pathname roleKey : string) (isGuruWali : bool)
  : option response :=
  if String.eqb pathname "/" then
    if String.eqb roleKey "admin" then redirect "/dashboard"
    else if String.eqb roleKey "student" then redirect "/siswa"
    else if String.eqb roleKey "teacher" then redirect "/guru"
    else if isGuruWali then redirect "/guruwali"
    else if String.eqb roleKey "parent" then redirect "/orangtua"
    else if String.eqb roleKey "unknown" then redirect "/unknown"
    else redirect "/unknown"
  else None.

(** The role key of a profile: the lower-cased name of its role. *)
Definition roleKey_for (req : request) (profile : user_profile) : string :=
  let rid := match roleid profile with Some n => n | None => 0 end in
  roleKey_of (find_role req rid).

(** The branch [if (profile?.roleid) { ... }] for a resolved profile. *)
Definition with_profile (req : request) (profile : user_profile)
  : option response :=
  let roleKey := roleKey_for req profile in
  let hasGuruWaliFlag :=
    (is_true (is_guruwali profile) || roleid_eqb (roleid profile) 6
     || String.eqb roleKey "guruwali")%bool in
  let isGuruWali := (String.eqb roleKey "guruwali" || hasGuruWaliFlag)%bool in
  first_return
    [ guard_dashboard (pathname req) roleKey;
      guard_siswa (pathname req) roleKey;
      guard_guru (pathname req) roleKey isGuruWali;
      guard_guruwali (pathname req) roleKey isGuruWali;
      guard_orangtua (pathname req) roleKey;
      guard_unknown (pathname req) roleKey;
      root_redirect (pathname req) roleKey isGuruWali ].

(** No profile found, redirect to unknown. *)
Definition without_profile (req : request) : option response :=
  if negb (String.eqb (pathname req) "/unknown")
  then redirect "/unknown" else None.

Definition authenticated (req : request) (uid : string) : option response :=
  if negb (isPublicRoute (pathname req)) then
    match find_profile req uid with
    | Some profile =>
        if truthy_roleid (roleid profile)
        then with_profile req profile
        else without_profile req
    | None => without_profile req
    end
  else None.

Definition middleware (req : request) : response :=
  let decided :=
    match user req with
    | None => unauthenticated req
    | Some uid => authenticated req uid
    end in
  match decided with
  | Some r => r
  | None => Next
  end.

(** *** The revision with the [kepsek] role *)

Definition root_redirect_kepsek (pathname roleKey : string)
    (isGuruWaliRole : bool) : option response :=
  if String.eqb pathname "/" then
    if String.eqb roleKey "admin" then redirect "/dashboard"
    else if String.eqb roleKey "student" then redirect "/siswa"
    else if isGuruWaliRole then redirect "/guruwali"
    else if String.eqb roleKey "kepsek" then redirect "/kepsek"
    else if String.eqb roleKey "teacher" then redirect "/guru"
    else if String.eqb roleKey "parent" then redirect "/orangtua"
    else if String.eqb roleKey "unknown" then redirect "/unknown"
    else redirect "/unknown"
  else None.

Definition with_profile_kepsek (req : request) (profile : user_profile)
  : option response :=
  let roleKey := roleKey_for req profile in
  let hasGuruWaliAccess := is_true (is_guruwali profile) in
  let isGuruWaliRole :=
    (String.eqb roleKey "guruwali" || roleid_eqb (roleid profile) 6)%bool in
  let canAccessGuruwali := (isGuruWaliRole || hasGuruWaliAccess)%bool in
  first_return
    [ guard_dashboard (pathname req) roleKey;
      guard_siswa (pathname req) roleKey;
      guard_guru (pathname req) roleKey canAccessGuruwali;
      guard_guruwali (pathname req) roleKey canAccessGuruwali;
      guard_kepsek (pathname req) roleKey;
      guard_orangtua (pathname req) roleKey;
      guard_unknown (pathname req) roleKey;
      root_redirect_kepsek (pathname req) roleKey isGuruWaliRole ].

Definition authenticated_kepsek (req : request) (uid : string)
  : option response :=
  if negb (isPublicRoute (pathname req)) then
    match find_profile req uid with
    | Some profile =>
        if truthy_roleid (roleid profile)
        then with_profile_kepsek req profile
        else without_profile req
    | None => without_profile req
    end
  else None.

Definition middleware_kepsek (req : request) : response :=
  let decided :=
    match user req with
    | None => unauthenticated req
    | Some uid => authenticated_kepsek req uid
    end in
  match decided with
  | Some r => r
  | None => Next
  end.

End RouteGuard.


(** ** Teacher student listing: scope, alias expansion, statistics *)

Module TeacherStudents.

(** [VERIFIED_ALIASES]: the entries of the map, each id with its group; the
    first id of a group is the primary. *)
Definition VERIFIED_ALIASES : list (string * list string) :=
  [ ("6f07ae03-187e-4e25-a519-9f72f96f22ff",
     ["6f07ae03-187e-4e25-a519-9f72f96f22ff";
      "eca885ad-1119-48ca-8efe-91efcbfb54b4"]);
    ("eca885ad-1119-48ca-8efe-91efcbfb54b4",
     ["6f07ae03-187e-4e25-a519-9f72f96f22ff";
      "eca885ad-1119-48ca-8efe-91efcbfb54b4"]) ].

(** *** [expandWithVerifiedAliases] *)

(** One turn of the loop over the entries of the alias map. *)
Definition expand_step (set : list string) (entry : string * list string)
  : list string :=
  let '(primary, list) := entry in
  let hit := (existsb (JS.set_has set) list || JS.set_has set primary)%bool in
  if hit then fold_left JS.set_add list (JS.set_add set primary) else set.

Definition expand_with (aliases : list (string * list string))
    (ids : list string) : list string :=
  fold_left expand_step aliases (JS.set_of ids).

Definition expandWithVerifiedAliases (ids : list string) : list string :=
  expand_with VERIFIED_ALIASES ids.

(** Some member of the group of an entry is in the set. *)
Definition hit (s : list string) (entry : string * list string) : Prop :=
  exists x, In x (fst entry :: snd entry) /\ In x s.

(** Every member of the group of an entry is in the set. *)
Definition full (s : list string) (entry : string * list string) : Prop :=
  forall x, In x (fst entry :: snd entry) -> In x s.

(** *** Scope of the listing (first revision of the route) *)

Inductive outcome :=
| Rejected (status : Z) (error : string)
| Scoped (studentMap : list (string * user_profile)).

Record request := {
  user : option string;
  user_profiles : list user_profile;
  role : list role_row
}.

Definition lower_rolename (r : role_row) : string :=
  JS.toLowerCase (match rolename r with Some n => n | None => "null" end).

(** [roles?.find(...)?.roleid || 5] *)
Definition siswaRoleId (roles : list role_row) : Z :=
  match List.find (fun r => (String.eqb (lower_rolename r) "siswa"
                        || String.eqb (lower_rolename r) "student")%bool) roles with
  | Some r => if role_roleid r =? 0 then 5 else role_roleid r
  | None => 5
  end.

(** [Boolean(p.is_guruwali)] *)
Definition flag (p : user_profile) : bool :=
  match is_guruwali p with
  | Some b => b
  | None => false
  end.

Definition classStudents (req : request) (teacherClass : string)
  : list user_profile :=
  List.filter (fun s => (roleid_eqb (roleid s) (siswaRoleId (role req))
                    && column_eqb (kelas s) teacherClass)%bool)
         (user_profiles req).

Definition assignedStudents (req : request) (teacher : string)
  : list user_profile :=
  List.filter (fun s => (roleid_eqb (roleid s) (siswaRoleId (role req))
                    && column_eqb (guruwali_userid s) teacher)%bool)
         (user_profiles req).

(** The class the Teacher branch filters on: [teacherClass] when truthy. *)
Definition teacherClass (p : user_profile) : option string :=
  if JS.truthy (kelas p) then kelas p else None.

Definition isGuruWaliAccess (p : user_profile) : bool :=
  (roleid_eqb (roleid p) 6 || flag p)%bool.

Definition studentMap_of (req : request) (teacherProfile : user_profile)
  : list (string * user_profile) :=
  let after_class :=
    match teacherClass teacherProfile with
    | Some c => add_students [] (classStudents req c)
    | None => []
    end in
  if isGuruWaliAccess teacherProfile
  then add_students after_class (assignedStudents req (userid teacherProfile))
  else after_class.

(** The handler up to [profilesData = Array.from(studentMap.values())],
    on the runs in which the reads of the store succeed (a failing read is
    thrown and answered with status 500).  The response cache plays no
    part: with [CACHE_TTL_MS = 0] an entry has expired when it is stored. *)
Definition scope (req : request) : outcome :=
  match user req with
  | None => Rejected 401 "Unauthorized"
  | Some uid =>
      match JS.single (List.filter (fun p => String.eqb (userid p) uid)
                              (user_profiles req)) with
      | None => Rejected 403 "Teacher profile not found"
      | Some teacherProfile =>
          if (negb (roleid_eqb (roleid teacherProfile) 2)
              && negb (roleid_eqb (roleid teacherProfile) 6))%bool
          then Rejected 403 "Only teachers can access this endpoint"
          else if (negb (JS.truthy (kelas teacherProfile))
                   && negb (isGuruWaliAccess teacherProfile))%bool
          then Rejected 400 "Teacher must have a class assigned"
          else Scoped (studentMap_of req teacherProfile)
      end
  end.

(** *** Per-user statistics *)

Record stats := {
  total : Z;
  completed : Z;
  last : option string
}.

Record activity := {
  act_userid : option string;
  act_status : option string;
  act_created_at : option string
}.

Definition zero_stats : stats :=
  {| total := 0; completed := 0; last := None |}.

(** [!cur || ts > cur] *)
Definition newer (ts : string) (cur : option string) : bool :=
  match cur with
  | Some c => (String.eqb c "" || JS.gt ts c)%bool
  | None => true
  end.

(** One turn of the loop that consolidates the activity rows into
    [byUser]. *)
Definition byUser_step (byUser : list (string * stats)) (a : activity)
  : list (string * stats) :=
  match act_userid a with
  | None => byUser
  | Some u =>
      if String.eqb u "" then byUser
      else
        let cur := match JS.entries_get byUser u with
                   | Some s => s
                   | None => zero_stats
                   end in
        let ts := match act_created_at a with Some t => t | None => "null" end in
        JS.entries_set byUser u
          {| total := total cur + 1;
             completed := if column_eqb (act_status a) "completed"
                          then completed cur + 1 else completed cur;
             last := if newer ts (last cur) then Some ts else last cur |}
  end.

Definition byUser_of (activityRows : list activity) : list (string * stats) :=
  fold_left byUser_step activityRows [].

(** The same loop in the second revision, which builds [activityStats]
    without skipping rows that lack a user id. *)
Definition activityStats_step (activityStats : list (string * stats))
    (a : activity) : list (string * stats) :=
  let userId := match act_userid a with Some u => u | None => "null" end in
  let cur := match JS.entries_get activityStats userId with
             | Some s => s
             | None => zero_stats
             end in
  let timestamp := match act_created_at a with Some t => t | None => "null" end in
  JS.entries_set activityStats userId
    {| total := total cur + 1;
       completed := if column_eqb (act_status a) "completed"
                    then completed cur + 1 else completed cur;
       last := if newer timestamp (last cur) then Some timestamp else last cur |}.

Definition activityStats_of (activities : list activity)
  : list (string * stats) :=
  fold_left activityStats_step activities [].

(** [!agg.last || (s.last && s.last > agg.last)] *)
Definition takes_last (s agg : option string) : bool :=
  (negb (JS.truthy agg)
   || (JS.truthy s
       && match s, agg with
          | Some a, Some b => JS.gt a b
          | _, _ => false
          end))%bool.

(** The timestamp kept when a member with timestamp [s] is merged. *)
Definition pick_last (agg s : option string) : option string :=
  if takes_last s agg then s else agg.

Definition merge_stats (agg s : stats) : stats :=
  {| total := total agg + total s;
     completed := completed agg + completed s;
     last := pick_last (last agg) (last s) |}.

(** [verifiedAliases[0]] as a property key. *)
Definition first_alias (verifiedAliases : list string) : string :=
  match verifiedAliases with
  | p :: _ => p
  | [] => "undefined"
  end.

(** Every primary of the alias table is itself listed in the table. *)
Definition primaries_listed (aliases : list (string * list string)) : Prop :=
  forall u l, JS.entries_get aliases u = Some l ->
              JS.entries_get aliases (first_alias l) <> None.

(** One turn of the loop over [Object.entries(byUser)] (first revision). *)
Definition aggregate_step (aliases : list (string * list string))
    (aggregatedByUser : gmap string stats) (entry : string * stats)
  : gmap string stats :=
  let '(userid, s) := entry in
  match JS.entries_get aliases userid with
  | Some verifiedAliases =>
      let primaryUserId := first_alias verifiedAliases in
      let agg := match aggregatedByUser !! primaryUserId with
                 | Some a => a
                 | None => zero_stats
                 end in
      <[primaryUserId := merge_stats agg s]> aggregatedByUser
  | None => <[userid := s]> aggregatedByUser
  end.

Definition aggregate_with (aliases : list (string * list string))
    (byUser : list (string * stats)) : gmap string stats :=
  fold_left (aggregate_step aliases) byUser ∅.

Definition aggregate (byUser : list (string * stats)) : gmap string stats :=
  aggregate_with VERIFIED_ALIASES byUser.

(** [verifiedAliases?.[0] || userId] (second revision). *)
Definition primary_or_self (aliases : list (string * list string))
    (userId : string) : string :=
  match JS.entries_get aliases userId with
  | Some (p :: _) => if String.eqb p "" then userId else p
  | _ => userId
  end.

(** One turn of the loop over [Object.entries(activityStats)] (second
    revision). *)
Definition aggregate_step2 (aliases : list (string * list string))
    (aggregatedStats : gmap string stats) (entry : string * stats)
  : gmap string stats :=
  let '(userId, s) := entry in
  let primaryUserId := primary_or_self aliases userId in
  let agg := match aggregatedStats !! primaryUserId with
             | Some a => a
             | None => zero_stats
             end in
  <[primaryUserId := merge_stats agg s]> aggregatedStats.

Definition aggregate2_with (aliases : list (string * list string))
    (activityStats : list (string * stats)) : gmap string stats :=
  fold_left (aggregate_step2 aliases) activityStats ∅.

Definition aggregate2 (activityStats : list (string * stats))
  : gmap string stats :=
  aggregate2_with VERIFIED_ALIASES activityStats.

End TeacherStudents.


(** ** Daily inactive report: scope of the listing *)

Module DailyInactive.

Inductive outcome :=
| Rejected (status : Z) (error : string)
| Scoped (studentMap : list (string * user_profile)).

Record request := {
  user : option string;
  date : option string;                   (* [searchParams.get("date")] *)
  user_profiles : list user_profile
}.

(** [userProfile.kelas?.trim() || null] *)
Definition className (p : user_profile) : option string :=
  match kelas p with
  | Some k => if String.eqb (JS.trim k) "" then None else Some (JS.trim k)
  | None => None
  end.

(** [Boolean(userProfile.is_guruwali)] *)
Definition isGuruWali (p : user_profile) : bool :=
  match is_guruwali p with
  | Some b => b
  | None => false
  end.

Definition is_digit (c : ascii) : bool :=
  let n := nat_of_ascii c in (Nat.leb 48 n && Nat.leb n 57)%bool.

(** [/^\d{4}-\d{2}-\d{2}$/.test(date)] *)
Definition date_format_ok (d : string) : bool :=
  match list_ascii_of_string d with
  | [y1; y2; y3; y4; s1; m1; m2; s2; d1; d2] =>
      (forallb is_digit [y1; y2; y3; y4; m1; m2; d1; d2]
       && Ascii.eqb s1 "-" && Ascii.eqb s2 "-")%bool
  | _ => false
  end.

(** [searchParams.get("date") || new Date().toISOString().split("T")[0]]
    passes the format test whenever the parameter is missing or empty. *)
Definition date_ok (d : option string) : bool :=
  match d with
  | Some s => if String.eqb s "" then true else date_format_ok s
  | None => true
  end.

Definition classStudents (req : request) (className : string)
  : list user_profile :=
  List.filter (fun s => (roleid_eqb (roleid s) 5
                    && column_eqb (kelas s) className)%bool)
         (user_profiles req).

Definition guruWaliStudents (req : request) (uid : string)
  : list user_profile :=
  List.filter (fun s => (roleid_eqb (roleid s) 5
                    && column_eqb (guruwali_userid s) uid)%bool)
         (user_profiles req).

Definition studentMap_of (req : request) (uid : string)
    (userProfile : user_profile) : list (string * user_profile) :=
  let after_class :=
    match className userProfile with
    | Some c => add_students [] (classStudents req c)
    | None => []
    end in
  if isGuruWali userProfile
  then add_students after_class (guruWaliStudents req uid)
  else after_class.

(** The handler up to [Array.from(studentMap.values())], on the runs in
    which the reads of the store succeed; the later sort by user name only
    reorders the students. *)
Definition scope (req : request) : outcome :=
  match user req with
  | None => Rejected 401 "Unauthorized"
  | Some uid =>
      match JS.single (List.filter (fun p => String.eqb (userid p) uid)
                              (user_profiles req)) with
      | None => Rejected 403 "Access denied"
      | Some userProfile =>
          if negb (roleid_eqb (roleid userProfile) 2)
          then Rejected 403 "Access denied"
          else if (negb (JS.truthy (className userProfile))
                   && negb (isGuruWali userProfile))%bool
          then Rejected 400
                 "Teacher must have a class assignment or guru wali designation"
          else if negb (date_ok (date req))
          then Rejected 400 "Invalid date format. Use YYYY-MM-DD"
          else Scoped (studentMap_of req uid userProfile)
      end
  end.

End DailyInactive.


(** ** [GET /api/kegiatan/:kegiatanid]: submission window and daily check *)

Module Kegiatan.

Definition JAKARTA_OFFSET_MS : Z := 7 * 3600 * 1000.
Definition DAY_MS : Z := 86400000.

(** The Asia/Jakarta civil day of an instant (milliseconds since the
    epoch), counted in days since 1970-01-01.  The zone is UTC+7 without
    daylight saving for every instant since 1964. *)
Definition jakartaDay (now : Z) : Z := (now + JAKARTA_OFFSET_MS) / DAY_MS.

(** Proleptic Gregorian date of a day count. *)
Definition civil_of_days (days : Z) : Z * Z * Z :=
  let z := days + 719468 in
  let era := z / 146097 in
  let doe := z - era * 146097 in
  let yoe := (doe - doe / 1460 + doe / 36524 - doe / 146096) / 365 in
  let doy := doe - (365 * yoe + yoe / 4 - yoe / 100) in
  let mp := (5 * doy + 2) / 153 in
  let d := doy - (153 * mp + 2) / 5 + 1 in
  let m := if mp <? 10 then mp + 3 else mp - 9 in
  let y := yoe + era * 400 + (if m <=? 2 then 1 else 0) in
  (y, m, d).

Definition digit (n : Z) : ascii := ascii_of_nat (48 + Z.to_nat (n mod 10)).

Definition two_digits (n : Z) : string :=
  String (digit (n / 10)) (String (digit n) EmptyString).

(** The [en-CA] rendering [YYYY-MM-DD] (years 0 to 9999). *)
Definition format_date (ymd : Z * Z * Z) : string :=
  let '(y, m, d) := ymd in
  two_digits (y / 100) ++ two_digits (y mod 100) ++ "-"
  ++ two_digits m ++ "-" ++ two_digits d.

(** [todayInJakarta()] at the instant [now]. *)
Definition todayInJakarta (now : Z) : string :=
  format_date (civil_of_days (jakartaDay now)).

Record pg_error := {
  code : string;
  message : option string
}.

Record submission_window_row := {
  sw_id : Z;
  is_open : option bool
}.

Record aktivitas_row := {
  activityid : string;
  a_kegiatanid : option string;
  a_userid : option string;
  submitted_date : option string;
  created_at : option string
}.

Record kegiatan_row := {
  kegiatanid : string;
  kegiatanname : option string;
  k_created_at : option string
}.

Record submission_status := {
  canSubmit : bool;
  lastSubmittedAt : option string
}.

(** What the handler reads.  A table read either fails with an error or
    gives the visible rows.  [kegiatan] is the outcome of the [.single()]
    read of the task and [categories] the outcome of the block that loads
    the categories and their fields: the exception it throws or the list it
    computes, of a type the handler only passes on. *)
Record env (category : Type) := {
  user : option string;
  user_profiles : list user_profile;
  role : list role_row;
  submission_window : pg_error + list submission_window_row;
  kegiatan : pg_error + kegiatan_row;
  categories : pg_error + list category;
  aktivitas : pg_error + list aktivitas_row;
  now : Z
}.

Arguments user {category}.
Arguments user_profiles {category}.
Arguments role {category}.
Arguments submission_window {category}.
Arguments kegiatan {category}.
Arguments categories {category}.
Arguments aktivitas {category}.
Arguments now {category}.

Inductive response (category : Type) :=
| Error (status : Z) (error : string)
| Data (keg : kegiatan_row) (categories : list category)
       (submissionStatus : submission_status).

Arguments Error {category}.
Arguments Data {category}.

Section Handler.

Context {category : Type}.

(** [getCurrentRoleName]: the user id and the name of the linked role. *)
Definition getCurrentRoleName (e : env category)
  : option string * option string :=
  match user e with
  | None => (None, None)
  | Some uid =>
      let profile :=
        fst (JS.maybeSingle (List.filter (fun p => String.eqb (userid p) uid)
                                    (user_profiles e))) in
      let linkedRole :=
        match profile with
        | Some p =>
            match roleid p with
            | Some rid => List.find (fun r => role_roleid r =? rid) (role e)
            | None => None
            end
        | None => None
        end in
      let roleName :=
        match linkedRole with
        | Some r => rolename r
        | None => None
        end in
      (Some uid, roleName)
  end.

(** [isSubmissionWindowOpen]: the thrown error or the returned flag. *)
Definition isSubmissionWindowOpen (e : env category) : pg_error + bool :=
  match submission_window e with
  | inl err =>
      if String.eqb (code err) "PGRST116" then inr false else inl err
  | inr rows =>
      match JS.maybeSingle (List.filter (fun r => sw_id r =? 1) rows) with
      | (Some data, _) =>
          inr (match is_open data with Some b => b | None => false end)
      | (None, _) => inr false
      end
  end.

(** [err?.message ?? "Unexpected error"] with status 500. *)
Definition caught (err : pg_error) : response category :=
  Error 500 (match message err with Some m => m | None => "Unexpected error" end).

Definition WINDOW_CLOSED : string :=
  "Pengumpulan belum dibuka. Silakan hubungi admin.".

Definition is_student (roleName : option string) : bool :=
  match roleName with
  | Some r => String.eqb r "student"
  | None => false
  end.

(** The read of today's record of the user for the task. *)
Definition existingToday (e : env category) (kegiatanid userId : string)
  : pg_error + option aktivitas_row :=
  let today := todayInJakarta (now e) in
  match aktivitas e with
  | inl err =>
      if String.eqb (code err) "PGRST116" then inr None else inl err
  | inr rows =>
      inr (fst (JS.maybeSingle
                  (List.filter (fun a => (column_eqb (a_kegiatanid a) kegiatanid
                                     && column_eqb (a_userid a) userId
                                     && column_eqb (submitted_date a) today)%bool)
                          rows)))
  end.

Definition submissionStatus_of (e : env category) (kegiatanid : string)
    (userId roleName : option string) : pg_error + submission_status :=
  let open_status := {| canSubmit := true; lastSubmittedAt := None |} in
  match userId with
  | Some uid =>
      if (is_student roleName && negb (String.eqb uid ""))%bool then
        match existingToday e kegiatanid uid with
        | inl err => inl err
        | inr (Some row) =>
            inr {| canSubmit := false; lastSubmittedAt := created_at row |}
        | inr None => inr open_status
        end
      else inr open_status
  | None => inr open_status
  end.

Definition GET (e : env category) (kegiatanid : string) : response category :=
  let '(userId, roleName) := getCurrentRoleName e in
  let window :=
    if is_student roleName then isSubmissionWindowOpen e else inr true in
  match window with
  | inl err => caught err
  | inr false => Error 403 WINDOW_CLOSED
  | inr true =>
      match kegiatan e with
      | inl kegErr => caught kegErr
      | inr keg =>
          match categories e with
          | inl err => caught err
          | inr cats =>
              match submissionStatus_of e kegiatanid userId roleName with
              | inl err => caught err
              | inr status => Data keg cats status
              end
          end
      end
  end.

(** The same request at another instant, or against a store in which one
    table is replaced. *)
Definition at_time (e : env category) (t : Z) : env category :=
  {| user := user e; user_profiles := user_profiles e; role := role e;
     submission_window := submission_window e; kegiatan := kegiatan e;
     categories := categories e; aktivitas := aktivitas e; now := t |}.

Definition with_window (e : env category)
    (w : pg_error + list submission_window_row) : env category :=
  {| user := user e; user_profiles := user_profiles e; role := role e;
     submission_window := w; kegiatan := kegiatan e;
     categories := categories e; aktivitas := aktivitas e; now := now e |}.

Definition with_aktivitas (e : env category)
    (a : pg_error + list aktivitas_row) : env category :=
  {| user := user e; user_profiles := user_profiles e; role := role e;
     submission_window := submission_window e; kegiatan := kegiatan e;
     categories := categories e; aktivitas := a; now := now e |}.

(** The first instant of the civil day after the one of [t]. *)
Definition next_day_start (t : Z) : Z :=
  (jakartaDay t + 1) * DAY_MS - JAKARTA_OFFSET_MS.

End Handler.

End Kegiatan.


(** ** The specification's wording of two route-guard rules *)

Module Spec.

(** Root dispatch as the specification words it: the supervision capability
    takes priority over the plain Teacher branch. *)
Definition root_landing (roleKey : string) (supervisorCapable : bool) : string :=
  if String.eqb roleKey "admin" then "/dashboard"
  else if String.eqb roleKey "student" then "/siswa"
  else if supervisorCapable then "/guruwali"
  else if String.eqb roleKey "teacher" then "/guru"
  else if String.eqb roleKey "parent" then "/orangtua"
  else "/unknown".

(** Matching that is exact on prefix boundaries: the prefix itself or a
    path that continues with a separator. *)
Definition boundary_match (path prefix : string) : bool :=
  (String.eqb path prefix || JS.startsWith path (prefix ++ "/"))%bool.

(** The Teacher branch of a listing scope: the class of the student is
    the home class of the actor. *)
Definition teacher_branch (homeClass : option string) (s : user_profile)
  : Prop :=
  exists c, homeClass = Some c /\ kelas s = Some c.

(** The Supervisor branch: the student is assigned to the actor. *)
Definition supervisor_branch (actor : string) (s : user_profile) : Prop :=
  guruwali_userid s = Some actor.

End Spec.

(** ** Sample store contents and requests *)

Module Samples.

Definition roles : list role_row :=
  [ {| role_roleid := 1; rolename := Some "unknown" |};
    {| role_roleid := 2; rolename := Some "teacher" |};
    {| role_roleid := 3; rolename := Some "parent" |};
    {| role_roleid := 4; rolename := Some "admin" |};
    {| role_roleid := 5; rolename := Some "student" |};
    {| role_roleid := 6; rolename := Some "guruwali" |} ].

Definition profile (uid : string) (rid : Z) (class : option string)
    (flag : option bool) (wali : option string) : user_profile :=
  {| userid := uid; username := Some uid; email := None; roleid := Some rid;
     kelas := class; is_guruwali := flag; guruwali_userid := wali |}.

(** A teacher of class 7A who also supervises, two students of 7A, a
    supervised student of 8B, a student outside both scopes, a parent and
    a user whose role is still [unknown]. *)
Definition profiles : list user_profile :=
  [ profile "t1" 2 (Some "7A") (Some true) None;
    profile "s1" 5 (Some "7A") None None;
    profile "s2" 5 (Some "7A") None (Some "t1");
    profile "s3" 5 (Some "8B") None (Some "t1");
    profile "s4" 5 (Some "8B") None None;
    profile "p1" 3 None None None;
    profile "u1" 1 None None None ].

Definition page (path : string) (uid : option string) : RouteGuard.request :=
  {| RouteGuard.pathname := path;
     RouteGuard.originPath := Some path;
     RouteGuard.user := uid;
     RouteGuard.user_profiles := profiles;
     RouteGuard.role := roles |}.

Definition listing (uid : option string) : TeacherStudents.request :=
  {| TeacherStudents.user := uid;
     TeacherStudents.user_profiles := profiles;
     TeacherStudents.role := roles |}.

Definition report (uid : option string) : DailyInactive.request :=
  {| DailyInactive.user := uid;
     DailyInactive.date := None;
     DailyInactive.user_profiles := profiles |}.

(** The student [s1] asks for task [k1] on 2024-01-01, 00:00 in Jakarta,
    having submitted that day; the window is as given. *)
Definition task (uid : option string) (window : list Kegiatan.submission_window_row)
  : Kegiatan.env string :=
  {| Kegiatan.user := uid;
     Kegiatan.user_profiles := profiles;
     Kegiatan.role := roles;
     Kegiatan.submission_window := inr window;
     Kegiatan.kegiatan :=
       inr {| Kegiatan.kegiatanid := "k1";
              Kegiatan.kegiatanname := Some "Sholat";
              Kegiatan.k_created_at := None |};
     Kegiatan.categories := inr ["c1"];
     Kegiatan.aktivitas :=
       inr [ {| Kegiatan.activityid := "a1";
                Kegiatan.a_kegiatanid := Some "k1";
                Kegiatan.a_userid := Some "s1";
                Kegiatan.submitted_date := Some "2024-01-01";
                Kegiatan.created_at := Some "2023-12-31T17:05:00+00:00" |} ];
     Kegiatan.now := 1704042000000 |}.

Definition window_open : list Kegiatan.submission_window_row :=
  [ {| Kegiatan.sw_id := 1; Kegiatan.is_open := Some true |} ].

Definition window_closed : list Kegiatan.submission_window_row :=
  [ {| Kegiatan.sw_id := 1; Kegiatan.is_open := Some false |} ].

End Samples.


(** ** The request that follows a redirect *)

Module Navigation.

(** The same user, against the same store, asking for another path. *)
Definition at_path (req : RouteGuard.request) (p : string)
    (origin : option string) : RouteGuard.request :=
  {| RouteGuard.pathname := p;
     RouteGuard.originPath := origin;
     RouteGuard.user := RouteGuard.user req;
     RouteGuard.user_profiles := RouteGuard.user_profiles req;
     RouteGuard.role := RouteGuard.role req |}.

End Navigation.


(** ** What a protected prefix admits *)

Module Protection.

(** The profile holds the supervision capability: the role [guruwali], the
    role id 6 or the flag [is_guruwali]. *)
Definition capable (roleKey : string) (profile : user_profile) : Prop :=
  roleKey = "guruwali" \/ is_guruwali profile = Some true
  \/ roleid profile = Some 6.

(** A request below [prefix] comes from a user with a resolved profile whose
    role key and profile satisfy [allowed]. *)
Definition admits (req : RouteGuard.request) (uid prefix : string)
    (allowed : string -> user_profile -> Prop) : Prop :=
  JS.startsWith (RouteGuard.pathname req) prefix = true ->
  exists profile,
    RouteGuard.find_profile req uid = Some profile
    /\ RouteGuard.truthy_roleid (roleid profile) = true
    /\ allowed (RouteGuard.roleKey_for req profile) profile.

End Protection.


(** ** [sanitizeRedirectPath] *)

Module SanitizeRedirect.

Definition DISALLOWED_PREFIXES : list string :=
  ["/api"; "/auth"; "/login"; "/signup"].

(** [pathname === prefix || pathname.startsWith(`${prefix}/`)] for some
    disallowed prefix. *)
Definition isBlocked (pathname : string) : bool :=
  existsb (fun prefix => (String.eqb pathname prefix
                          || JS.startsWith pathname (prefix ++ "/"))%bool)
          DISALLOWED_PREFIXES.

(** [candidate.split(/[?#]/)[0]]: the text before the first [?] or [#]. *)
Fixpoint pathOnly (candidate : string) : string :=
  match candidate with
  | EmptyString => EmptyString
  | String c rest =>
      if (Ascii.eqb c "?" || Ascii.eqb c "#")%bool then EmptyString
      else String c (pathOnly rest)
  end.

Section Sanitize.

(** [new URL(candidate)]: the path name, the query and the fragment of an
    absolute URL, or nothing when the constructor throws. *)
Variable parseURL : string -> option (string * string * string).

(** The input is a string or some other value ([None]). *)
Definition sanitizeRedirectPath (input : option string) : option string :=
  match input with
  | None => None
  | Some text =>
      let candidate := JS.trim text in
      if String.eqb candidate "" then None
      else
        let resolved :=
          if (JS.startsWith candidate "http://"
              || JS.startsWith candidate "https://")%bool then
            match parseURL candidate with
            | Some (pathname, search, hash) => Some (pathname ++ search ++ hash)
            | None => None
            end
          else Some candidate in
        match resolved with
        | None => None
        | Some candidate =>
            if negb (JS.startsWith candidate "/") then None
            else if JS.startsWith candidate "//" then None
            else if isBlocked (pathOnly candidate) then None
            else Some candidate
        end
  end.

(** The request the guard sees for a URL: its [originPath] is the
    sanitised path, query and fragment. *)
Definition guarded_request (pathname search hash : string)
    (user : option string) (profiles : list user_profile)
    (roles : list role_row) : RouteGuard.request :=
  {| RouteGuard.pathname := pathname;
     RouteGuard.originPath :=
       sanitizeRedirectPath (Some (pathname ++ search ++ hash));
     RouteGuard.user := user;
     RouteGuard.user_profiles := profiles;
     RouteGuard.role := roles |}.

End Sanitize.

End SanitizeRedirect.


(** ** Teacher student listing: cards and their statistics *)

Module StudentCards.

Import TeacherStudents.

(** [String(a.created_at)] *)
Definition timestamp_of (a : activity) : string :=
  match act_created_at a with
  | Some t => t
  | None => "null"
  end.

(** The activity rows of one user. *)
Definition rows_of (u : string) (activityRows : list activity) : list activity :=
  List.filter (fun a => column_eqb (act_userid a) u) activityRows.

Definition completed_rows (rows : list activity) : list activity :=
  List.filter (fun a => column_eqb (act_status a) "completed") rows.

(** What the statistics of one user say about the rows of that user: the
    number of rows, the number of completed rows and the latest of their
    timestamps. *)
Definition describes (s : stats) (mine : list activity) : Prop :=
  total s = Z.of_nat (length mine)
  /\ completed s = Z.of_nat (length (completed_rows mine))
  /\ exists ts, last s = Some ts
       /\ In ts (map timestamp_of mine)
       /\ forall a, In a mine -> JS.gt (timestamp_of a) ts = false.

(** Every alias list starts with a non-empty id, so that
    [verifiedAliases[0]] and [verifiedAliases?.[0] || userId] name the same
    primary. *)
Definition heads_nonempty (aliases : list (string * list string)) : Prop :=
  forall u l, JS.entries_get aliases u = Some l ->
              exists p rest, l = p :: rest /\ p <> "".

(** The entries of a raw stats map that aggregate under the id [p]. *)
Definition members (aliases : list (string * list string)) (p : string)
    (byUser : list (string * stats)) : list (string * stats) :=
  List.filter (fun e => String.eqb (primary_or_self aliases (fst e)) p) byUser.

Definition sum_total (entries : list (string * stats)) : Z :=
  fold_right (fun e acc => total (snd e) + acc) 0 entries.

Definition sum_completed (entries : list (string * stats)) : Z :=
  fold_right (fun e acc => completed (snd e) + acc) 0 entries.

(** [aliasPrimaryById] of the first revision: every listed id is mapped to
    the key of the entry that lists it, a later entry replacing an earlier
    one. *)
Definition aliasPrimaryById (aliases : list (string * list string))
  : list (string * string) :=
  fold_left
    (fun m entry =>
       let '(primary, list) := entry in
       fold_left (fun m id => JS.entries_set m id primary) list m)
    aliases [].

(** [aliasPrimaryById.get(uid) || uid] *)
Definition card_key (aliases : list (string * list string)) (uid : string)
  : string :=
  match JS.entries_get (aliasPrimaryById aliases) uid with
  | Some primary => if String.eqb primary "" then uid else primary
  | None => uid
  end.

(** [mapProfile] of the first revision: the first profile seen for each
    card key. *)
Definition mapProfile (aliases : list (string * list string))
    (profilesData : list user_profile) : list (string * user_profile) :=
  fold_left
    (fun m p =>
       let primary := card_key aliases (userid p) in
       match JS.entries_get m primary with
       | Some _ => m
       | None => JS.entries_set m primary p
       end)
    profilesData [].

(** [studentMap] of the second revision: the first student seen for each
    primary id. *)
Definition studentMap2 (aliases : list (string * list string))
    (students : list user_profile) : list (string * user_profile) :=
  fold_left
    (fun m student =>
       let primaryId := primary_or_self aliases (userid student) in
       match JS.entries_get m primaryId with
       | Some _ => m
       | None => JS.entries_set m primaryId student
       end)
    students [].

(** [aggregated[key] || { total: 0, completed: 0 }]: the statistics shown
    on the card with that key. *)
Definition card_stats (aggregated : gmap string stats) (key : string) : stats :=
  match aggregated !! key with
  | Some s => s
  | None => zero_stats
  end.

End StudentCards.


(** ** Alias expansion: the ids a seed reaches *)

Module AliasReach.

(** An id of the seed, or a member of an alias group that the seed
    meets. *)
Definition reached (aliases : list (string * list string))
    (ids : list string) (x : string) : Prop :=
  In x ids
  \/ exists e, In e aliases /\ In x (fst e :: snd e)
               /\ TeacherStudents.hit ids e.

End AliasReach.


(** ** Listing scopes: who is listed *)

Module Listing.

(** The student [u] is a row of the store with the student role that the
    class branch selects, or that the supervisor branch selects when the
    actor has supervision access. *)
Definition listed (store : list user_profile) (studentRole : Z)
    (homeClass : option string) (access : bool) (actor : string)
    (u : string) : Prop :=
  exists s, In s store /\ userid s = u /\ u <> ""
    /\ roleid s = Some studentRole
    /\ ((exists c, homeClass = Some c /\ kelas s = Some c)
        \/ (access = true /\ guruwali_userid s = Some actor)).

End Listing.


(** ** Task detail: field types *)

Module FieldType.

Definition allowedFieldTypes : list string :=
  ["text"; "time"; "image"; "text_image"; "multiselect"].

(** [s.replace(/\s+/g, "_")] on ASCII white space: every maximal run of
    white space becomes one underscore.  [in_run] says that the previous
    character belonged to a run. *)
Fixpoint replace_spaces_from (in_run : bool) (s : string) : string :=
  match s with
  | EmptyString => EmptyString
  | String c r =>
      if JS.is_space c
      then if in_run then replace_spaces_from true r
           else String "_" (replace_spaces_from true r)
      else String c (replace_spaces_from false r)
  end.

Definition replace_spaces (s : string) : string := replace_spaces_from false s.

(** [s.replace(/-/g, "_")] *)
Fixpoint replace_hyphens (s : string) : string :=
  match s with
  | EmptyString => EmptyString
  | String c r =>
      String (if Ascii.eqb c "-" then "_"%char else c) (replace_hyphens r)
  end.

(** [value.trim().toLowerCase().replace(/\s+/g, "_").replace(/-/g, "_")] *)
Definition canonical_of (value : string) : string :=
  replace_hyphens (replace_spaces (JS.toLowerCase (JS.trim value))).

(** [sanitizeFieldType]; [None] stands for a value that is not a string. *)
Definition sanitizeFieldType (value : option string) : string :=
  match value with
  | None => "text"
  | Some v =>
      let canonical := canonical_of v in
      if (String.eqb canonical "text_gambar"
          || String.eqb canonical "gambar_dengan_teks")%bool
      then "text_image"
      else if (String.eqb canonical "pilihan"
               || String.eqb canonical "multi_select"
               || String.eqb canonical "multi-select")%bool
      then "multiselect"
      else if String.eqb canonical "jam" then "time"
      else if JS.set_has allowedFieldTypes canonical then canonical
      else "text"
  end.

End FieldType.


(** ** Task detail: [PATCH] *)

Module KegiatanWrite.

Import Kegiatan.

(** A row of [kegiatan_categories]: the task and the category. *)
Definition join_row := (string * string)%type.

(** A row of [kegiatan] as stored: the columns the handlers select and
    [updated_at], which the trigger [update_kegiatan_updated_at] sets on
    every update of the row. *)
Record task_row := {
  task_id : string;
  task_name : option string;
  task_created_at : option string;
  task_updated_at : option string
}.

(** [.select("kegiatanid, kegiatanname, created_at")] *)
Definition selected (r : task_row) : kegiatan_row :=
  {| kegiatanid := task_id r;
     kegiatanname := task_name r;
     k_created_at := task_created_at r |}.

(** The tables the handler reads or writes, with the submissions, which
    refer to the tasks; [category] holds the ids of the categories.  Ids
    are well-formed and names fit their column, so that a statement fails
    only on a foreign key. *)
Record store := {
  kegiatan : list task_row;
  category : list string;
  kegiatan_categories : list join_row;
  aktivitas : list aktivitas_row
}.

(** The request body: [kegiatanname] when it is a string, [categories]
    when it is an array (of strings). *)
Record body := {
  body_kegiatanname : option string;
  body_categories : option (list string)
}.

(** The answer: the task row, or status 500. *)
Inductive answer :=
| Failed
| Updated (data : kegiatan_row).

Definition row_eqb (a b : join_row) : bool :=
  (String.eqb (fst a) (fst b) && String.eqb (snd a) (snd b))%bool.

Definition has_kegiatan (s : store) (kegiatanid : string) : bool :=
  existsb (fun r => String.eqb (task_id r) kegiatanid) (kegiatan s).

(** The foreign keys of a row of [kegiatan_categories]. *)
Definition fk_ok (s : store) (r : join_row) : bool :=
  (has_kegiatan s (fst r) && JS.set_has (category s) (snd r))%bool.

(** The integrity the schema enforces on the tables the handler writes:
    primary keys and foreign keys. *)
Definition integrity (s : store) : Prop :=
  List.NoDup (map task_id (kegiatan s))
  /\ List.NoDup (kegiatan_categories s)
  /\ forall r, In r (kegiatan_categories s) -> fk_ok s r = true.

(** [.update({ kegiatanname }).eq("kegiatanid", kegiatanid)] at the
    instant whose text is [now]: the trigger stamps every row the statement
    updates, also when the name it writes is the one the row has. *)
Definition rename (now kegiatanid name : string) (rows : list task_row)
  : list task_row :=
  map (fun r =>
         if String.eqb (task_id r) kegiatanid
         then {| task_id := task_id r;
                 task_name := Some name;
                 task_created_at := task_created_at r;
                 task_updated_at := Some now |}
         else r) rows.

(** [.upsert(rows)] on the primary key: a row that is present stays, a new
    one is appended. *)
Definition upsert (table rows : list join_row) : list join_row :=
  fold_left (fun t r => if existsb (row_eqb r) t then t else (t ++ [r])%list)
            rows table.

(** [.delete().eq("kegiatanid", kegiatanid).in("categoryid", ids)] *)
Definition delete_in (table : list join_row) (kegiatanid : string)
    (ids : list string) : list join_row :=
  List.filter (fun r => negb (String.eqb (fst r) kegiatanid
                              && JS.set_has ids (snd r))) table.

Definition newSet_of (categories : list string) : list string :=
  JS.set_of (List.filter (fun c => negb (String.eqb c "")) categories).

Definition curSet_of (table : list join_row) (kegiatanid : string)
  : list string :=
  JS.set_of (map snd (List.filter (fun r => String.eqb (fst r) kegiatanid)
                                  table)).

(** The block that brings the categories of the task in line with the
    requested ones: [None] when the upsert is refused. *)
Definition sync_categories (s : store) (kegiatanid : string)
    (categories : list string) : option (list join_row) :=
  let newSet := newSet_of categories in
  let curSet := curSet_of (kegiatan_categories s) kegiatanid in
  let toAdd := List.filter (fun id => negb (JS.set_has curSet id)) newSet in
  let toDel := List.filter (fun id => negb (JS.set_has newSet id)) curSet in
  let added :=
    match toAdd with
    | [] => Some (kegiatan_categories s)
    | _ =>
        let rows := map (fun cid => (kegiatanid, cid)) toAdd in
        if forallb (fk_ok s) rows
        then Some (upsert (kegiatan_categories s) rows)
        else None
    end in
  match added with
  | None => None
  | Some table =>
      Some match toDel with
           | [] => table
           | _ => delete_in table kegiatanid toDel
           end
  end.

(** The store after the update of the name, which is issued only when the
    body carries a name. *)
Definition renamed (s : store) (now kegiatanid : string) (b : body) : store :=
  {| kegiatan := match body_kegiatanname b with
                 | Some name =>
                     rename now kegiatanid (JS.trim name) (kegiatan s)
                 | None => kegiatan s
                 end;
     category := category s;
     kegiatan_categories := kegiatan_categories s;
     aktivitas := aktivitas s |}.

Definition with_links (s : store) (table : list join_row) : store :=
  {| kegiatan := kegiatan s; category := category s;
     kegiatan_categories := table; aktivitas := aktivitas s |}.

(** The final [.single()] read of the task. *)
Definition answer_of (s : store) (kegiatanid : string) : answer :=
  match JS.single (List.filter
                     (fun r => String.eqb (task_id r) kegiatanid)
                     (kegiatan s)) with
  | Some r => Updated (selected r)
  | None => Failed
  end.

(** [PATCH] at the instant whose text is [now]: the store it leaves and its
    answer.  The rename is applied before the categories are touched and
    stays when a later step fails. *)
Definition PATCH (s : store) (now kegiatanid : string) (b : body)
  : store * answer :=
  let s1 := renamed s now kegiatanid b in
  let synced :=
    match body_categories b with
    | Some categories => sync_categories s1 kegiatanid categories
    | None => Some (kegiatan_categories s1)
    end in
  match synced with
  | None => (s1, Failed)
  | Some table => (with_links s1 table, answer_of s1 kegiatanid)
  end.

End KegiatanWrite.


(** ** Role ids: [utils/lib/roles.ts] *)

Module Roles.

Definition FALLBACK_ADMIN_ROLE_IDS : list Z := [4].
Definition FALLBACK_PARENT_ROLE_IDS : list Z := [3].
Definition FALLBACK_STUDENT_ROLE_IDS : list Z := [5].

(** A [Set<number>] in insertion order. *)
Definition has (s : list Z) (x : Z) : bool := existsb (Z.eqb x) s.

Definition add (s : list Z) (x : Z) : list Z :=
  if has s x then s else (s ++ [x])%list.

Section Env.

(** [Number(text)] for the settings read here: [None] is [NaN], and a
    numeric setting is an integer.  [env] is [process.env]. *)
Variable Number : string -> option Z.
Variable env : string -> option string.

(** [Number(process.env[name] ?? "")] *)
Definition env_number (name : string) : option Z :=
  Number (match env name with Some v => v | None => "" end).

(** A role id is [None] when it is [null], [undefined] or not a number. *)
Definition isAdminRole (roleId : option Z) : bool :=
  match roleId with
  | None => false
  | Some r =>
      match env_number "ADMIN_ROLE_ID" with
      | Some envAdminRoleId =>
          if r =? envAdminRoleId then true else has FALLBACK_ADMIN_ROLE_IDS r
      | None => has FALLBACK_ADMIN_ROLE_IDS r
      end
  end.

Definition isParentRole (roleId : option Z) : bool :=
  match roleId with
  | None => false
  | Some r =>
      match env_number "PARENT_ROLE_ID" with
      | Some envParentRoleId =>
          if r =? envParentRoleId then true else has FALLBACK_PARENT_ROLE_IDS r
      | None => has FALLBACK_PARENT_ROLE_IDS r
      end
  end.

Definition isStudentRole (roleId : option Z) : bool :=
  match roleId with
  | None => false
  | Some r =>
      match env_number "STUDENT_ROLE_ID" with
      | Some envStudentRoleId =>
          if r =? envStudentRoleId then true
          else has FALLBACK_STUDENT_ROLE_IDS r
      | None => has FALLBACK_STUDENT_ROLE_IDS r
      end
  end.

Definition getAdminRoleIds : list Z :=
  match env_number "ADMIN_ROLE_ID" with
  | Some envAdminRoleId => add FALLBACK_ADMIN_ROLE_IDS envAdminRoleId
  | None => FALLBACK_ADMIN_ROLE_IDS
  end.

Definition getParentRoleIds : list Z :=
  match env_number "PARENT_ROLE_ID" with
  | Some envParentRoleId => add FALLBACK_PARENT_ROLE_IDS envParentRoleId
  | None => FALLBACK_PARENT_ROLE_IDS
  end.

Definition getStudentRoleIds : list Z :=
  match env_number "STUDENT_ROLE_ID" with
  | Some envStudentRoleId => add FALLBACK_STUDENT_ROLE_IDS envStudentRoleId
  | None => FALLBACK_STUDENT_ROLE_IDS
  end.

End Env.

(** A reading of decimal settings that gives [0] for the empty text, as
    [Number] does, and [NaN] for what it does not recognise. *)
Definition number_of_digit (c : ascii) : option Z :=
  let n := nat_of_ascii c in
  if (Nat.leb 48 n && Nat.leb n 57)%bool then Some (Z.of_nat (n - 48)) else None.

Fixpoint decimal_from (acc : Z) (s : string) : option Z :=
  match s with
  | EmptyString => Some acc
  | String c r =>
      match number_of_digit c with
      | Some d => decimal_from (10 * acc + d) r
      | None => None
      end
  end.

Definition decimal (s : string) : option Z := decimal_from 0 s.

End Roles.


(** ** Supervisor assignments: [GET] *)

Module Assignments.

Record request := {
  user : option string;
  user_profiles : list user_profile
}.

Record assignment := {
  student : user_profile;
  guruwali : option user_profile
}.

Inductive response :=
| Error (status : Z) (error : string)
| Ok (data : list assignment).

Section Handler.

Variable Number : string -> option Z.
Variable env : string -> option string.

(** [.order("username")]: the rows in the order of the store's collation. *)
Variable order : list user_profile -> list user_profile.

Definition in_role (ids : list Z) (p : user_profile) : bool :=
  match roleid p with
  | Some r => Roles.has ids r
  | None => false
  end.

(** [roleid.eq.6,and(roleid.eq.2,is_guruwali.eq.true)] *)
Definition is_supervisor (p : user_profile) : bool :=
  (roleid_eqb (roleid p) 6
   || (roleid_eqb (roleid p) 2
       && match is_guruwali p with Some b => b | None => false end))%bool.

(** [new Map(guruWaliList.map(gw => [gw.userid, gw]))] *)
Definition guruWaliMap_of (guruWaliList : list user_profile)
  : list (string * user_profile) :=
  fold_left (fun m gw => JS.entries_set m (userid gw) gw) guruWaliList [].

Definition assignment_of (guruWaliMap : list (string * user_profile))
    (s : user_profile) : assignment :=
  {| student := s;
     guruwali :=
       if JS.truthy (guruwali_userid s)
       then match guruwali_userid s with
            | Some g => JS.entries_get guruWaliMap g
            | None => None
            end
       else None |}.

(** The handler on the runs in which the reads of the store succeed. *)
Definition GET (req : request) : response :=
  match user req with
  | None => Error 401 "Unauthorized"
  | Some uid =>
      match JS.single (List.filter (fun p => String.eqb (userid p) uid)
                                   (user_profiles req)) with
      | None => Error 403 "Admin access required"
      | Some profile =>
          if negb (Roles.isAdminRole Number env (roleid profile))
          then Error 403 "Admin access required"
          else
            let studentRoleIds := Roles.getStudentRoleIds Number env in
            let students :=
              order (List.filter
                       (in_role match studentRoleIds with
                                | [] => [-1]
                                | _ => studentRoleIds
                                end)
                       (user_profiles req)) in
            let guruWaliList := List.filter is_supervisor (user_profiles req) in
            let guruWaliMap := guruWaliMap_of guruWaliList in
            Ok (map (assignment_of guruWaliMap)
                    (List.filter
                       (fun s => Roles.isStudentRole Number env (roleid s))
                       students))
      end
  end.

End Handler.

End Assignments.


(** ** Civil dates: the steps of [civil_of_days] *)

Module CivilDate.

(** The day [doe] of a 400-year era, from 0 to 146096, gives the year of
    the era, the day of that year (from 1 March) and the month (from
    March), as [Kegiatan.civil_of_days] computes them. *)
Definition yoe_of (doe : Z) : Z :=
  (doe - doe / 1460 + doe / 36524 - doe / 146096) / 365.

Definition doy_of (doe : Z) : Z :=
  doe - (365 * yoe_of doe + yoe_of doe / 4 - yoe_of doe / 100).

Definition mp_of (doe : Z) : Z := (5 * doy_of doe + 2) / 153.

Definition day_of (doe : Z) : Z :=
  doy_of doe - (153 * mp_of doe + 2) / 5 + 1.

(** The ranges of those steps; the last test says that up to day 146036 of
    an era the civil year is not the one after the era's last year. *)
Definition era_day_ok (doe : Z) : bool :=
  let yoe := yoe_of doe in
  let doy := doe - (365 * yoe + yoe / 4 - yoe / 100) in
  let mp := (5 * doy + 2) / 153 in
  let d := doy - (153 * mp + 2) / 5 + 1 in
  ((0 <=? yoe) && (yoe <=? 399) && (0 <=? doy) && (doy <=? 365)
   && (0 <=? mp) && (mp <=? 11) && (1 <=? d) && (d <=? 31)
   && ((146036 <? doe) || (yoe <? 399) || (mp <? 10)))%bool.

(** [f] holds of the [p] integers from [start] on. *)
Fixpoint all_from (p : positive) (f : Z -> bool) (start : Z) : bool :=
  match p with
  | xH => f start
  | xO q => (all_from q f start && all_from q f (start + Z.pos q))%bool
  | xI q => (f start && all_from q f (start + 1)
             && all_from q f (start + 1 + Z.pos q))%bool
  end.

(** The last day [format_date] renders with four digits: 9999-12-31. *)
Definition LAST_DAY : Z := 2932896.

End CivilDate.


(** * Properties *)

(** ** Route guard *)

Module RouteGuardFacts.

Import RouteGuard.

Lemma startsWith_app (p rest : string) : JS.startsWith (p ++ rest) p = true.
Proof.
  unfold JS.startsWith. induction p as [|c p IH]; simpl.
  - now destruct rest.
  - destruct (ascii_dec c c); [exact IH | congruence].
Qed.

Lemma startsWith_trans (s p q : string) :
  JS.startsWith s p = true -> JS.startsWith p q = true ->
  JS.startsWith s q = true.
Proof.
  unfold JS.startsWith. revert s p.
  induction q as [|c q IH]; intros s p Hsp Hpq; simpl.
  - now destruct s.
  - destruct p as [|c' p]; simpl in Hpq; [discriminate|].
    destruct (ascii_dec c c'); [subst c'|discriminate].
    destruct s as [|c'' s]; simpl in Hsp; [discriminate|].
    destruct (ascii_dec c c''); [subst c''|discriminate].
    simpl. destruct (ascii_dec c c); [|congruence].
    eapply IH; eassumption.
Qed.

(** None of the prefix guards fires on the root path. *)
Lemma root_after_guards (req : request) (profile : user_profile) :
  pathname req = "/" ->
  with_profile req profile =
    first_return
      [ guard_unknown "/" (roleKey_for req profile);
        root_redirect "/" (roleKey_for req profile)
          (String.eqb (roleKey_for req profile) "guruwali"
           || (is_true (is_guruwali profile) || roleid_eqb (roleid profile) 6
               || String.eqb (roleKey_for req profile) "guruwali"))%bool ]
  /\ with_profile_kepsek req profile =
    first_return
      [ guard_unknown "/" (roleKey_for req profile);
        root_redirect_kepsek "/" (roleKey_for req profile)
          (String.eqb (roleKey_for req profile) "guruwali"
           || roleid_eqb (roleid profile) 6)%bool ].
Proof.
  intros Hroot. unfold with_profile, with_profile_kepsek.
  rewrite Hroot. split; reflexivity.
Qed.

Lemma middleware_resolved (req : request) (uid : string) (profile : user_profile) :
  user req = Some uid -> pathname req = "/" ->
  find_profile req uid = Some profile ->
  truthy_roleid (roleid profile) = true ->
  with_profile req profile = Some (middleware req)
  /\ with_profile_kepsek req profile = Some (middleware_kepsek req).
Proof.
  intros Hu Hroot Hp Ht.
  unfold middleware, middleware_kepsek, authenticated, authenticated_kepsek.
  rewrite Hu, Hroot, Hp, Ht. cbn [isPublicRoute].
  destruct (root_after_guards req profile Hroot) as [E1 E2].
  rewrite E1, E2.
  unfold guard_unknown, root_redirect, root_redirect_kepsek, redirect.
  cbn [first_return String.eqb negb andb].
  split.
  - destruct (String.eqb (roleKey_for req profile) "unknown"); cbn -[String.eqb];
      [reflexivity|].
    repeat match goal with
           | |- context [if ?b then _ else _] => destruct b; try reflexivity
           end.
  - destruct (String.eqb (roleKey_for req profile) "unknown"); cbn -[String.eqb];
      [reflexivity|].
    repeat match goal with
           | |- context [if ?b then _ else _] => destruct b; try reflexivity
           end.
Qed.

(** On the root path the two revisions answer with the landing route the
    root dispatch computes. *)
Lemma root_resolved_eq (req : request) (uid : string) (profile : user_profile)
    (rk : string) :
  user req = Some uid -> pathname req = "/" ->
  find_profile req uid = Some profile ->
  truthy_roleid (roleid profile) = true ->
  roleKey_for req profile = rk ->
  first_return
    [ guard_unknown "/" rk;
      root_redirect "/" rk
        (String.eqb rk "guruwali"
         || (is_true (is_guruwali profile) || roleid_eqb (roleid profile) 6
             || String.eqb rk "guruwali"))%bool ] = Some (middleware req)
  /\ first_return
    [ guard_unknown "/" rk;
      root_redirect_kepsek "/" rk
        (String.eqb rk "guruwali" || roleid_eqb (roleid profile) 6)%bool ]
    = Some (middleware_kepsek req).
Proof.
  intros Hu Hroot Hp Ht Hrk.
  destruct (middleware_resolved req uid profile Hu Hroot Hp Ht) as [M1 M2].
  destruct (root_after_guards req profile Hroot) as [E1 E2].
  rewrite <- M1, <- M2, E1, E2, Hrk. split; reflexivity.
Qed.

Lemma roleid_is_false (r : option Z) (n : Z) :
  r <> Some n -> roleid_eqb r n = false.
Proof.
  destruct r as [m|]; simpl; [|reflexivity].
  intros H. apply Z.eqb_neq. congruence.
Qed.

Lemma is_true_false (b : option bool) : b <> Some true -> is_true b = false.
Proof. destruct b as [[|]|]; simpl; congruence. Qed.

Lemma eqb_false (a b : string) : a <> b -> String.eqb a b = false.
Proof. apply String.eqb_neq. Qed.

Lemma middleware_unresolved (req : request) (uid : string) :
  user req = Some uid -> pathname req = "/" ->
  (find_profile req uid = None
   \/ exists profile, find_profile req uid = Some profile
                      /\ truthy_roleid (roleid profile) = false) ->
  middleware req = landing "/unknown"
  /\ middleware_kepsek req = landing "/unknown".
Proof.
  intros Hu Hroot Hp.
  unfold middleware, middleware_kepsek, authenticated, authenticated_kepsek,
    without_profile.
  rewrite Hu, Hroot.
  destruct Hp as [Hp | (profile & Hp & Ht)]; rewrite Hp; [|rewrite Ht];
    split; reflexivity.
Qed.

(** An API request without a user is answered with a 401 error record. *)
Lemma api_unauthenticated (req : request) :
  user req = None -> isApiRoute (pathname req) = true ->
  middleware req = Json "Unauthorized" 401
  /\ middleware_kepsek req = Json "Unauthorized" 401.
Proof.
  intros Hu Hapi. unfold middleware, middleware_kepsek, unauthenticated.
  rewrite Hu, Hapi. split; reflexivity.
Qed.

(** C1 (as amended): on the root path every authenticated actor is
    redirected, with status 302, to exactly one landing route, which the
    resolved profile decides.  In both revisions admin lands on
    [/dashboard], student on [/siswa], and the role [unknown], a missing
    profile or a profile without role id on [/unknown].  In the first
    revision every teacher lands on [/guru], the flag or role id 6
    notwithstanding; any other actor who is supervisor-capable (role name
    [guruwali], the flag, or role id 6) lands on [/guruwali], a flagged
    parent included; a parent who is not capable lands on [/orangtua] and
    every other role, [kepsek] included, on [/unknown].  In the later
    revision an actor whose role name is [guruwali] or whose role id is 6
    lands on [/guruwali], also when the role is named [teacher]; otherwise
    [kepsek] lands on [/kepsek], teacher on [/guru] and parent on
    [/orangtua], with or without the flag, and every other role on
    [/unknown]. *)
Theorem root_dispatch_by_role (req : request) (uid : string) :
  user req = Some uid -> pathname req = "/" ->
  (exists t, middleware req = landing t)
  /\ (exists t, middleware_kepsek req = landing t)
  /\ ((find_profile req uid = None
       \/ exists profile, find_profile req uid = Some profile
                          /\ truthy_roleid (roleid profile) = false) ->
      middleware req = landing "/unknown"
      /\ middleware_kepsek req = landing "/unknown")
  /\ (forall profile,
        find_profile req uid = Some profile ->
        truthy_roleid (roleid profile) = true ->
        let roleKey := roleKey_for req profile in
        let flag := is_guruwali profile = Some true in
        let six := roleid profile = Some 6 in
        (roleKey = "admin" ->
           middleware req = landing "/dashboard"
           /\ middleware_kepsek req = landing "/dashboard")
        /\ (roleKey = "student" ->
           middleware req = landing "/siswa"
           /\ middleware_kepsek req = landing "/siswa")
        /\ (roleKey = "unknown" ->
           middleware req = landing "/unknown"
           /\ middleware_kepsek req = landing "/unknown")
        /\ (roleKey = "teacher" -> middleware req = landing "/guru")
        /\ (~ In roleKey ["admin"; "student"; "unknown"; "teacher"] ->
            roleKey = "guruwali" \/ flag \/ six ->
            middleware req = landing "/guruwali")
        /\ (roleKey = "parent" -> ~ flag -> ~ six ->
            middleware req = landing "/orangtua")
        /\ (~ In roleKey ["admin"; "student"; "unknown"; "teacher";
                          "guruwali"; "parent"] ->
            ~ flag -> ~ six ->
            middleware req = landing "/unknown")
        /\ (~ In roleKey ["admin"; "student"; "unknown"] ->
            roleKey = "guruwali" \/ six ->
            middleware_kepsek req = landing "/guruwali")
        /\ (roleKey = "kepsek" -> ~ six ->
            middleware_kepsek req = landing "/kepsek")
        /\ (roleKey = "teacher" -> ~ six ->
            middleware_kepsek req = landing "/guru")
        /\ (roleKey = "parent" -> ~ six ->
            middleware_kepsek req = landing "/orangtua")
        /\ (~ In roleKey ["admin"; "student"; "unknown"; "guruwali";
                          "kepsek"; "teacher"; "parent"] ->
            ~ six ->
            middleware_kepsek req = landing "/unknown")).
Proof.
  intros Hu Hroot.
  assert (Hcases : forall profile,
             find_profile req uid = Some profile ->
             truthy_roleid (roleid profile) = true ->
             forall rk, roleKey_for req profile = rk ->
             first_return
               [ guard_unknown "/" rk;
                 root_redirect "/" rk
                   (String.eqb rk "guruwali"
                    || (is_true (is_guruwali profile)
                        || roleid_eqb (roleid profile) 6
                        || String.eqb rk "guruwali"))%bool ]
             = Some (middleware req)
             /\ first_return
               [ guard_unknown "/" rk;
                 root_redirect_kepsek "/" rk
                   (String.eqb rk "guruwali"
                    || roleid_eqb (roleid profile) 6)%bool ]
               = Some (middleware_kepsek req)).
  { intros profile Hp Ht rk Hrk.
    exact (root_resolved_eq req uid profile rk Hu Hroot Hp Ht Hrk). }
  assert (Hun := middleware_unresolved req uid Hu Hroot).
  assert (Htotal : (exists t, middleware req = landing t)
                   /\ (exists t, middleware_kepsek req = landing t)).
  { destruct (find_profile req uid) as [profile|] eqn:Hp.
    - destruct (truthy_roleid (roleid profile)) eqn:Ht.
      + destruct (Hcases profile eq_refl Ht _ eq_refl) as [E1 E2].
        unfold guard_unknown, root_redirect, root_redirect_kepsek, redirect
          in E1, E2.
        cbn [first_return String.eqb negb andb] in E1, E2.
        split.
        * revert E1.
          repeat match goal with
                 | |- context [if ?b then _ else _] => destruct b
                 end; cbn [first_return]; intros [= <-]; eauto.
        * revert E2.
          repeat match goal with
                 | |- context [if ?b then _ else _] => destruct b
                 end; cbn [first_return]; intros [= <-]; eauto.
      + destruct Hun as [U1 U2]; [right; eauto|]. split; eauto.
    - destruct Hun as [U1 U2]; [left; reflexivity|]. split; eauto. }
  destruct Htotal as [T1 T2].
  split; [exact T1|]. split; [exact T2|]. split; [exact Hun|].
  intros profile Hp Ht roleKey flag six.
  assert (Hopen : forall r, roleKey <> r -> String.eqb roleKey r = false).
  { intros r. apply eqb_false. }
  assert (Hout : forall l r, ~ In roleKey l -> In r l ->
                             String.eqb roleKey r = false).
  { intros l r Hl Hr. apply eqb_false. intros E. apply Hl. now rewrite E. }
  assert (Hflag : ~ flag -> is_true (is_guruwali profile) = false).
  { apply is_true_false. }
  assert (Hsix : ~ six -> roleid_eqb (roleid profile) 6 = false).
  { apply roleid_is_false. }
  assert (Hflag' : flag -> is_true (is_guruwali profile) = true).
  { unfold flag. intros ->. reflexivity. }
  assert (Hsix' : six -> roleid_eqb (roleid profile) 6 = true).
  { unfold six. intros ->. reflexivity. }
  assert (E : first_return
                [ guard_unknown "/" roleKey;
                  root_redirect "/" roleKey
                    (String.eqb roleKey "guruwali"
                     || (is_true (is_guruwali profile)
                         || roleid_eqb (roleid profile) 6
                         || String.eqb roleKey "guruwali"))%bool ]
              = Some (middleware req)
              /\ first_return
                [ guard_unknown "/" roleKey;
                  root_redirect_kepsek "/" roleKey
                    (String.eqb roleKey "guruwali"
                     || roleid_eqb (roleid profile) 6)%bool ]
                = Some (middleware_kepsek req))
    by exact (Hcases profile Hp Ht _ eq_refl).
  destruct E as [E1 E2].
  unfold guard_unknown, root_redirect, root_redirect_kepsek, redirect
    in E1, E2.
  cbn [first_return String.eqb negb andb] in E1, E2.
  refine (conj _ (conj _ (conj _ (conj _ (conj _ (conj _ (conj _
           (conj _ (conj _ (conj _ (conj _ _))))))))))).
  - intros Hrk. rewrite Hrk in E1, E2. cbn in E1, E2. split; congruence.
  - intros Hrk. rewrite Hrk in E1, E2. cbn in E1, E2. split; congruence.
  - intros Hrk. rewrite Hrk in E1, E2. cbn in E1, E2. split; congruence.
  - intros Hrk. rewrite Hrk in E1. cbn in E1. congruence.
  - intros Hl Hcap.
    rewrite (Hout _ "unknown" Hl), (Hout _ "admin" Hl),
      (Hout _ "student" Hl), (Hout _ "teacher" Hl) in E1 by (simpl; tauto).
    cbn [first_return] in E1.
    assert (Hc : (String.eqb roleKey "guruwali"
                  || (is_true (is_guruwali profile)
                      || roleid_eqb (roleid profile) 6
                      || String.eqb roleKey "guruwali"))%bool = true).
    { destruct Hcap as [Hg|[Hf|H6]].
      - rewrite Hg. reflexivity.
      - rewrite (Hflag' Hf). apply orb_true_r.
      - rewrite (Hsix' H6). rewrite orb_true_r. apply orb_true_r. }
    rewrite Hc in E1. cbn in E1. congruence.
  - intros Hrk Hf H6. rewrite (Hflag Hf), (Hsix H6), Hrk in E1.
    cbn in E1. congruence.
  - intros Hl Hf H6.
    rewrite (Hflag Hf), (Hsix H6), (Hout _ "unknown" Hl),
      (Hout _ "admin" Hl), (Hout _ "student" Hl), (Hout _ "teacher" Hl),
      (Hout _ "guruwali" Hl), (Hout _ "parent" Hl) in E1 by (simpl; tauto).
    cbn in E1. congruence.
  - intros Hl Hcap.
    rewrite (Hout _ "unknown" Hl), (Hout _ "admin" Hl),
      (Hout _ "student" Hl) in E2 by (simpl; tauto).
    cbn [first_return] in E2.
    assert (Hc : (String.eqb roleKey "guruwali"
                  || roleid_eqb (roleid profile) 6)%bool = true).
    { destruct Hcap as [Hg|H6].
      - rewrite Hg. reflexivity.
      - rewrite (Hsix' H6). apply orb_true_r. }
    rewrite Hc in E2. cbn in E2. congruence.
  - intros Hrk H6. rewrite (Hsix H6), Hrk in E2. cbn in E2. congruence.
  - intros Hrk H6. rewrite (Hsix H6), Hrk in E2. cbn in E2. congruence.
  - intros Hrk H6. rewrite (Hsix H6), Hrk in E2. cbn in E2. congruence.
  - intros Hl H6.
    rewrite (Hsix H6), (Hout _ "unknown" Hl), (Hout _ "admin" Hl),
      (Hout _ "student" Hl), (Hout _ "guruwali" Hl), (Hout _ "kepsek" Hl),
      (Hout _ "teacher" Hl), (Hout _ "parent" Hl) in E2 by (simpl; tauto).
    cbn in E2. congruence.
Qed.

Lemma root_dispatch_by_role_witness :
  user (Samples.page "/" (Some "t1")) = Some "t1"
  /\ pathname (Samples.page "/" (Some "t1")) = "/"
  /\ middleware (Samples.page "/" (Some "t1")) = landing "/guru"
  /\ middleware_kepsek (Samples.page "/" (Some "t1")) = landing "/guru".
Proof.
  split; [reflexivity|]. split; [reflexivity|].
  pose proof (root_dispatch_by_role (Samples.page "/" (Some "t1")) "t1"
                eq_refl eq_refl) as (_ & _ & _ & Hroles).
  specialize (Hroles (Samples.profile "t1" 2 (Some "7A") (Some true) None)
                eq_refl eq_refl).
  destruct Hroles as (_ & _ & _ & Hfirst & _ & _ & _ & _ & _ & Hlater & _).
  split; [apply Hfirst; reflexivity|].
  apply Hlater; [reflexivity | discriminate].
Defined.

(** C1 (as stated) fails: a teacher who holds the supervision flag is sent
    to the teacher home, where the claim gives the supervisor home
    priority. *)
Lemma root_dispatch_flagged_teacher :
  find_profile (Samples.page "/" (Some "t1")) "t1"
    = Some (Samples.profile "t1" 2 (Some "7A") (Some true) None)
  /\ roleKey_for (Samples.page "/" (Some "t1"))
       (Samples.profile "t1" 2 (Some "7A") (Some true) None) = "teacher"
  /\ Spec.root_landing "teacher" true = "/guruwali"
  /\ middleware (Samples.page "/" (Some "t1"))
     <> landing (Spec.root_landing "teacher" true)
  /\ middleware_kepsek (Samples.page "/" (Some "t1"))
     <> landing (Spec.root_landing "teacher" true).
Proof. repeat split; try reflexivity; vm_compute; discriminate. Qed.

(** C2 (as amended): route protection matches by plain string prefix.  The
    [/guru] check fires exactly on the paths that begin with [/guru], for an
    actor who is neither teacher nor supervisor-capable; this covers every
    boundary-exact match and every path that begins with [/guruwali], where
    the check answers as the [/guruwali] check does. *)
Theorem guru_guard_prefix (pathname roleKey : string) (guruwali : bool) :
  (guard_guru pathname roleKey guruwali <> None <->
     JS.startsWith pathname "/guru" = true
     /\ roleKey <> "teacher" /\ guruwali = false)
  /\ (Spec.boundary_match pathname "/guru" = true ->
      JS.startsWith pathname "/guru" = true)
  /\ (JS.startsWith pathname "/guruwali" = true ->
      JS.startsWith pathname "/guru" = true)
  /\ (JS.startsWith pathname "/guruwali" = true ->
      guard_guru pathname roleKey guruwali <> None ->
      guard_guru pathname roleKey guruwali
      = guard_guruwali pathname roleKey guruwali).
Proof.
  assert (Hsub : JS.startsWith pathname "/guruwali" = true ->
                 JS.startsWith pathname "/guru" = true).
  { intros H. eapply startsWith_trans; [exact H | reflexivity]. }
  assert (Hfire : guard_guru pathname roleKey guruwali <> None <->
                  JS.startsWith pathname "/guru" = true
                  /\ roleKey <> "teacher" /\ guruwali = false).
  { unfold guard_guru, redirect.
    destruct (JS.startsWith pathname "/guru"); cbn [andb].
    - destruct (String.eqb_spec roleKey "teacher") as [E|E]; cbn [negb andb].
      + split; [congruence | tauto].
      + destruct guruwali; cbn [negb].
        * split; [congruence | intros (_ & _ & H); discriminate].
        * split; [tauto|]. intros _.
          repeat match goal with
                 | |- context [if ?b then _ else _] => destruct b
                 end; discriminate.
    - split; [congruence | intros (H & _); discriminate]. }
  split; [exact Hfire|]. split; [|split; [exact Hsub|]].
  - unfold Spec.boundary_match. intros H.
    apply orb_true_iff in H as [H|H].
    + apply String.eqb_eq in H. subst pathname. reflexivity.
    + eapply startsWith_trans; [exact H | reflexivity].
  - intros Hw Hf. apply Hfire in Hf as (Hg & Ht & ->).
    unfold guard_guru, guard_guruwali. rewrite Hw, Hg.
    rewrite (eqb_false _ _ Ht). reflexivity.
Qed.

Lemma guru_guard_prefix_witness :
  JS.startsWith "/guruwali/students" "/guruwali" = true
  /\ guard_guru "/guruwali/students" "parent" false <> None
  /\ guard_guru "/guruwali/students" "parent" false
     = guard_guruwali "/guruwali/students" "parent" false.
Proof.
  split; [reflexivity|]. split; [discriminate|].
  apply (guru_guard_prefix "/guruwali/students" "parent" false);
    [reflexivity | discriminate].
Defined.

(** C2 (as stated) fails: the [/guru] check matches the longer sibling
    segments [/gurux] and [/guruwali], which are no boundary-exact
    matches. *)
Lemma guru_guard_matches_siblings :
  Spec.boundary_match "/gurux" "/guru" = false
  /\ guard_guru "/gurux" "parent" false = Some (landing "/orangtua")
  /\ middleware (Samples.page "/gurux" (Some "p1")) = landing "/orangtua"
  /\ middleware_kepsek (Samples.page "/gurux" (Some "p1")) = landing "/orangtua"
  /\ Spec.boundary_match "/guruwali" "/guru" = false
  /\ guard_guru "/guruwali" "student" false = Some (landing "/siswa").
Proof. repeat split; reflexivity. Qed.

Lemma startsWith_split (s p : string) :
  JS.startsWith s p = true -> exists rest, s = p ++ rest.
Proof.
  unfold JS.startsWith. revert s.
  induction p as [|c p IH]; intros s H; [now exists s|].
  destruct s as [|c' s]; cbn [String.prefix] in H; [discriminate|].
  destruct (ascii_dec c c'); [subst c'|discriminate].
  destruct (IH s H) as [rest ->]. now exists rest.
Qed.

Lemma api_path_shape (p : string) :
  isApiRoute p = true -> exists rest, p = "/api" ++ rest.
Proof. apply startsWith_split. Qed.

(** Whatever the API path, an authenticated request whose profile is
    missing, has no role id, or has the role [unknown] is redirected. *)
Lemma api_unresolved_redirect (req : request) (uid : string) :
  user req = Some uid -> isApiRoute (pathname req) = true ->
  ((find_profile req uid = None
    \/ exists profile, find_profile req uid = Some profile
                       /\ truthy_roleid (roleid profile) = false) ->
   middleware req = landing "/unknown"
   /\ middleware_kepsek req = landing "/unknown")
  /\ (forall profile,
        find_profile req uid = Some profile ->
        truthy_roleid (roleid profile) = true ->
        roleKey_for req profile = "unknown" ->
        middleware req = landing "/unknown"
        /\ middleware_kepsek req = landing "/unknown").
Proof.
  intros Hu Hapi. destruct (api_path_shape _ Hapi) as [rest Hp].
  unfold middleware, middleware_kepsek, authenticated, authenticated_kepsek,
    without_profile.
  rewrite Hu, Hp. split.
  - intros [Hn | (profile & Hn & Ht)]; rewrite Hn; [|rewrite Ht];
      split; reflexivity.
  - intros profile Hn Ht Hrk. rewrite Hn, Ht.
    unfold with_profile, with_profile_kepsek. rewrite Hrk, Hp.
    split; reflexivity.
Qed.

(** C3: an authenticated API request whose profile is unresolved (no
    profile row, or the role [unknown]) is answered with a 302 redirect to
    [/unknown], not with a 403 error record. *)
Theorem api_unresolved_is_redirected :
  isApiRoute "/api/teacher/students" = true
  /\ find_profile (Samples.page "/api/teacher/students" (Some "nobody"))
       "nobody" = None
  /\ middleware (Samples.page "/api/teacher/students" (Some "nobody"))
     = Redirect "/unknown" None 302
  /\ middleware_kepsek (Samples.page "/api/teacher/students" (Some "nobody"))
     = Redirect "/unknown" None 302
  /\ roleKey_for (Samples.page "/api/teacher/students" (Some "u1"))
       (Samples.profile "u1" 1 None None None) = "unknown"
  /\ middleware (Samples.page "/api/teacher/students" (Some "u1"))
     = Redirect "/unknown" None 302
  /\ middleware_kepsek (Samples.page "/api/teacher/students" (Some "u1"))
     = Redirect "/unknown" None 302.
Proof. repeat split; reflexivity. Qed.

End RouteGuardFacts.


(** ** Alias expansion *)

Module ExpandFacts.

Import TeacherStudents.

Lemma set_has_In (s : list string) (x : string) :
  JS.set_has s x = true <-> In x s.
Proof.
  unfold JS.set_has. rewrite List.existsb_exists. split.
  - intros (y & Hy & E). apply String.eqb_eq in E. now subst y.
  - intros H. exists x. split; [exact H | apply String.eqb_refl].
Qed.

Lemma set_has_not_In (s : list string) (x : string) :
  JS.set_has s x = false <-> ~ In x s.
Proof.
  rewrite <- set_has_In. destruct (JS.set_has s x); split; congruence.
Qed.

Lemma set_add_In (s : list string) (x y : string) :
  In y (JS.set_add s x) <-> In y s \/ y = x.
Proof.
  unfold JS.set_add. destruct (JS.set_has s x) eqn:E.
  - apply set_has_In in E. split; [tauto|]. intros [H| ->]; assumption.
  - rewrite List.in_app_iff. simpl. intuition congruence.
Qed.

Lemma set_add_present (s : list string) (x : string) :
  In x s -> JS.set_add s x = s.
Proof.
  intros H. unfold JS.set_add. apply set_has_In in H. now rewrite H.
Qed.

Lemma NoDup_snoc (s : list string) (x : string) :
  List.NoDup s -> ~ In x s -> List.NoDup (s ++ [x]).
Proof.
  induction s as [|a s IH]; simpl; intros Hs Hx.
  - constructor; [intros []| constructor].
  - inversion Hs as [|? ? Ha Hs']; subst. constructor.
    + rewrite List.in_app_iff. simpl. intros [H|[H|[]]]; [tauto|].
      apply Hx. now left.
    + apply IH; [exact Hs' | tauto].
Qed.

Lemma set_add_NoDup (s : list string) (x : string) :
  List.NoDup s -> List.NoDup (JS.set_add s x).
Proof.
  intros Hs. unfold JS.set_add. destruct (JS.set_has s x) eqn:E; [exact Hs|].
  apply NoDup_snoc; [exact Hs | now apply set_has_not_In].
Qed.

Lemma add_all_In (l s : list string) (y : string) :
  In y (fold_left JS.set_add l s) <-> In y s \/ In y l.
Proof.
  revert s. induction l as [|x l IH]; intros s; simpl; [tauto|].
  rewrite IH, set_add_In. split; intros H; intuition auto.
Qed.

Lemma add_all_NoDup (l s : list string) :
  List.NoDup s -> List.NoDup (fold_left JS.set_add l s).
Proof.
  revert s. induction l as [|x l IH]; intros s Hs; simpl; [exact Hs|].
  apply IH, set_add_NoDup, Hs.
Qed.

Lemma add_all_present (l s : list string) :
  (forall x, In x l -> In x s) -> fold_left JS.set_add l s = s.
Proof.
  induction l as [|x l IH]; intros H; simpl; [reflexivity|].
  rewrite set_add_present by (apply H; now left).
  apply IH. intros y Hy. apply H. now right.
Qed.

(** Building a set from a list without repetitions gives the list back. *)
Lemma add_all_fresh (l s : list string) :
  List.NoDup (s ++ l)%list -> fold_left JS.set_add l s = (s ++ l)%list.
Proof.
  revert s. induction l as [|x l IH]; intros s H; simpl.
  - now rewrite List.app_nil_r.
  - assert (Hx : ~ In x s).
    { intros Hin. apply List.NoDup_remove_2 in H. apply H.
      rewrite List.in_app_iff. now left. }
    unfold JS.set_add at 2. apply set_has_not_In in Hx. rewrite Hx.
    rewrite IH; rewrite <- List.app_assoc; simpl; [reflexivity | exact H].
Qed.

Lemma set_of_NoDup_id (l : list string) : List.NoDup l -> JS.set_of l = l.
Proof. intros H. unfold JS.set_of. now rewrite add_all_fresh. Qed.

Lemma set_of_In (l : list string) (y : string) : In y (JS.set_of l) <-> In y l.
Proof. unfold JS.set_of. rewrite add_all_In. simpl. tauto. Qed.

Lemma set_of_NoDup (l : list string) : List.NoDup (JS.set_of l).
Proof. apply add_all_NoDup. constructor. Qed.

Lemma expand_step_hit (s : list string) (entry : string * list string) :
  hit s entry ->
  forall y, In y (expand_step s entry) <-> In y s \/ In y (fst entry :: snd entry).
Proof.
  destruct entry as [primary list]. intros (x & Hx & Hs) y.
  unfold expand_step.
  assert (E : (existsb (JS.set_has s) list || JS.set_has s primary)%bool = true).
  { apply orb_true_iff. simpl in Hx. destruct Hx as [<-|Hx].
    - right. now apply set_has_In.
    - left. apply List.existsb_exists. exists x. split; [exact Hx|].
      now apply set_has_In. }
  rewrite E, add_all_In, set_add_In. simpl. intuition auto.
Qed.

Lemma expand_step_miss (s : list string) (entry : string * list string) :
  ~ hit s entry -> expand_step s entry = s.
Proof.
  destruct entry as [primary list]. intros H. unfold expand_step.
  destruct (existsb (JS.set_has s) list || JS.set_has s primary)%bool eqn:E;
    [|reflexivity].
  exfalso. apply H. apply orb_true_iff in E as [E|E].
  - apply List.existsb_exists in E as (x & Hx & Hs). exists x. simpl.
    split; [now right | now apply set_has_In].
  - exists primary. simpl. split; [now left | now apply set_has_In].
Qed.

Lemma expand_step_full (s : list string) (entry : string * list string) :
  full s entry -> expand_step s entry = s.
Proof.
  destruct entry as [primary list]. intros H. unfold expand_step.
  destruct (existsb (JS.set_has s) list || JS.set_has s primary)%bool;
    [|reflexivity].
  rewrite set_add_present by (apply H; now left).
  apply add_all_present. intros x Hx. apply H. now right.
Qed.

Lemma expand_step_incl (s : list string) (entry : string * list string) (y : string) :
  In y s -> In y (expand_step s entry).
Proof.
  intros Hy. destruct entry as [primary list]. unfold expand_step.
  destruct (existsb (JS.set_has s) list || JS.set_has s primary)%bool;
    [|exact Hy].
  rewrite add_all_In, set_add_In. tauto.
Qed.

Lemma expand_step_NoDup (s : list string) (entry : string * list string) :
  List.NoDup s -> List.NoDup (expand_step s entry).
Proof.
  intros Hs. destruct entry as [primary list]. unfold expand_step.
  destruct (existsb (JS.set_has s) list || JS.set_has s primary)%bool;
    [|exact Hs].
  apply add_all_NoDup, set_add_NoDup, Hs.
Qed.

Lemma hit_dec (s : list string) (entry : string * list string) :
  hit s entry \/ ~ hit s entry.
Proof.
  destruct (existsb (JS.set_has s) (fst entry :: snd entry)) eqn:E.
  - left. apply List.existsb_exists in E as (x & Hx & Hs).
    exists x. split; [exact Hx | now apply set_has_In].
  - right. intros (x & Hx & Hs).
    assert (existsb (JS.set_has s) (fst entry :: snd entry) = true).
    { apply List.existsb_exists. exists x. split; [exact Hx|].
      now apply set_has_In. }
    congruence.
Qed.

Lemma expand_fold_incl (aliases : list (string * list string))
    (s : list string) (y : string) :
  In y s -> In y (fold_left expand_step aliases s).
Proof.
  revert s. induction aliases as [|e t IH]; intros s Hy; simpl; [exact Hy|].
  apply IH, expand_step_incl, Hy.
Qed.

Lemma expand_fold_NoDup (aliases : list (string * list string))
    (s : list string) :
  List.NoDup s -> List.NoDup (fold_left expand_step aliases s).
Proof.
  revert s. induction aliases as [|e t IH]; intros s Hs; simpl; [exact Hs|].
  apply IH, expand_step_NoDup, Hs.
Qed.

Example expand_samples :
  expandWithVerifiedAliases ["a"; "eca885ad-1119-48ca-8efe-91efcbfb54b4"; "a"]
  = ["a"; "eca885ad-1119-48ca-8efe-91efcbfb54b4";
     "6f07ae03-187e-4e25-a519-9f72f96f22ff"]
  /\ expandWithVerifiedAliases ["a"; "b"] = ["a"; "b"].
Proof. split; reflexivity. Qed.

Section Closed.

Variable aliases : list (string * list string).

(** The groups of the alias table are closed: two groups that share an id
    have the same members. *)
Hypothesis groups_closed :
  forall e1 e2, In e1 aliases -> In e2 aliases ->
    (exists x, In x (fst e1 :: snd e1) /\ In x (fst e2 :: snd e2)) ->
    forall x, In x (fst e1 :: snd e1) <-> In x (fst e2 :: snd e2).

(** One pass over the table leaves a set that is closed under group
    membership. *)
Lemma expand_fold_closed (todo done : list (string * list string))
    (s : list string) :
  (forall e, In e (done ++ todo)%list -> In e aliases) ->
  (forall e, In e done -> hit s e -> full s e) ->
  forall e, In e (done ++ todo)%list ->
    hit (fold_left expand_step todo s) e ->
    full (fold_left expand_step todo s) e.
Proof.
  revert done s. induction todo as [|e0 todo IH]; intros done s Hin Hdone e He.
  - rewrite List.app_nil_r in He. simpl. now apply Hdone.
  - simpl. apply (IH (done ++ [e0])%list).
    + intros e' He'. apply Hin. rewrite <- List.app_assoc in He'. exact He'.
    + intros e' He' Hhit.
      destruct (hit_dec s e0) as [H0|H0].
      * assert (Hfull0 : full (expand_step s e0) e0).
        { intros x Hx. apply (expand_step_hit s e0 H0). now right. }
        apply List.in_app_iff in He' as [He'|[<-|[]]]; [|exact Hfull0].
        destruct Hhit as (x & Hx & Hs).
        apply (expand_step_hit s e0 H0) in Hs as [Hs|Hs].
        -- intros y Hy. apply expand_step_incl.
           apply (Hdone e' He'); [|exact Hy]. now exists x.
        -- intros y Hy. apply Hfull0.
           apply (groups_closed e' e0); auto.
           ++ apply Hin. rewrite List.in_app_iff. now left.
           ++ apply Hin. rewrite List.in_app_iff. right. now left.
           ++ now exists x.
      * rewrite (expand_step_miss s e0 H0) in *.
        apply List.in_app_iff in He' as [He'|[<-|[]]]; [|contradiction].
        now apply Hdone.
    + rewrite <- List.app_assoc. exact He.
Qed.

Lemma expand_with_closed (ids : list string) (e : string * list string) :
  In e aliases -> hit (expand_with aliases ids) e -> full (expand_with aliases ids) e.
Proof.
  intros He. unfold expand_with.
  apply (expand_fold_closed aliases [] (JS.set_of ids)); simpl; auto.
  intros ? [].
Qed.

Lemma expand_fold_fixed (todo : list (string * list string)) (s : list string) :
  (forall e, In e todo -> hit s e -> full s e) ->
  fold_left expand_step todo s = s.
Proof.
  induction todo as [|e0 todo IH]; intros H; simpl; [reflexivity|].
  assert (E : expand_step s e0 = s).
  { destruct (hit_dec s e0) as [H0|H0].
    - apply expand_step_full, H; [now left | exact H0].
    - now apply expand_step_miss. }
  rewrite E. apply IH. intros e He. apply H. now right.
Qed.

(** Expanding twice over a closed alias table is expanding once. *)
Lemma expand_with_idempotent (ids : list string) :
  expand_with aliases (expand_with aliases ids) = expand_with aliases ids.
Proof.
  unfold expand_with at 1.
  rewrite set_of_NoDup_id.
  - apply expand_fold_fixed. intros e He. now apply expand_with_closed.
  - apply expand_fold_NoDup, set_of_NoDup.
Qed.

End Closed.

Lemma VERIFIED_ALIASES_closed :
  forall e1 e2, In e1 VERIFIED_ALIASES -> In e2 VERIFIED_ALIASES ->
    (exists x, In x (fst e1 :: snd e1) /\ In x (fst e2 :: snd e2)) ->
    forall x, In x (fst e1 :: snd e1) <-> In x (fst e2 :: snd e2).
Proof.
  intros e1 e2 H1 H2 _ x.
  destruct H1 as [<-|[<-|[]]]; destruct H2 as [<-|[<-|[]]]; simpl; tauto.
Qed.

(** C9: [expandWithVerifiedAliases] is idempotent; its result contains the
    seed ids and, as soon as it contains one id of an alias group, every
    member of the group, the primary included. *)
Theorem expand_idempotent (ids : list string) :
  expandWithVerifiedAliases (expandWithVerifiedAliases ids)
  = expandWithVerifiedAliases ids
  /\ (forall x, In x ids -> In x (expandWithVerifiedAliases ids))
  /\ (forall primary list x y,
        In (primary, list) VERIFIED_ALIASES ->
        In x (primary :: list) -> In x (expandWithVerifiedAliases ids) ->
        In y (primary :: list) -> In y (expandWithVerifiedAliases ids)).
Proof.
  split; [|split].
  - apply expand_with_idempotent, VERIFIED_ALIASES_closed.
  - intros x Hx. apply expand_fold_incl, set_of_In, Hx.
  - intros primary list x y He Hx Hin Hy.
    apply (expand_with_closed VERIFIED_ALIASES VERIFIED_ALIASES_closed ids
             (primary, list) He); [|exact Hy].
    now exists x.
Qed.

End ExpandFacts.


(** ** Statistics aggregation *)

Module AggregateFacts.

Import TeacherStudents.

(** *** The order of timestamps *)

Lemma compare_trans (c : comparison) (a b d : string) :
  String.compare a b = c -> String.compare b d = c -> String.compare a d = c.
Proof.
  revert b d. induction a as [|x a IH]; intros [|y b] [|z d]; simpl;
    try congruence.
  unfold Ascii.compare.
  destruct (N.compare_spec (N_of_ascii x) (N_of_ascii y)) as [E1|E1|E1];
    destruct (N.compare_spec (N_of_ascii y) (N_of_ascii z)) as [E2|E2|E2];
    destruct (N.compare_spec (N_of_ascii x) (N_of_ascii z)) as [E3|E3|E3];
    try lia; try congruence.
  apply IH.
Qed.

Lemma compare_refl (a : string) : String.compare a a = Eq.
Proof.
  induction a as [|x a IH]; simpl; [reflexivity|].
  unfold Ascii.compare. now rewrite N.compare_refl.
Qed.

Lemma compare_empty_l (a : string) : String.compare "" a <> Gt.
Proof. destruct a; simpl; congruence. Qed.

(** The later of two timestamps. *)
Lemma later_comm (a b : string) :
  (if JS.gt b a then b else a) = (if JS.gt a b then a else b).
Proof.
  unfold JS.gt. rewrite (String.compare_antisym b a).
  destruct (String.compare a b) eqn:E; simpl; try reflexivity.
  now apply String.compare_eq_iff in E.
Qed.

Lemma compare_flip (c : comparison) (a b : string) :
  String.compare a b = c -> String.compare b a = CompOpp c.
Proof. intros <-. apply String.compare_antisym. Qed.

(** Closes a goal whose comparisons are contradictory. *)
Ltac order_contradiction :=
  match goal with
  | H1 : String.compare ?a ?b = ?c, H2 : String.compare ?b ?d = ?c |- _ =>
      let H := fresh in
      pose proof (compare_trans c a b d H1 H2) as H;
      rewrite ?compare_refl in *; congruence
  end.

Lemma later_right_comm (a x y : string) :
  (if JS.gt y (if JS.gt x a then x else a) then y
   else if JS.gt x a then x else a)
  = (if JS.gt x (if JS.gt y a then y else a) then x
     else if JS.gt y a then y else a).
Proof.
  unfold JS.gt.
  destruct (String.compare x a) eqn:Exa;
    destruct (String.compare y a) eqn:Eya;
    destruct (String.compare y x) eqn:Eyx;
    pose proof (compare_flip _ _ _ Exa) as Aax;
    pose proof (compare_flip _ _ _ Eya) as Aay;
    pose proof (compare_flip _ _ _ Eyx) as Axy;
    simpl in Aax, Aay, Axy;
    repeat match goal with
           | H : String.compare ?a ?b = Eq |- _ =>
               apply String.compare_eq_iff in H; subst
           end;
    rewrite ?compare_refl in *;
    repeat match goal with
           | H : String.compare _ _ = _ |- _ => rewrite H
           end;
    try reflexivity; try congruence; order_contradiction.
Qed.

(** *** Merging statistics *)

Lemma pick_last_falsy (agg : option string) (x : string) :
  JS.truthy agg = false -> pick_last agg (Some x) = Some x.
Proof. intros H. unfold pick_last, takes_last. now rewrite H. Qed.

Lemma pick_last_truthy (a x : string) :
  a <> "" -> pick_last (Some a) (Some x) = Some (if JS.gt x a then x else a).
Proof.
  intros Ha. unfold pick_last, takes_last. simpl.
  apply String.eqb_neq in Ha. rewrite Ha. simpl.
  destruct (String.eqb_spec x "") as [->|Hx]; simpl.
  - unfold JS.gt. destruct (String.compare "" a) eqn:E; try reflexivity.
    now apply compare_empty_l in E.
  - destruct (JS.gt x a); reflexivity.
Qed.

Lemma gt_nonempty (x a : string) : JS.gt x a = true -> x <> "".
Proof.
  unfold JS.gt. intros H ->. destruct (String.compare "" a) eqn:E;
    try discriminate. now apply compare_empty_l in E.
Qed.

Lemma gt_empty_r (x : string) : x <> "" -> JS.gt x "" = true.
Proof. destruct x; [congruence | reflexivity]. Qed.

Lemma later_nonempty (a x : string) :
  a <> "" -> (if JS.gt x a then x else a) <> "".
Proof.
  intros Ha. destruct (JS.gt x a) eqn:E; [|exact Ha].
  eapply gt_nonempty, E.
Qed.

(** The timestamp kept after two members does not depend on their order,
    as long as both members carry a timestamp. *)
Lemma pick_last_comm (agg : option string) (x y : string) :
  pick_last (pick_last agg (Some x)) (Some y)
  = pick_last (pick_last agg (Some y)) (Some x).
Proof.
  destruct (JS.truthy agg) eqn:Hagg.
  - destruct agg as [a|]; [|discriminate]. simpl in Hagg.
    assert (Ha : a <> "").
    { intros ->. discriminate. }
    rewrite !(pick_last_truthy a) by exact Ha.
    rewrite !pick_last_truthy by (apply later_nonempty, Ha).
    f_equal. apply later_right_comm.
  - rewrite (pick_last_falsy agg x), (pick_last_falsy agg y) by exact Hagg.
    destruct (String.eqb_spec x "") as [->|Hx];
      destruct (String.eqb_spec y "") as [->|Hy].
    + reflexivity.
    + rewrite pick_last_falsy by reflexivity.
      rewrite pick_last_truthy by exact Hy.
      unfold JS.gt. destruct (String.compare "" y) eqn:E; try reflexivity.
      now apply compare_empty_l in E.
    + rewrite (pick_last_falsy (Some "")) by reflexivity.
      rewrite pick_last_truthy by exact Hx.
      unfold JS.gt. destruct (String.compare "" x) eqn:E; try reflexivity.
      now apply compare_empty_l in E.
    + rewrite !pick_last_truthy by assumption.
      f_equal. apply later_comm.
Qed.

Lemma merge_stats_comm (agg s1 s2 : stats) :
  last s1 <> None -> last s2 <> None ->
  merge_stats (merge_stats agg s1) s2 = merge_stats (merge_stats agg s2) s1.
Proof.
  intros H1 H2. unfold merge_stats. simpl.
  destruct (last s1) as [x|] eqn:E1; [|congruence].
  destruct (last s2) as [y|] eqn:E2; [|congruence].
  f_equal; try lia.
  apply (pick_last_comm (last agg) x y).
Qed.

Lemma merge_zero (s : stats) : merge_stats zero_stats s = s.
Proof. destruct s as [t c l]. unfold merge_stats. simpl. f_equal. Qed.

(** *** One turn of the loops, in either order *)

Lemma aggregate_step2_comm (aliases : list (string * list string))
    (m : gmap string stats) (a b : string * stats) :
  last (snd a) <> None -> last (snd b) <> None ->
  aggregate_step2 aliases (aggregate_step2 aliases m a) b
  = aggregate_step2 aliases (aggregate_step2 aliases m b) a.
Proof.
  destruct a as [u1 s1], b as [u2 s2]. simpl. intros H1 H2.
  unfold aggregate_step2.
  destruct (decide (primary_or_self aliases u1 = primary_or_self aliases u2))
    as [E|E].
  - rewrite E, !lookup_insert_eq, !insert_insert_eq.
    f_equal. now apply merge_stats_comm.
  - rewrite !lookup_insert_ne by congruence.
    now apply insert_insert_ne.
Qed.

Lemma aggregate_step_comm (aliases : list (string * list string))
    (m : gmap string stats) (a b : string * stats) :
  primaries_listed aliases ->
  last (snd a) <> None -> last (snd b) <> None -> fst a <> fst b ->
  aggregate_step aliases (aggregate_step aliases m a) b
  = aggregate_step aliases (aggregate_step aliases m b) a.
Proof.
  destruct a as [u1 s1], b as [u2 s2]. simpl. intros Hwf H1 H2 Hne.
  unfold aggregate_step.
  destruct (JS.entries_get aliases u1) as [l1|] eqn:E1;
    destruct (JS.entries_get aliases u2) as [l2|] eqn:E2.
  - destruct (decide (first_alias l1 = first_alias l2)) as [E|E].
    + rewrite E, !lookup_insert_eq, !insert_insert_eq.
      f_equal. now apply merge_stats_comm.
    + rewrite !lookup_insert_ne by congruence.
      now apply insert_insert_ne.
  - assert (Hp : first_alias l1 <> u2).
    { intros <-. now apply (Hwf u1 l1 E1). }
    rewrite lookup_insert_ne by congruence.
    now apply insert_insert_ne.
  - assert (Hp : first_alias l2 <> u1).
    { intros <-. now apply (Hwf u2 l2 E2). }
    rewrite lookup_insert_ne by congruence.
    now apply insert_insert_ne.
  - now apply insert_insert_ne.
Qed.

(** A loop whose turns commute on entries with distinct keys gives the
    same result on every arrangement of the entries. *)
Lemma fold_left_permutation
    (f : gmap string stats -> string * stats -> gmap string stats)
    (Q : string * stats -> Prop) :
  (forall m a b, Q a -> Q b -> fst a <> fst b -> f (f m a) b = f (f m b) a) ->
  forall l l', Permutation l l' ->
    List.NoDup (map fst l) -> (forall a, In a l -> Q a) ->
    forall m, fold_left f l m = fold_left f l' m.
Proof.
  intros Hcomm l l' Hperm.
  induction Hperm as [|x l l' Hperm IH|x y l|l l' l'' H1 IH1 H2 IH2];
    intros Hnd HQ m.
  - reflexivity.
  - simpl. apply IH.
    + now inversion Hnd.
    + intros a Ha. apply HQ. now right.
  - simpl. f_equal. apply Hcomm.
    + apply HQ. now left.
    + apply HQ. right. now left.
    + simpl in Hnd. inversion Hnd as [|? ? Hy _]; subst.
      intros E. apply Hy. left. now symmetry.
  - rewrite IH1 by assumption. apply IH2.
    + eapply Permutation_NoDup; [|exact Hnd]. now apply Permutation_map.
    + intros a Ha. apply HQ. eapply Permutation_in; [|exact Ha].
      now apply Permutation_sym.
Qed.

Lemma aggregate_with_permutation (aliases : list (string * list string))
    (byUser byUser' : list (string * stats)) :
  primaries_listed aliases ->
  List.NoDup (map fst byUser) ->
  (forall u s, In (u, s) byUser -> last s <> None) ->
  Permutation byUser byUser' ->
  aggregate_with aliases byUser = aggregate_with aliases byUser'
  /\ aggregate2_with aliases byUser = aggregate2_with aliases byUser'.
Proof.
  intros Hwf Hnd Hlast Hperm. unfold aggregate_with, aggregate2_with. split.
  - apply (fold_left_permutation _ (fun e => last (snd e) <> None));
      try assumption.
    + intros m a b Ha Hb Hab. now apply aggregate_step_comm.
    + intros [u s] H. now apply (Hlast u s).
  - apply (fold_left_permutation _ (fun e => last (snd e) <> None));
      try assumption.
    + intros m a b Ha Hb _. now apply aggregate_step2_comm.
    + intros [u s] H. now apply (Hlast u s).
Qed.

Lemma VERIFIED_ALIASES_primaries_listed : primaries_listed VERIFIED_ALIASES.
Proof.
  intros u l. unfold VERIFIED_ALIASES. cbn [JS.entries_get].
  repeat match goal with
         | |- context [String.eqb ?a u] => destruct (String.eqb a u)
         end; intros H; try discriminate H; injection H as <-;
    intros E; vm_compute in E; discriminate E.
Qed.

(** C8: [aggregate] does not depend on the iteration order of the raw
    statistics: any two arrangements of the entries of a raw stats map
    (distinct ids, each with its latest timestamp) give the same aggregated
    map, in both revisions of the route. *)
Theorem aggregate_order_independent (byUser byUser' : list (string * stats)) :
  List.NoDup (map fst byUser) ->
  (forall u s, In (u, s) byUser -> last s <> None) ->
  Permutation byUser byUser' ->
  aggregate byUser = aggregate byUser'
  /\ aggregate2 byUser = aggregate2 byUser'.
Proof.
  apply aggregate_with_permutation, VERIFIED_ALIASES_primaries_listed.
Qed.

End AggregateFacts.


(** ** Insertion-ordered maps *)

Module EntriesFacts.

Section Entries.

Context {V : Type}.

Lemma entries_set_keys (m : list (string * V)) (k k' : string) (v : V) :
  In k (map fst (JS.entries_set m k' v)) <-> In k (map fst m) \/ k = k'.
Proof.
  induction m as [|[k0 v0] m IH]; simpl.
  - intuition congruence.
  - destruct (String.eqb_spec k0 k') as [->|Hne]; simpl.
    + intuition congruence.
    + rewrite IH. tauto.
Qed.

Lemma entries_set_In (m : list (string * V)) (k k' : string) (v v' : V) :
  In (k, v) (JS.entries_set m k' v') -> In (k, v) m \/ (k = k' /\ v = v').
Proof.
  induction m as [|[k0 v0] m IH]; simpl.
  - intros [[= <- <-]|[]]. now right.
  - destruct (String.eqb_spec k0 k') as [->|Hne]; simpl.
    + intros [[= <- <-]|H]; [now right | left; now right].
    + intros [H|H]; [left; now left|].
      destruct (IH H) as [H'|H']; [left; now right | now right].
Qed.

Lemma entries_set_new (m : list (string * V)) (k : string) (v : V) :
  In (k, v) (JS.entries_set m k v).
Proof.
  induction m as [|[k0 v0] m IH]; simpl; [now left|].
  destruct (String.eqb k0 k); [now left | now right].
Qed.

Lemma entries_set_NoDup (m : list (string * V)) (k : string) (v : V) :
  List.NoDup (map fst m) -> List.NoDup (map fst (JS.entries_set m k v)).
Proof.
  induction m as [|[k0 v0] m IH]; simpl; intros H.
  - constructor; [intros [] | constructor].
  - inversion H as [|? ? Hk0 Hm]; subst.
    destruct (String.eqb_spec k0 k) as [->|Hne]; simpl.
    + now constructor.
    + constructor; [|now apply IH].
      rewrite entries_set_keys. intros [H'|H']; [tauto | congruence].
Qed.

Lemma entries_get_In (m : list (string * V)) (k : string) (v : V) :
  JS.entries_get m k = Some v -> In (k, v) m.
Proof.
  induction m as [|[k0 v0] m IH]; simpl; [discriminate|].
  destruct (String.eqb_spec k0 k) as [->|Hne].
  - intros [= ->]. now left.
  - intros H. right. now apply IH.
Qed.

(** A value that survives a [set] at a key it does not sit at was there
    before. *)
Lemma entries_set_other (m : list (string * V)) (k k' : string) (v v' : V) :
  k <> k' -> In (k, v) m -> In (k, v) (JS.entries_set m k' v').
Proof.
  intros Hne. induction m as [|[k0 v0] m IH]; simpl; [tauto|].
  destruct (String.eqb_spec k0 k') as [->|Hk].
  - intros [[= -> ->]|H]; [congruence | now right].
  - intros [H|H]; [now left | right; now apply IH].
Qed.

End Entries.

End EntriesFacts.


(** ** Raw statistics and their aggregation *)

Module RawStatsFacts.

Import TeacherStudents.

(** What holds of a raw stats map: the ids are distinct and every entry
    carries a timestamp. *)
Lemma raw_stats_step (step : list (string * stats) -> activity -> list (string * stats))
    (m : list (string * stats)) (a : activity) :
  (step = byUser_step \/ step = activityStats_step) ->
  (List.NoDup (map fst m) /\ forall u s, In (u, s) m -> last s <> None) ->
  List.NoDup (map fst (step m a))
  /\ forall u s, In (u, s) (step m a) -> last s <> None.
Proof.
  intros Hstep [Hnd Hlast].
  assert (Hnew : forall cur ts,
             (if newer ts (last cur) then Some ts else last cur) <> None
             \/ last cur = None /\ newer ts (last cur) = false).
  { intros cur ts. destruct (newer ts (last cur)) eqn:E; [left; discriminate|].
    destruct (last cur); [left; discriminate | now right]. }
  assert (Hnewer : forall ts, newer ts None = true) by reflexivity.
  destruct Hstep as [-> | ->].
  - unfold byUser_step.
    destruct (act_userid a) as [u0|]; [|now split].
    destruct (String.eqb u0 ""); [now split|].
    split; [now apply EntriesFacts.entries_set_NoDup|].
    intros u s H. apply EntriesFacts.entries_set_In in H as [H|[-> ->]];
      [now apply (Hlast u s)|].
    simpl. match goal with |- (if newer ?ts (last ?c) then _ else _) <> None =>
      destruct (Hnew c ts) as [H|[H1 H2]]; [exact H|] end.
    rewrite H1 in H2. now rewrite Hnewer in H2.
  - unfold activityStats_step.
    split; [now apply EntriesFacts.entries_set_NoDup|].
    intros u s H. apply EntriesFacts.entries_set_In in H as [H|[-> ->]];
      [now apply (Hlast u s)|].
    simpl. match goal with |- (if newer ?ts (last ?c) then _ else _) <> None =>
      destruct (Hnew c ts) as [H|[H1 H2]]; [exact H|] end.
    rewrite H1 in H2. now rewrite Hnewer in H2.
Qed.

Lemma raw_stats_fold (step : list (string * stats) -> activity -> list (string * stats))
    (rows : list activity) (m : list (string * stats)) :
  (step = byUser_step \/ step = activityStats_step) ->
  (List.NoDup (map fst m) /\ forall u s, In (u, s) m -> last s <> None) ->
  List.NoDup (map fst (fold_left step rows m))
  /\ forall u s, In (u, s) (fold_left step rows m) -> last s <> None.
Proof.
  intros Hstep. revert m. induction rows as [|a rows IH]; intros m H; simpl.
  - exact H.
  - apply IH. now apply raw_stats_step.
Qed.

(** The raw statistics the routes build satisfy the premises of the
    order-independence of [aggregate]. *)
Lemma byUser_of_raw_stats (activityRows : list activity) :
  (List.NoDup (map fst (byUser_of activityRows))
   /\ forall u s, In (u, s) (byUser_of activityRows) -> last s <> None)
  /\ (List.NoDup (map fst (activityStats_of activityRows))
      /\ forall u s, In (u, s) (activityStats_of activityRows) -> last s <> None).
Proof.
  split; apply raw_stats_fold; auto; (split; [constructor | intros ? ? []]).
Qed.

End RawStatsFacts.


(** ** Aggregation of an alias group *)

Module AliasGroupFacts.

Import TeacherStudents.

Section Unaliased.

Variable aliases : list (string * list string).
Hypothesis listed : primaries_listed aliases.

Variable k : string.
Hypothesis unaliased : JS.entries_get aliases k = None.

Lemma aggregate_step_unaliased (m : gmap string stats) (u : string) (s : stats) :
  u <> k -> aggregate_step aliases m (u, s) !! k = m !! k.
Proof.
  intros Hne. unfold aggregate_step.
  destruct (JS.entries_get aliases u) as [l|] eqn:E.
  - apply lookup_insert_ne. intros Hp.
    apply (listed u l E). now rewrite Hp.
  - now apply lookup_insert_ne.
Qed.

Lemma aggregate_step2_unaliased (m : gmap string stats) (u : string) (s : stats) :
  u <> k -> aggregate_step2 aliases m (u, s) !! k = m !! k.
Proof.
  intros Hne. unfold aggregate_step2.
  apply lookup_insert_ne. unfold primary_or_self.
  destruct (JS.entries_get aliases u) as [[|p l]|] eqn:E; try exact Hne.
  destruct (String.eqb p ""); [exact Hne|].
  intros Hp. apply (listed u (p :: l) E). simpl. now rewrite Hp.
Qed.

Lemma aggregate_fold_unaliased (l : list (string * stats)) (m : gmap string stats) :
  ~ In k (map fst l) ->
  fold_left (aggregate_step aliases) l m !! k = m !! k
  /\ fold_left (aggregate_step2 aliases) l m !! k = m !! k.
Proof.
  revert m. induction l as [|[u s] l IH]; intros m Hk; cbn [fold_left];
    [now split|].
  simpl in Hk.
  destruct (IH (aggregate_step aliases m (u, s))) as [E1 _]; [tauto|].
  destruct (IH (aggregate_step2 aliases m (u, s))) as [_ E2]; [tauto|].
  rewrite E1, E2.
  split; [apply aggregate_step_unaliased | apply aggregate_step2_unaliased];
    tauto.
Qed.

(** An id that is in no alias group keeps its statistics. *)
Lemma aggregate_unaliased (byUser : list (string * stats)) (s : stats) :
  List.NoDup (map fst byUser) -> In (k, s) byUser ->
  aggregate_with aliases byUser !! k = Some s
  /\ aggregate2_with aliases byUser !! k = Some s.
Proof.
  intros Hnd Hin. apply List.in_split in Hin as (l1 & l2 & ->).
  rewrite List.map_app in Hnd. simpl in Hnd.
  pose proof (List.NoDup_remove_2 _ _ _ Hnd) as Hk.
  rewrite List.in_app_iff in Hk.
  unfold aggregate_with, aggregate2_with. rewrite !List.fold_left_app.
  cbn [fold_left].
  destruct (aggregate_fold_unaliased l1 ∅) as [A1 A2]; [tauto|].
  destruct (aggregate_fold_unaliased l2
              (aggregate_step aliases
                 (fold_left (aggregate_step aliases) l1 ∅) (k, s)))
    as [B1 _]; [tauto|].
  destruct (aggregate_fold_unaliased l2
              (aggregate_step2 aliases
                 (fold_left (aggregate_step2 aliases) l1 ∅) (k, s)))
    as [_ B2]; [tauto|].
  rewrite B1, B2. split.
  - unfold aggregate_step at 1. rewrite unaliased. apply lookup_insert_eq.
  - unfold aggregate_step2 at 1. unfold primary_or_self.
    rewrite unaliased, lookup_insert_eq, A2, lookup_empty.
    f_equal. apply AggregateFacts.merge_zero.
Qed.

End Unaliased.

(** C7: for the alias group of [X] and [Y] with primary [X], the raw
    statistics 3 / 2024-01-01 of [X] and 2 / 2024-01-05 of [Y] are
    aggregated into the single entry 5 / 2024-01-05 of [X], in either order
    and in both revisions, so [Y] is absent; an id outside the group keeps
    its statistics. *)
Theorem aggregate_alias_group (X Y : string) (cx cy : Z) :
  X <> Y -> X <> "" ->
  let aliases := [(X, [X; Y]); (Y, [X; Y])] in
  let sx := {| total := 3; completed := cx; last := Some "2024-01-01" |} in
  let sy := {| total := 2; completed := cy; last := Some "2024-01-05" |} in
  let merged :=
    {| total := 5; completed := cx + cy; last := Some "2024-01-05" |} in
  aggregate_with aliases [(X, sx); (Y, sy)] = {[ X := merged ]}
  /\ aggregate_with aliases [(Y, sy); (X, sx)] = {[ X := merged ]}
  /\ aggregate2_with aliases [(X, sx); (Y, sy)] = {[ X := merged ]}
  /\ aggregate2_with aliases [(Y, sy); (X, sx)] = {[ X := merged ]}
  /\ aggregate_with aliases [(X, sx); (Y, sy)] !! Y = None
  /\ (forall byUser u s,
        List.NoDup (map fst byUser) -> In (u, s) byUser ->
        u <> X -> u <> Y ->
        aggregate_with aliases byUser !! u = Some s
        /\ aggregate2_with aliases byUser !! u = Some s).
Proof.
  intros Hxy Hx aliases sx sy merged.
  assert (EX : JS.entries_get aliases X = Some [X; Y]).
  { unfold aliases. cbn [JS.entries_get]. now rewrite String.eqb_refl. }
  assert (EY : JS.entries_get aliases Y = Some [X; Y]).
  { unfold aliases. cbn [JS.entries_get].
    rewrite (proj2 (String.eqb_neq X Y) Hxy). now rewrite String.eqb_refl. }
  assert (PX : primary_or_self aliases X = X).
  { unfold primary_or_self. rewrite EX.
    now rewrite (proj2 (String.eqb_neq X "") Hx). }
  assert (PY : primary_or_self aliases Y = X).
  { unfold primary_or_self. rewrite EY.
    now rewrite (proj2 (String.eqb_neq X "") Hx). }
  assert (Mxy : merge_stats (merge_stats zero_stats sx) sy = merged).
  { unfold merged. unfold merge_stats. simpl. f_equal. }
  assert (Myx : merge_stats (merge_stats zero_stats sy) sx = merged).
  { unfold merged. unfold merge_stats. simpl. f_equal. lia. }
  assert (A1 : aggregate_with aliases [(X, sx); (Y, sy)] = {[ X := merged ]}).
  { unfold aggregate_with. cbn [fold_left]. unfold aggregate_step.
    rewrite EX, EY. cbn [first_alias].
    rewrite lookup_empty, lookup_insert_eq, insert_insert_eq, Mxy.
    apply insert_empty. }
  split; [exact A1|]. split; [|split; [|split; [|split]]].
  - unfold aggregate_with. cbn [fold_left]. unfold aggregate_step.
    rewrite EX, EY. cbn [first_alias].
    rewrite lookup_empty, lookup_insert_eq, insert_insert_eq, Myx.
    apply insert_empty.
  - unfold aggregate2_with. cbn [fold_left]. unfold aggregate_step2.
    rewrite PX, PY.
    rewrite lookup_empty, lookup_insert_eq, insert_insert_eq, Mxy.
    apply insert_empty.
  - unfold aggregate2_with. cbn [fold_left]. unfold aggregate_step2.
    rewrite PX, PY.
    rewrite lookup_empty, lookup_insert_eq, insert_insert_eq, Myx.
    apply insert_empty.
  - rewrite A1. apply lookup_singleton_ne. exact Hxy.
  - intros byUser u s Hnd Hin HuX HuY.
    apply aggregate_unaliased; try assumption.
    + intros u' l. unfold aliases. cbn [JS.entries_get].
      destruct (String.eqb X u'); [|destruct (String.eqb Y u')];
        intros H; try discriminate H; injection H as <-;
        cbn [first_alias]; rewrite String.eqb_refl; discriminate.
    + unfold aliases. cbn [JS.entries_get].
      rewrite (proj2 (String.eqb_neq X u)) by congruence.
      now rewrite (proj2 (String.eqb_neq Y u)) by congruence.
Qed.

Lemma aggregate_alias_group_witness :
  "6f07ae03-187e-4e25-a519-9f72f96f22ff" <> "eca885ad-1119-48ca-8efe-91efcbfb54b4"
  /\ "6f07ae03-187e-4e25-a519-9f72f96f22ff" <> ""
  /\ aggregate
       [ ("6f07ae03-187e-4e25-a519-9f72f96f22ff",
          {| total := 3; completed := 1; last := Some "2024-01-01" |});
         ("eca885ad-1119-48ca-8efe-91efcbfb54b4",
          {| total := 2; completed := 2; last := Some "2024-01-05" |}) ]
     = {[ "6f07ae03-187e-4e25-a519-9f72f96f22ff" :=
            {| total := 5; completed := 1 + 2; last := Some "2024-01-05" |} ]}.
Proof.
  split; [discriminate|]. split; [discriminate|].
  apply (aggregate_alias_group
           "6f07ae03-187e-4e25-a519-9f72f96f22ff"
           "eca885ad-1119-48ca-8efe-91efcbfb54b4" 1 2);
    discriminate.
Defined.

Lemma aggregate_order_independent_witness :
  let x := ("6f07ae03-187e-4e25-a519-9f72f96f22ff",
            {| total := 3; completed := 1; last := Some "2024-01-01" |}) in
  let y := ("eca885ad-1119-48ca-8efe-91efcbfb54b4",
            {| total := 2; completed := 2; last := Some "2024-01-05" |}) in
  let z := ("0b1c", {| total := 4; completed := 0; last := Some "2024-01-03" |}) in
  Permutation [x; y; z] [z; y; x]
  /\ aggregate [x; y; z] = aggregate [z; y; x]
  /\ aggregate2 [x; y; z] = aggregate2 [z; y; x].
Proof.
  intros x y z.
  assert (P : Permutation [x; y; z] [z; y; x]).
  { eapply perm_trans; [apply perm_swap|].
    eapply perm_trans; [apply perm_skip, perm_swap|]. apply perm_swap. }
  split; [exact P|].
  apply AggregateFacts.aggregate_order_independent; [| |exact P].
  - repeat constructor; simpl; intuition discriminate.
  - intros u s [[= <- <-]|[[= <- <-]|[[= <- <-]|[]]]]; discriminate.
Defined.

End AliasGroupFacts.


(** ** Scope of the listings *)

Module ScopeFacts.

Lemma add_students_keys (rows : list user_profile)
    (m : list (string * user_profile)) (u : string) :
  In u (map fst (add_students m rows)) <->
  In u (map fst m) \/ exists s, In s rows /\ userid s = u /\ u <> "".
Proof.
  unfold add_students. revert m.
  induction rows as [|r rows IH]; intros m; cbn [fold_left].
  - split; [tauto|]. intros [H|(s & [] & _)]. exact H.
  - rewrite IH. destruct (String.eqb_spec (userid r) "") as [E|E].
    + split.
      * intros [H|(s & Hs & Hu & Hne)]; [tauto|].
        right. exists s. simpl. tauto.
      * intros [H|(s & [<-|Hs] & Hu & Hne)]; [tauto|congruence|].
        right. now exists s.
    + rewrite EntriesFacts.entries_set_keys. split.
      * intros [[H| ->]|(s & Hs & Hu & Hne)]; [tauto| |].
        -- right. exists r. simpl. tauto.
        -- right. exists s. simpl. tauto.
      * intros [H|(s & [<-|Hs] & Hu & Hne)]; [tauto| |].
        -- left. right. now symmetry.
        -- right. now exists s.
Qed.

Lemma add_students_values (rows : list user_profile)
    (m : list (string * user_profile)) (u : string) (s : user_profile) :
  In (u, s) (add_students m rows) ->
  In (u, s) m \/ (In s rows /\ userid s = u /\ u <> "").
Proof.
  unfold add_students. revert m.
  induction rows as [|r rows IH]; intros m; cbn [fold_left]; [tauto|].
  intros H. apply IH in H as [H|H]; [|simpl; tauto].
  destruct (String.eqb_spec (userid r) "") as [E|E]; [tauto|].
  apply EntriesFacts.entries_set_In in H as [H|[-> ->]]; [tauto|].
  right. simpl. tauto.
Qed.

Lemma roleid_eqb_eq (r : option Z) (n : Z) :
  roleid_eqb r n = true <-> r = Some n.
Proof.
  destruct r as [m|]; simpl.
  - rewrite Z.eqb_eq. split; congruence.
  - split; discriminate.
Qed.

Lemma column_eqb_eq (c : option string) (v : string) :
  column_eqb c v = true <-> c = Some v.
Proof.
  destruct c as [s|]; simpl.
  - rewrite String.eqb_eq. split; congruence.
  - split; discriminate.
Qed.

(** The students a two-branch scope holds: the rows of the store with the
    student role that the class branch or the supervisor branch selects. *)
Lemma two_branch_scope (store : list user_profile) (studentRole : Z)
    (homeClass : option string) (actor : string)
    (studentMap : list (string * user_profile)) :
  studentMap =
    add_students
      match homeClass with
      | Some c =>
          add_students []
            (List.filter (fun s => (roleid_eqb (roleid s) studentRole
                                    && column_eqb (kelas s) c)%bool) store)
      | None => []
      end
      (List.filter (fun s => (roleid_eqb (roleid s) studentRole
                              && column_eqb (guruwali_userid s) actor)%bool)
                   store) ->
  (forall u, In u (map fst studentMap) <->
     exists s, In s store /\ userid s = u /\ u <> ""
               /\ roleid s = Some studentRole
               /\ (Spec.teacher_branch homeClass s
                   \/ Spec.supervisor_branch actor s))
  /\ (forall u s, In (u, s) studentMap ->
        In s store /\ userid s = u /\ u <> ""
        /\ roleid s = Some studentRole
        /\ (Spec.teacher_branch homeClass s
            \/ Spec.supervisor_branch actor s)).
Proof.
  intros ->. unfold Spec.teacher_branch, Spec.supervisor_branch. split.
  - intros u. rewrite add_students_keys. split.
    + intros [H|(s & Hs & Hu & Hne)].
      * destruct homeClass as [c|]; [|destruct H].
        apply add_students_keys in H as [[]|(s & Hs & Hu & Hne)].
        apply List.filter_In in Hs as [Hs Hf].
        apply andb_true_iff in Hf as [Hr Hc].
        apply roleid_eqb_eq in Hr. apply column_eqb_eq in Hc.
        exists s. repeat split; try assumption. left. now exists c.
      * apply List.filter_In in Hs as [Hs Hf].
        apply andb_true_iff in Hf as [Hr Hc].
        apply roleid_eqb_eq in Hr. apply column_eqb_eq in Hc.
        exists s. repeat split; try assumption. now right.
    + intros (s & Hs & Hu & Hne & Hr & [(c & -> & Hc)|Hw]).
      * left. apply add_students_keys. right. exists s.
        repeat split; try assumption. apply List.filter_In.
        split; [exact Hs|]. apply andb_true_iff.
        split; [now apply roleid_eqb_eq | now apply column_eqb_eq].
      * right. exists s. repeat split; try assumption.
        apply List.filter_In. split; [exact Hs|]. apply andb_true_iff.
        split; [now apply roleid_eqb_eq | now apply column_eqb_eq].
  - intros u s H. apply add_students_values in H as [H|(Hs & Hu & Hne)].
    + destruct homeClass as [c|]; [|destruct H].
      apply add_students_values in H as [[]|(Hs & Hu & Hne)].
      apply List.filter_In in Hs as [Hs Hf].
      apply andb_true_iff in Hf as [Hr Hc].
      apply roleid_eqb_eq in Hr. apply column_eqb_eq in Hc.
      repeat split; try assumption. left. now exists c.
    + apply List.filter_In in Hs as [Hs Hf].
      apply andb_true_iff in Hf as [Hr Hc].
      apply roleid_eqb_eq in Hr. apply column_eqb_eq in Hc.
      repeat split; try assumption. now right.
Qed.



End ScopeFacts.


(** ** The date text determines the day *)

Module CivilDateFacts.

Import Kegiatan CivilDate.

Lemma all_from_spec (p : positive) (f : Z -> bool) (start : Z) :
  all_from p f start = true ->
  forall z, start <= z < start + Z.pos p -> f z = true.
Proof.
  revert start. induction p as [q IH|q IH|]; intros start H z Hz;
    cbn [all_from] in H.
  - apply andb_true_iff in H as [H H2]. apply andb_true_iff in H as [H0 H1].
    destruct (Z.eq_dec z start) as [->|Hne]; [exact H0|].
    destruct (Z_lt_ge_dec z (start + 1 + Z.pos q)) as [Hlt|Hge].
    + apply (IH _ H1). lia.
    + apply (IH _ H2). lia.
  - apply andb_true_iff in H as [H1 H2].
    destruct (Z_lt_ge_dec z (start + Z.pos q)) as [Hlt|Hge].
    + apply (IH _ H1). lia.
    + apply (IH _ H2). lia.
  - replace z with start by lia. exact H.
Qed.

Lemma era_days_ok : all_from 146097 era_day_ok 0 = true.
Proof. vm_compute. reflexivity. Qed.

Lemma era_day_ranges (doe : Z) :
  0 <= doe < 146097 ->
  0 <= yoe_of doe <= 399 /\ 0 <= doy_of doe <= 365
  /\ 0 <= mp_of doe <= 11 /\ 1 <= day_of doe <= 31
  /\ (doe <= 146036 -> yoe_of doe < 399 \/ mp_of doe < 10).
Proof.
  intros H. pose proof (all_from_spec _ _ _ era_days_ok doe) as Hok.
  specialize (Hok ltac:(lia)).
  change (((0 <=? yoe_of doe) && (yoe_of doe <=? 399)
           && (0 <=? doy_of doe) && (doy_of doe <=? 365)
           && (0 <=? mp_of doe) && (mp_of doe <=? 11)
           && (1 <=? day_of doe) && (day_of doe <=? 31)
           && ((146036 <? doe) || (yoe_of doe <? 399)
               || (mp_of doe <? 10)))%bool = true) in Hok.
  repeat match type of Hok with
         | (_ && _)%bool = true => apply andb_true_iff in Hok as [Hok ?]
         end.
  repeat match goal with
         | H : (_ <=? _) = true |- _ => apply Z.leb_le in H
         end.
  split; [lia|]. split; [lia|]. split; [lia|]. split; [lia|].
  intros Hd.
  match goal with
  | H : (_ || _)%bool = true |- _ =>
      apply orb_true_iff in H as [H|H]; [apply orb_true_iff in H as [H|H]|]
  end.
  - apply Z.ltb_lt in H0. lia.
  - apply Z.ltb_lt in H0. now left.
  - apply Z.ltb_lt in H0. now right.
Qed.

(** [civil_of_days] through the steps above. *)
Lemma civil_of_days_steps (days : Z) :
  let era := (days + 719468) / 146097 in
  let doe := days + 719468 - era * 146097 in
  civil_of_days days
  = (yoe_of doe + era * 400
     + (if (if mp_of doe <? 10 then mp_of doe + 3 else mp_of doe - 9) <=? 2
        then 1 else 0),
     if mp_of doe <? 10 then mp_of doe + 3 else mp_of doe - 9,
     day_of doe).
Proof. reflexivity. Qed.

Lemma era_day_range (days : Z) :
  0 <= days + 719468 - (days + 719468) / 146097 * 146097 < 146097.
Proof.
  pose proof (Z.mod_pos_bound (days + 719468) 146097 ltac:(lia)) as H.
  rewrite Z.mod_eq in H by lia. lia.
Qed.

Lemma civil_of_days_inj (a b : Z) :
  civil_of_days a = civil_of_days b -> a = b.
Proof.
  rewrite (civil_of_days_steps a), (civil_of_days_steps b). cbv zeta.
  pose proof (era_day_range a) as Ra. pose proof (era_day_range b) as Rb.
  set (ea := (a + 719468) / 146097) in *.
  set (eb := (b + 719468) / 146097) in *.
  set (da := a + 719468 - ea * 146097) in *.
  set (db := b + 719468 - eb * 146097) in *.
  destruct (era_day_ranges da Ra) as (Hya & Hdoya & Hma & _ & _).
  destruct (era_day_ranges db Rb) as (Hyb & Hdoyb & Hmb & _ & _).
  assert (Hdoe : forall doe,
             doe = doy_of doe
                   + (365 * yoe_of doe + yoe_of doe / 4 - yoe_of doe / 100)).
  { intros doe. unfold doy_of. lia. }
  pose proof (Hdoe da) as Hda. pose proof (Hdoe db) as Hdb.
  unfold day_of.
  generalize dependent (doy_of da). generalize dependent (doy_of db).
  generalize dependent (yoe_of da). generalize dependent (yoe_of db).
  generalize dependent (mp_of da). generalize dependent (mp_of db).
  intros mb Hmb ma Hma yb Hyb ya Hya doyb Hdoyb Hdb doya Hdoya Hda.
  intros [= Hy Hm Hd].
  assert (Emp : ma = mb).
  { destruct (ma <? 10) eqn:E1, (mb <? 10) eqn:E2;
      try apply Z.ltb_lt in E1; try apply Z.ltb_ge in E1;
      try apply Z.ltb_lt in E2; try apply Z.ltb_ge in E2; lia. }
  subst mb.
  assert (Edoy : doya = doyb) by lia. subst doyb.
  assert (Ey : ya + ea * 400 = yb + eb * 400) by lia.
  assert (Ee : ea = eb) by lia.
  assert (Eyoe : ya = yb) by lia. subst yb.
  assert (Eda : da = db) by lia.
  unfold da, db in Eda. rewrite Ee in Eda. lia.
Qed.

Lemma civil_of_days_range (days : Z) :
  0 <= days <= LAST_DAY ->
  let '(y, m, d) := civil_of_days days in
  0 <= y <= 9999 /\ 1 <= m <= 12 /\ 1 <= d <= 31.
Proof.
  unfold LAST_DAY. intros H.
  rewrite (civil_of_days_steps days). cbv zeta.
  pose proof (era_day_range days) as R.
  assert (He : 4 <= (days + 719468) / 146097 <= 24).
  { split.
    - apply Z.div_le_lower_bound; lia.
    - apply Z.lt_succ_r. apply Z.div_lt_upper_bound; lia. }
  set (era := (days + 719468) / 146097) in *.
  set (doe := days + 719468 - era * 146097) in *.
  destruct (era_day_ranges doe R) as (Hy & _ & Hm & Hd & Hlast).
  assert (Hcarry : era = 24 -> yoe_of doe < 399 \/ mp_of doe < 10).
  { intros E. apply Hlast. unfold doe. lia. }
  generalize dependent (yoe_of doe). generalize dependent (mp_of doe).
  generalize dependent (day_of doe).
  intros d Hd mp Hm yoe Hy Hlast Hcarry.
  destruct (mp <? 10) eqn:E1;
    [apply Z.ltb_lt in E1 | apply Z.ltb_ge in E1].
  - destruct (mp + 3 <=? 2) eqn:E2;
      [apply Z.leb_le in E2 | apply Z.leb_gt in E2]; lia.
  - destruct (mp - 9 <=? 2) eqn:E2;
      [apply Z.leb_le in E2 | apply Z.leb_gt in E2]; lia.
Qed.

Lemma digit_inj (a b : Z) : digit a = digit b -> a mod 10 = b mod 10.
Proof.
  unfold digit. intros H.
  pose proof (Z.mod_pos_bound a 10 ltac:(lia)) as Ha.
  pose proof (Z.mod_pos_bound b 10 ltac:(lia)) as Hb.
  apply (f_equal nat_of_ascii) in H.
  rewrite !nat_ascii_embedding in H by lia. lia.
Qed.

Lemma two_digits_inj (a b : Z) :
  0 <= a <= 99 -> 0 <= b <= 99 -> two_digits a = two_digits b -> a = b.
Proof.
  unfold two_digits. intros Ha Hb [= H1 H2].
  apply digit_inj in H1, H2.
  rewrite (Z.mod_small (a / 10)) in H1
    by (split; [apply Z.div_pos; lia | apply Z.div_lt_upper_bound; lia]).
  rewrite (Z.mod_small (b / 10)) in H1
    by (split; [apply Z.div_pos; lia | apply Z.div_lt_upper_bound; lia]).
  rewrite (Z.div_mod a 10), (Z.div_mod b 10) by lia. lia.
Qed.

Lemma format_date_inj (y m d y' m' d' : Z) :
  0 <= y <= 9999 -> 0 <= m <= 99 -> 0 <= d <= 99 ->
  0 <= y' <= 9999 -> 0 <= m' <= 99 -> 0 <= d' <= 99 ->
  format_date (y, m, d) = format_date (y', m', d') ->
  (y, m, d) = (y', m', d').
Proof.
  intros Hy Hm Hd Hy' Hm' Hd'. unfold format_date.
  assert (Hsplit : forall n, two_digits n
                             = String (digit (n / 10))
                                 (String (digit n) EmptyString))
    by reflexivity.
  rewrite !Hsplit. cbn [String.append]. intros [= H1 H2 H3 H4 H5 H6 H7 H8].
  assert (E1 : two_digits (y / 100) = two_digits (y' / 100))
    by (rewrite !Hsplit; congruence).
  assert (E2 : two_digits (y mod 100) = two_digits (y' mod 100))
    by (rewrite !Hsplit; congruence).
  assert (E3 : two_digits m = two_digits m') by (rewrite !Hsplit; congruence).
  assert (E4 : two_digits d = two_digits d') by (rewrite !Hsplit; congruence).
  apply two_digits_inj in E1;
    [|split; [apply Z.div_pos; lia | apply Z.lt_succ_r;
                                     apply Z.div_lt_upper_bound; lia]
     |split; [apply Z.div_pos; lia | apply Z.lt_succ_r;
                                     apply Z.div_lt_upper_bound; lia]].
  apply two_digits_inj in E2;
    [|pose proof (Z.mod_pos_bound y 100); lia
     |pose proof (Z.mod_pos_bound y' 100); lia].
  apply two_digits_inj in E3; [|lia|lia].
  apply two_digits_inj in E4; [|lia|lia].
  rewrite (Z.div_mod y 100), (Z.div_mod y' 100) by lia.
  now rewrite E1, E2, E3, E4.
Qed.

(** From the epoch to the end of year 9999 the date text determines the
    Jakarta day. *)
Lemma todayInJakarta_inj (t t' : Z) :
  0 <= jakartaDay t <= LAST_DAY -> 0 <= jakartaDay t' <= LAST_DAY ->
  todayInJakarta t = todayInJakarta t' -> jakartaDay t = jakartaDay t'.
Proof.
  unfold todayInJakarta. intros Ht Ht' H.
  pose proof (civil_of_days_range _ Ht) as R.
  pose proof (civil_of_days_range _ Ht') as R'.
  apply civil_of_days_inj.
  destruct (civil_of_days (jakartaDay t)) as [[y m] d].
  destruct (civil_of_days (jakartaDay t')) as [[y' m'] d'].
  apply format_date_inj; [lia|lia|lia|lia|lia|lia|exact H].
Qed.

End CivilDateFacts.


(** ** Submission window and daily check *)

Module KegiatanFacts.

Import Kegiatan.

Section Facts.

Context {category : Type}.

Lemma role_at_time (e : env category) (t : Z) :
  getCurrentRoleName (at_time e t) = getCurrentRoleName e.
Proof. reflexivity. Qed.

Lemma window_at_time (e : env category) (t : Z) :
  isSubmissionWindowOpen (at_time e t) = isSubmissionWindowOpen e.
Proof. reflexivity. Qed.

(** The answer to a student while the window is not open. *)
Lemma GET_window_not_open (e : env category) (kegiatanid : string) :
  is_student (snd (getCurrentRoleName e)) = true ->
  isSubmissionWindowOpen e = inr false ->
  GET e kegiatanid = Error 403 WINDOW_CLOSED.
Proof.
  intros Hs Hw. unfold GET.
  destruct (getCurrentRoleName e) as [userId roleName]. simpl in Hs.
  now rewrite Hs, Hw.
Qed.

Lemma GET_same_day (e : env category) (kegiatanid : string) (T T' : Z) :
  jakartaDay T = jakartaDay T' ->
  GET (at_time e T) kegiatanid = GET (at_time e T') kegiatanid.
Proof.
  intros Hday. unfold GET. rewrite !role_at_time, !window_at_time.
  unfold submissionStatus_of, existingToday, todayInJakarta.
  cbn [now at_time kegiatan categories aktivitas].
  now rewrite Hday.
Qed.

Example todayInJakarta_samples :
  todayInJakarta 0 = "1970-01-01"
  /\ todayInJakarta 1704041999999 = "2023-12-31"
  /\ todayInJakarta 1704042000000 = "2024-01-01"
  /\ todayInJakarta 1709139600000 = "2024-02-29"
  /\ todayInJakarta 1709226000000 = "2024-03-01".
Proof. repeat split; reflexivity. Qed.

Lemma next_day_start_day (T : Z) :
  jakartaDay (next_day_start T) = jakartaDay T + 1.
Proof.
  unfold next_day_start, jakartaDay at 1.
  replace ((jakartaDay T + 1) * DAY_MS - JAKARTA_OFFSET_MS + JAKARTA_OFFSET_MS)
    with ((jakartaDay T + 1) * DAY_MS) by lia.
  apply Z.div_mul. unfold DAY_MS. lia.
Qed.

Lemma next_day_start_first (T t : Z) :
  t < next_day_start T -> jakartaDay t <= jakartaDay T.
Proof.
  unfold next_day_start. intros H.
  assert (Hlt : jakartaDay t < jakartaDay T + 1); [|lia].
  unfold jakartaDay at 1. apply Z.div_lt_upper_bound; unfold DAY_MS in *; lia.
Qed.

Lemma role_user (e : env category) (uid : string) (roleName : option string) :
  getCurrentRoleName e = (Some uid, roleName) -> user e = Some uid.
Proof.
  unfold getCurrentRoleName. destruct (user e); intros [= <- _]; reflexivity.
Qed.

(** C5: while the window row says [is_open = false] a student is answered
    with the window-closed error, whatever records exist; an actor whose
    role is not [student] bypasses the check: whatever the window table
    holds, closed or failing, the handler goes on to the task and answers
    with its data and [canSubmit = true], or with status 500 when the read
    of the task or of its categories fails, never with the window-closed
    error. *)
Theorem window_closed_denies_student (e : env category) (kegiatanid : string)
    (rows : list submission_window_row) (row : submission_window_row) :
  is_student (snd (getCurrentRoleName e)) = true ->
  submission_window e = inr rows ->
  List.filter (fun r => sw_id r =? 1) rows = [row] ->
  is_open row = Some false ->
  GET e kegiatanid = Error 403 WINDOW_CLOSED
  /\ (forall a, GET (with_aktivitas e a) kegiatanid = Error 403 WINDOW_CLOSED)
  /\ (forall (e' : env category) w,
        is_student (snd (getCurrentRoleName e')) = false ->
        GET (with_window e' w) kegiatanid
        = match kegiatan e' with
          | inl err => caught err
          | inr keg =>
              match categories e' with
              | inl err => caught err
              | inr cats =>
                  Data keg cats
                       {| canSubmit := true; lastSubmittedAt := None |}
              end
          end
        /\ GET (with_window e' w) kegiatanid <> Error 403 WINDOW_CLOSED).
Proof.
  intros Hs Hw Hrow Hclosed.
  assert (Hopen : isSubmissionWindowOpen e = inr false).
  { unfold isSubmissionWindowOpen. rewrite Hw, Hrow. simpl. now rewrite Hclosed. }
  split; [now apply GET_window_not_open|]. split.
  - intros a. apply GET_window_not_open; [exact Hs | exact Hopen].
  - intros e' w Hn.
    assert (Hget : GET (with_window e' w) kegiatanid
                   = match kegiatan e' with
                     | inl err => caught err
                     | inr keg =>
                         match categories e' with
                         | inl err => caught err
                         | inr cats =>
                             Data keg cats
                                  {| canSubmit := true;
                                     lastSubmittedAt := None |}
                         end
                     end).
    { unfold GET.
      change (getCurrentRoleName (with_window e' w))
        with (getCurrentRoleName e').
      destruct (getCurrentRoleName e') as [userId roleName]. simpl in Hn.
      rewrite Hn. cbn [with_window kegiatan categories].
      destruct (kegiatan e') as [err|keg]; [reflexivity|].
      destruct (categories e') as [err|cats]; [reflexivity|].
      unfold submissionStatus_of. rewrite Hn. cbn [andb].
      now destruct userId. }
    split; [exact Hget|]. rewrite Hget.
    destruct (kegiatan e') as [err|keg]; [discriminate|].
    destruct (categories e') as [err|cats]; discriminate.
Qed.

(** C10: when the store holds no window row (or the read finds none), the
    window counts as closed: [isSubmissionWindowOpen] gives [false] and a
    student is answered with the window-closed error. *)
Theorem absent_window_is_closed (e : env category) (kegiatanid : string) :
  ((exists rows, submission_window e = inr rows
                 /\ List.filter (fun r => sw_id r =? 1) rows = [])
   \/ (exists err, submission_window e = inl err /\ code err = "PGRST116")) ->
  isSubmissionWindowOpen e = inr false
  /\ (is_student (snd (getCurrentRoleName e)) = true ->
      GET e kegiatanid = Error 403 WINDOW_CLOSED).
Proof.
  intros Habsent.
  assert (Hopen : isSubmissionWindowOpen e = inr false).
  { unfold isSubmissionWindowOpen.
    destruct Habsent as [(rows & -> & ->)|(err & -> & ->)]; reflexivity. }
  split; [exact Hopen|]. intros Hs. now apply GET_window_not_open.
Qed.

Lemma next_day_other_text (T : Z) :
  0 <= jakartaDay T < CivilDate.LAST_DAY ->
  forall t, 0 <= jakartaDay t <= jakartaDay T ->
            todayInJakarta t <> todayInJakarta (next_day_start T).
Proof.
  intros HT t Ht E.
  apply CivilDateFacts.todayInJakarta_inj in E.
  - rewrite next_day_start_day in E. lia.
  - lia.
  - rewrite next_day_start_day. lia.
Qed.

Lemma filter_none {A} (f : A -> bool) (l : list A) :
  (forall x, In x l -> f x = false) -> List.filter f l = [].
Proof.
  induction l as [|a l IH]; intros H; [reflexivity|].
  cbn [List.filter]. rewrite (H a (or_introl eq_refl)).
  apply IH. intros x Hx. apply H. now right.
Qed.

(** C6: an answer "already submitted today" is the same at every instant
    of the same Jakarta day.  The day after begins at [next_day_start T],
    where the date text differs from the one of every earlier day (from the
    epoch to the end of year 9999).  So, when no record is created after
    the day of [T] (every record of the actor for the task carries no date
    or the Jakarta date of an instant up to that day), with the window and
    the other tables unchanged, the answer at the first instant of the next
    day allows the submission. *)
Theorem canSubmit_within_day (e : env category) (kegiatanid : string)
    (T T' : Z) (keg : kegiatan_row) (cats : list category)
    (ts : option string) :
  jakartaDay T = jakartaDay T' ->
  GET (at_time e T) kegiatanid
    = Data keg cats {| canSubmit := false; lastSubmittedAt := ts |} ->
  GET (at_time e T') kegiatanid
    = Data keg cats {| canSubmit := false; lastSubmittedAt := ts |}
  /\ jakartaDay (next_day_start T) = jakartaDay T + 1
  /\ (forall t, t < next_day_start T -> jakartaDay t <= jakartaDay T)
  /\ (0 <= jakartaDay T < CivilDate.LAST_DAY ->
      todayInJakarta (next_day_start T) <> todayInJakarta T
      /\ ((forall rows uid a,
             aktivitas e = inr rows -> user e = Some uid -> In a rows ->
             a_kegiatanid a = Some kegiatanid -> a_userid a = Some uid ->
             submitted_date a = None
             \/ exists t, submitted_date a = Some (todayInJakarta t)
                          /\ 0 <= jakartaDay t <= jakartaDay T) ->
          GET (at_time e (next_day_start T)) kegiatanid
            = Data keg cats {| canSubmit := true; lastSubmittedAt := None |})).
Proof.
  intros Hday HT.
  split; [now rewrite <- (GET_same_day e kegiatanid T T' Hday)|].
  split; [apply next_day_start_day|].
  split; [apply next_day_start_first|].
  intros Hrange.
  pose proof (next_day_other_text T Hrange) as Hother.
  split.
  { intros E. apply (Hother T); [lia|now symmetry]. }
  intros Hdated.
  assert (Hnone : forall rows uid,
             aktivitas e = inr rows -> user e = Some uid ->
             List.filter
               (fun a => (column_eqb (a_kegiatanid a) kegiatanid
                          && column_eqb (a_userid a) uid
                          && column_eqb (submitted_date a)
                               (todayInJakarta (next_day_start T)))%bool)
               rows = []).
  { intros rows uid Hrows Huser. apply filter_none. intros a Ha.
    destruct (column_eqb (a_kegiatanid a) kegiatanid) eqn:Ek; [|reflexivity].
    destruct (column_eqb (a_userid a) uid) eqn:Eu; [|reflexivity].
    cbn [andb].
    apply ScopeFacts.column_eqb_eq in Ek, Eu.
    destruct (Hdated rows uid a Hrows Huser Ha Ek Eu) as [Hd|(t & Hd & Ht)];
      rewrite Hd; [reflexivity|].
    cbn [column_eqb]. apply String.eqb_neq. now apply Hother. }
  revert HT. unfold GET.
  rewrite !role_at_time, !window_at_time.
  destruct (getCurrentRoleName e) as [userId roleName] eqn:Hrole.
  destruct (if is_student roleName then isSubmissionWindowOpen e else inr true)
    as [err|[|]]; try discriminate.
  cbn [kegiatan categories at_time].
  destruct (kegiatan e) as [err|keg0]; try discriminate.
  destruct (categories e) as [err|cats0]; try discriminate.
  unfold submissionStatus_of.
  destruct userId as [uid|]; [|discriminate].
  destruct (is_student roleName && negb (String.eqb uid ""))%bool;
    [|discriminate].
  unfold existingToday. cbn [aktivitas now at_time].
  destruct (aktivitas e) as [err|rows] eqn:Ha.
  - destruct (String.eqb (code err) "PGRST116"); discriminate.
  - rewrite (Hnone rows uid eq_refl (role_user e uid roleName Hrole)).
    cbn [JS.maybeSingle fst].
    destruct (fst (JS.maybeSingle _)); intros [= <- <- _]; reflexivity.
Qed.

End Facts.

Lemma window_closed_denies_student_witness :
  is_student (snd (getCurrentRoleName
                     (Samples.task (Some "s1") Samples.window_closed))) = true
  /\ GET (Samples.task (Some "s1") Samples.window_closed) "k1"
     = Error 403 WINDOW_CLOSED
  /\ GET (Samples.task (Some "t1") Samples.window_closed) "k1"
     = Data {| kegiatanid := "k1"; kegiatanname := Some "Sholat";
               k_created_at := None |} ["c1"]
            {| canSubmit := true; lastSubmittedAt := None |}.
Proof.
  split; [reflexivity|].
  destruct (window_closed_denies_student
              (Samples.task (Some "s1") Samples.window_closed) "k1"
              Samples.window_closed
              {| sw_id := 1; is_open := Some false |}
              eq_refl eq_refl eq_refl eq_refl) as (Hstudent & _ & Hother).
  split; [exact Hstudent|].
  exact (proj1 (Hother (Samples.task (Some "t1") Samples.window_open)
                  (inr Samples.window_closed) eq_refl)).
Defined.

Lemma absent_window_is_closed_witness :
  submission_window (Samples.task (Some "s1") []) = inr []
  /\ isSubmissionWindowOpen (Samples.task (Some "s1") []) = inr false
  /\ GET (Samples.task (Some "s1") []) "k1" = Error 403 WINDOW_CLOSED.
Proof.
  split; [reflexivity|].
  destruct (absent_window_is_closed (Samples.task (Some "s1") []) "k1")
    as [Hclosed Hdenied].
  - left. exists []. split; reflexivity.
  - split; [exact Hclosed|]. apply Hdenied. reflexivity.
Defined.

Lemma canSubmit_within_day_witness :
  let e := Samples.task (Some "s1") Samples.window_open in
  let blocked := {| canSubmit := false;
                    lastSubmittedAt := Some "2023-12-31T17:05:00+00:00" |} in
  jakartaDay 1704042000000 = jakartaDay 1704128399999
  /\ todayInJakarta (next_day_start 1704042000000)
     <> todayInJakarta 1704042000000
  /\ (exists keg cats,
        GET (at_time e 1704042000000) "k1" = Data keg cats blocked
        /\ GET (at_time e 1704128399999) "k1" = Data keg cats blocked
        /\ GET (at_time e (next_day_start 1704042000000)) "k1"
           = Data keg cats {| canSubmit := true; lastSubmittedAt := None |}).
Proof.
  intros e blocked. split; [reflexivity|].
  destruct (canSubmit_within_day e "k1" 1704042000000 1704128399999
              {| kegiatanid := "k1"; kegiatanname := Some "Sholat";
                 k_created_at := None |}
              ["c1"] (Some "2023-12-31T17:05:00+00:00") eq_refl eq_refl)
    as (Hsame & _ & _ & Hnext).
  destruct Hnext as [Htext Hnext].
  { vm_compute. split; [discriminate|reflexivity]. }
  split; [exact Htext|].
  exists {| kegiatanid := "k1"; kegiatanname := Some "Sholat";
            k_created_at := None |}, ["c1"].
  split; [reflexivity|]. split; [exact Hsame|]. apply Hnext.
  intros rows uid a [= <-] [= <-] [<-|[]] _ _. right.
  exists 1704042000000. split; [reflexivity|].
  vm_compute. split; discriminate.
Defined.

End KegiatanFacts.


(** ** Route guard: navigation, protection and API requests *)

Module RouteGuardMore.

Import RouteGuard.

Lemma first_return_none (x : option response) (rest : list (option response)) :
  first_return (x :: rest) = None -> x = None /\ first_return rest = None.
Proof. destruct x; simpl; [discriminate | auto]. Qed.

Ltac role_cases rk :=
  destruct (String.eqb_spec rk "admin") as [->|?];
  [|destruct (String.eqb_spec rk "teacher") as [->|?];
    [|destruct (String.eqb_spec rk "guruwali") as [->|?];
      [|destruct (String.eqb_spec rk "student") as [->|?];
        [|destruct (String.eqb_spec rk "parent") as [->|?];
          [|destruct (String.eqb_spec rk "unknown") as [->|?];
            [|destruct (String.eqb_spec rk "kepsek") as [->|?]]]]]]].

Ltac other_role :=
  repeat match goal with
         | H : ?rk <> ?r |- _ =>
             rewrite ?(RouteGuardFacts.eqb_false rk r H) in *; clear H
         end.

Ltac split_ifs_in H :=
  repeat (cbn [first_return negb andb orb] in H;
          match type of H with
          | context [if ?b then _ else _] => destruct b
          end);
  cbn [first_return negb andb orb] in H.

(** The checks of a resolved role, at a path given by its tests. *)
Lemma guards_settle (pa rk t : string) (g : bool) (o : option string) (st : Z) :
  (rk = "guruwali" -> g = true) ->
  first_return
    [ guard_dashboard pa rk; guard_siswa pa rk; guard_guru pa rk g;
      guard_guruwali pa rk g; guard_orangtua pa rk; guard_unknown pa rk;
      root_redirect pa rk g ] = Some (Redirect t o st) ->
  first_return
    [ guard_dashboard t rk; guard_siswa t rk; guard_guru t rk g;
      guard_guruwali t rk g; guard_orangtua t rk; guard_unknown t rk;
      root_redirect t rk g ] = None.
Proof.
  intros Hg H.
  unfold guard_dashboard, guard_siswa, guard_guru, guard_guruwali,
    guard_orangtua, guard_unknown, root_redirect, redirect, landing in *.
  destruct (String.eqb_spec pa "/") as [->|_].
  - role_cases rk; try (rewrite (Hg eq_refl) in * ); other_role;
      cbn in H; split_ifs_in H; try discriminate H; injection H as <- <- <-;
      reflexivity.
  - revert H.
    generalize (JS.startsWith pa "/dashboard") (JS.startsWith pa "/siswa")
      (JS.startsWith pa "/guruwali") (JS.startsWith pa "/guru")
      (JS.startsWith pa "/orangtua") (String.eqb pa "/unknown").
    intros b1 b2 b3 b4 b5 e1 H.
    role_cases rk; try (rewrite (Hg eq_refl) in * ); other_role;
      cbn [String.eqb Ascii.eqb Bool.eqb] in H;
      split_ifs_in H; try discriminate H; injection H as <- <- <-;
      reflexivity.
Qed.

Lemma guards_settle_kepsek (pa rk t : string) (r g : bool)
    (o : option string) (st : Z) :
  (rk = "guruwali" -> r = true) -> (r = true -> g = true) ->
  first_return
    [ guard_dashboard pa rk; guard_siswa pa rk; guard_guru pa rk g;
      guard_guruwali pa rk g; guard_kepsek pa rk; guard_orangtua pa rk;
      guard_unknown pa rk; root_redirect_kepsek pa rk r ]
    = Some (Redirect t o st) ->
  first_return
    [ guard_dashboard t rk; guard_siswa t rk; guard_guru t rk g;
      guard_guruwali t rk g; guard_kepsek t rk; guard_orangtua t rk;
      guard_unknown t rk; root_redirect_kepsek t rk r ] = None.
Proof.
  intros Hr Hg H.
  unfold guard_dashboard, guard_siswa, guard_guru, guard_guruwali,
    guard_kepsek, guard_orangtua, guard_unknown, root_redirect_kepsek,
    redirect, landing in *.
  destruct (String.eqb_spec pa "/") as [->|_].
  - role_cases rk; destruct r;
      try (specialize (Hr eq_refl); discriminate Hr);
      try (rewrite (Hg eq_refl) in H |- * ); clear Hr Hg; other_role;
      cbn in H; split_ifs_in H; try discriminate H; injection H as <- <- <-;
      reflexivity.
  - revert H.
    generalize (JS.startsWith pa "/dashboard") (JS.startsWith pa "/siswa")
      (JS.startsWith pa "/guruwali") (JS.startsWith pa "/guru")
      (JS.startsWith pa "/kepsek")
      (JS.startsWith pa "/orangtua") (String.eqb pa "/unknown").
    intros b1 b2 b3 b4 b5 b6 e1 H.
    role_cases rk; destruct r;
      try (specialize (Hr eq_refl); discriminate Hr);
      try (rewrite (Hg eq_refl) in H |- * ); clear Hr Hg; other_role;
      cbn [String.eqb Ascii.eqb Bool.eqb] in H;
      split_ifs_in H; try discriminate H; injection H as <- <- <-;
      reflexivity.
Qed.

Lemma unauthenticated_at_login (req : request) (origin : option string) :
  unauthenticated (Navigation.at_path req "/login" origin) = None.
Proof. reflexivity. Qed.

(** X1: a redirect is final.  When the guard answers a request with a
    redirect, the same user asking for the target of the redirect is let
    through: the login page, the quarantine page and every role home admit
    the users that are sent there, so no request is redirected twice. *)
Theorem redirect_target_is_admitted (req : request) (t : string)
    (o origin : option string) (st : Z) :
  (middleware req = Redirect t o st ->
   middleware (Navigation.at_path req t origin) = Next)
  /\ (middleware_kepsek req = Redirect t o st ->
      middleware_kepsek (Navigation.at_path req t origin) = Next).
Proof.
  unfold middleware, middleware_kepsek. cbn [Navigation.at_path user].
  destruct (user req) as [uid|].
  - unfold authenticated, authenticated_kepsek.
    cbn [Navigation.at_path pathname].
    change (find_profile (Navigation.at_path req t origin) uid)
      with (find_profile req uid).
    destruct (isPublicRoute (pathname req)).
    { split; discriminate. }
    cbn [negb].
    assert (Hwithout : forall r : response,
               match without_profile req with Some x => x | None => Next end
                 = Redirect t o st ->
               match (if negb (isPublicRoute t)
                      then without_profile (Navigation.at_path req t origin)
                      else None)
               with Some x => x | None => Next end = Next).
    { intros _. unfold without_profile.
      destruct (negb (String.eqb (pathname req) "/unknown"));
        [|discriminate].
      intros [= <- <- <-]. reflexivity. }
    destruct (find_profile req uid) as [profile|]; [|split; apply (Hwithout Next)].
    destruct (truthy_roleid (roleid profile)); [|split; apply (Hwithout Next)].
    split.
    + intros H. destruct (isPublicRoute t); [reflexivity|]. cbn [negb].
      destruct (with_profile req profile) as [r|] eqn:E; [|discriminate].
      subst r. unfold with_profile in *.
      cbn [Navigation.at_path pathname].
      change (roleKey_for (Navigation.at_path req t origin) profile)
        with (roleKey_for req profile).
      erewrite guards_settle; [reflexivity| |exact E].
      intros ->. reflexivity.
    + intros H. destruct (isPublicRoute t); [reflexivity|]. cbn [negb].
      destruct (with_profile_kepsek req profile) as [r|] eqn:E; [|discriminate].
      subst r. unfold with_profile_kepsek in *.
      cbn [Navigation.at_path pathname].
      change (roleKey_for (Navigation.at_path req t origin) profile)
        with (roleKey_for req profile).
      erewrite guards_settle_kepsek; [reflexivity| | |exact E].
      * intros ->. reflexivity.
      * intros ->. reflexivity.
  - assert (Hlogin : match unauthenticated req with Some x => x | None => Next end
                     = Redirect t o st -> t = "/login").
    { unfold unauthenticated.
      destruct (isApiRoute (pathname req)); [discriminate|].
      destruct (negb (isPublicRoute (pathname req))
                && negb (String.eqb (pathname req) "/"))%bool;
        [|discriminate].
      now intros [= <- _ _]. }
    split; intros H; rewrite (Hlogin H); reflexivity.
Qed.

Lemma redirect_target_is_admitted_witness :
  middleware (Samples.page "/dashboard/users" (Some "s1")) = landing "/siswa"
  /\ middleware (Navigation.at_path
                   (Samples.page "/dashboard/users" (Some "s1")) "/siswa" None)
     = Next.
Proof.
  split; [reflexivity|].
  exact (proj1 (redirect_target_is_admitted
                  (Samples.page "/dashboard/users" (Some "s1"))
                  "/siswa" None None 302) eq_refl).
Defined.

(** *** Protected prefixes *)

Lemma with_profile_redirects (req : request) (profile : user_profile) :
  with_profile req profile <> Some Next
  /\ with_profile_kepsek req profile <> Some Next.
Proof.
  unfold with_profile, with_profile_kepsek, guard_dashboard, guard_siswa,
    guard_guru, guard_guruwali, guard_kepsek, guard_orangtua, guard_unknown,
    root_redirect, root_redirect_kepsek, redirect, landing.
  split; intros H; split_ifs_in H; discriminate H.
Qed.

Lemma protected_not_public (p prefix : string) :
  In prefix ["/dashboard"; "/siswa"; "/guru"; "/guruwali"; "/orangtua";
             "/kepsek"; "/api"] ->
  JS.startsWith p prefix = true ->
  isPublicRoute p = false /\ String.eqb p "/unknown" = false
  /\ String.eqb p "/" = false.
Proof.
  intros Hin Hp. destruct (RouteGuardFacts.startsWith_split _ _ Hp) as [rest ->].
  simpl in Hin.
  repeat (destruct Hin as [<-|Hin]; [repeat split; reflexivity|]).
  destruct Hin.
Qed.

Lemma next_means_resolved (req : request) (uid : string) :
  user req = Some uid ->
  isPublicRoute (pathname req) = false ->
  String.eqb (pathname req) "/unknown" = false ->
  (middleware req = Next ->
   exists profile, find_profile req uid = Some profile
     /\ truthy_roleid (roleid profile) = true
     /\ with_profile req profile = None)
  /\ (middleware_kepsek req = Next ->
      exists profile, find_profile req uid = Some profile
        /\ truthy_roleid (roleid profile) = true
        /\ with_profile_kepsek req profile = None).
Proof.
  intros Hu Hpub Hunk.
  unfold middleware, middleware_kepsek, authenticated, authenticated_kepsek,
    without_profile, redirect, landing.
  rewrite Hu, Hpub, Hunk. cbn [negb].
  destruct (find_profile req uid) as [profile|]; [|split; discriminate].
  destruct (truthy_roleid (roleid profile)) eqn:Ht; [|split; discriminate].
  destruct (with_profile_redirects req profile) as [N1 N2].
  split; intros H; exists profile; (split; [reflexivity|]);
    (split; [exact Ht|]).
  - destruct (with_profile req profile); [congruence | reflexivity].
  - destruct (with_profile_kepsek req profile); [congruence | reflexivity].
Qed.

Lemma guard_dashboard_sound (pa rk : string) :
  guard_dashboard pa rk = None -> JS.startsWith pa "/dashboard" = true ->
  rk = "admin" \/ rk = "teacher".
Proof.
  unfold guard_dashboard, redirect. intros H Hp. rewrite Hp in H.
  destruct (String.eqb_spec rk "admin"); [now left|].
  destruct (String.eqb_spec rk "teacher"); [now right|].
  exfalso. split_ifs_in H; discriminate H.
Qed.

Lemma guard_siswa_sound (pa rk : string) :
  guard_siswa pa rk = None -> JS.startsWith pa "/siswa" = true ->
  rk = "student".
Proof.
  unfold guard_siswa, redirect. intros H Hp. rewrite Hp in H.
  destruct (String.eqb_spec rk "student"); [assumption|].
  exfalso. split_ifs_in H; discriminate H.
Qed.

Lemma guard_orangtua_sound (pa rk : string) :
  guard_orangtua pa rk = None -> JS.startsWith pa "/orangtua" = true ->
  rk = "parent".
Proof.
  unfold guard_orangtua, redirect. intros H Hp. rewrite Hp in H.
  destruct (String.eqb_spec rk "parent"); [assumption|].
  exfalso. split_ifs_in H; discriminate H.
Qed.

Lemma guard_kepsek_sound (pa rk : string) :
  guard_kepsek pa rk = None -> JS.startsWith pa "/kepsek" = true ->
  rk = "kepsek".
Proof.
  unfold guard_kepsek, redirect. intros H Hp. rewrite Hp in H.
  destruct (String.eqb_spec rk "kepsek"); [assumption|].
  exfalso. split_ifs_in H; discriminate H.
Qed.

Lemma guard_guru_sound (pa rk : string) (g : bool) :
  guard_guru pa rk g = None -> JS.startsWith pa "/guru" = true ->
  rk = "teacher" \/ g = true.
Proof.
  unfold guard_guru, redirect. intros H Hp. rewrite Hp in H.
  destruct (String.eqb_spec rk "teacher"); [now left|].
  destruct g; [now right|].
  exfalso. split_ifs_in H; discriminate H.
Qed.

Lemma guard_guruwali_sound (pa rk : string) (g : bool) :
  guard_guruwali pa rk g = None -> JS.startsWith pa "/guruwali" = true ->
  g = true.
Proof.
  unfold guard_guruwali, redirect. intros H Hp. rewrite Hp in H.
  destruct g; [reflexivity|].
  exfalso. split_ifs_in H; discriminate H.
Qed.

Lemma capable_of_flags (rk : string) (profile : user_profile) :
  (String.eqb rk "guruwali"
   || (is_true (is_guruwali profile) || roleid_eqb (roleid profile) 6
       || String.eqb rk "guruwali"))%bool = true
  \/ (String.eqb rk "guruwali" || roleid_eqb (roleid profile) 6
      || is_true (is_guruwali profile))%bool = true ->
  Protection.capable rk profile.
Proof.
  unfold Protection.capable.
  assert (Hf : is_true (is_guruwali profile) = true ->
               is_guruwali profile = Some true).
  { destruct (is_guruwali profile) as [[|]|]; simpl; congruence. }
  assert (H6 : roleid_eqb (roleid profile) 6 = true -> roleid profile = Some 6).
  { destruct (roleid profile) as [n|]; simpl; [|discriminate].
    intros E. apply Z.eqb_eq in E. now subst. }
  destruct (String.eqb_spec rk "guruwali"); [now left|].
  destruct (is_true (is_guruwali profile)); [right; left; now apply Hf|].
  destruct (roleid_eqb (roleid profile) 6); [right; right; now apply H6|].
  simpl. intros [H|H]; discriminate H.
Qed.

(** X2: the guard lets an authenticated request below a protected prefix
    through only for a resolved profile of the right role: [/dashboard] for
    admin or teacher, [/siswa] for student, [/orangtua] for parent, [/guru]
    for teacher or a supervision-capable profile, [/guruwali] for a
    supervision-capable profile and, in the later revision, [/kepsek] for
    kepsek. *)
Theorem protected_prefix_admits_only_its_roles (req : request) (uid : string) :
  user req = Some uid ->
  (middleware req = Next ->
   Protection.admits req uid "/dashboard"
     (fun rk _ => rk = "admin" \/ rk = "teacher")
   /\ Protection.admits req uid "/siswa" (fun rk _ => rk = "student")
   /\ Protection.admits req uid "/orangtua" (fun rk _ => rk = "parent")
   /\ Protection.admits req uid "/guru"
        (fun rk p => rk = "teacher" \/ Protection.capable rk p)
   /\ Protection.admits req uid "/guruwali" Protection.capable)
  /\ (middleware_kepsek req = Next ->
      Protection.admits req uid "/dashboard"
        (fun rk _ => rk = "admin" \/ rk = "teacher")
      /\ Protection.admits req uid "/siswa" (fun rk _ => rk = "student")
      /\ Protection.admits req uid "/orangtua" (fun rk _ => rk = "parent")
      /\ Protection.admits req uid "/guru"
           (fun rk p => rk = "teacher" \/ Protection.capable rk p)
      /\ Protection.admits req uid "/guruwali" Protection.capable
      /\ Protection.admits req uid "/kepsek" (fun rk _ => rk = "kepsek")).
Proof.
  intros Hu.
  assert (Hres : forall prefix,
             In prefix ["/dashboard"; "/siswa"; "/guru"; "/guruwali";
                        "/orangtua"; "/kepsek"; "/api"] ->
             JS.startsWith (pathname req) prefix = true ->
             (middleware req = Next ->
              exists profile, find_profile req uid = Some profile
                /\ truthy_roleid (roleid profile) = true
                /\ with_profile req profile = None)
             /\ (middleware_kepsek req = Next ->
                 exists profile, find_profile req uid = Some profile
                   /\ truthy_roleid (roleid profile) = true
                   /\ with_profile_kepsek req profile = None)).
  { intros prefix Hin Hp.
    destruct (protected_not_public _ _ Hin Hp) as (Hpub & Hunk & _).
    now apply next_means_resolved. }
  split; intros Hnext.
  - unfold Protection.admits.
    repeat split; intros Hp;
      (destruct (fun Hin => Hres _ Hin Hp) as [Hr _]; [simpl; tauto|];
       destruct (Hr Hnext) as (profile & Hf & Ht & Hw);
       exists profile; split; [exact Hf|]; split; [exact Ht|];
       unfold with_profile in Hw;
       repeat (apply first_return_none in Hw;
               let G := fresh "G" in destruct Hw as [G Hw])).
    + eapply guard_dashboard_sound; eassumption.
    + eapply guard_siswa_sound; eassumption.
    + eapply guard_orangtua_sound; eassumption.
    + destruct (guard_guru_sound _ _ _ G1 Hp) as [E|E]; [now left|].
      right. apply capable_of_flags. now left.
    + apply capable_of_flags. left. eapply guard_guruwali_sound; eassumption.
  - unfold Protection.admits.
    repeat split; intros Hp;
      (destruct (fun Hin => Hres _ Hin Hp) as [_ Hr]; [simpl; tauto|];
       destruct (Hr Hnext) as (profile & Hf & Ht & Hw);
       exists profile; split; [exact Hf|]; split; [exact Ht|];
       unfold with_profile_kepsek in Hw;
       repeat (apply first_return_none in Hw;
               let G := fresh "G" in destruct Hw as [G Hw])).
    + eapply guard_dashboard_sound; eassumption.
    + eapply guard_siswa_sound; eassumption.
    + eapply guard_orangtua_sound; eassumption.
    + destruct (guard_guru_sound _ _ _ G1 Hp) as [E|E]; [now left|].
      right. apply capable_of_flags. now right.
    + apply capable_of_flags. right. eapply guard_guruwali_sound; eassumption.
    + eapply guard_kepsek_sound; eassumption.
Qed.

Lemma protected_prefix_admits_only_its_roles_witness :
  user (Samples.page "/dashboard/kelas" (Some "t1")) = Some "t1"
  /\ middleware (Samples.page "/dashboard/kelas" (Some "t1")) = Next
  /\ Protection.admits (Samples.page "/dashboard/kelas" (Some "t1")) "t1"
       "/dashboard" (fun rk _ => rk = "admin" \/ rk = "teacher").
Proof.
  split; [reflexivity|]. split; [reflexivity|].
  exact (proj1 (proj1 (protected_prefix_admits_only_its_roles
                         (Samples.page "/dashboard/kelas" (Some "t1")) "t1"
                         eq_refl) eq_refl)).
Defined.

(** *** Public routes, API routes and the unknown role *)

Lemma public_not_api (p : string) :
  isPublicRoute p = true -> isApiRoute p = false.
Proof.
  unfold isPublicRoute, publicRoutes. cbn [existsb]. intros H.
  repeat (apply orb_true_iff in H as [H|H];
          [destruct (RouteGuardFacts.startsWith_split _ _ H) as [rest ->];
           reflexivity|]).
  discriminate H.
Qed.

(** X3: a public route is served to everybody: whoever asks, signed in or
    not and whatever the role, the guard lets a request for a path that
    begins with a public route through. *)
Theorem public_route_proceeds (req : request) :
  isPublicRoute (pathname req) = true ->
  middleware req = Next /\ middleware_kepsek req = Next.
Proof.
  intros Hpub. unfold middleware, middleware_kepsek, unauthenticated,
    authenticated, authenticated_kepsek.
  rewrite (public_not_api _ Hpub), Hpub.
  destruct (user req); split; reflexivity.
Qed.

Lemma public_route_proceeds_witness :
  isPublicRoute "/login" = true
  /\ middleware (Samples.page "/login" (Some "s1")) = Next
  /\ middleware (Samples.page "/login" None) = Next.
Proof.
  split; [reflexivity|]. split.
  - exact (proj1 (public_route_proceeds (Samples.page "/login" (Some "s1"))
                    eq_refl)).
  - exact (proj1 (public_route_proceeds (Samples.page "/login" None) eq_refl)).
Defined.

(** X4: the guard never stands between a resolved user and the API: an
    authenticated request for a path that begins with [/api], from a
    profile with a role other than [unknown], is let through whatever the
    role is. *)
Theorem api_request_of_resolved_role_proceeds (req : request) (uid : string)
    (profile : user_profile) :
  user req = Some uid -> isApiRoute (pathname req) = true ->
  find_profile req uid = Some profile ->
  truthy_roleid (roleid profile) = true ->
  roleKey_for req profile <> "unknown" ->
  middleware req = Next /\ middleware_kepsek req = Next.
Proof.
  intros Hu Hapi Hf Ht Hrk.
  destruct (RouteGuardFacts.api_path_shape _ Hapi) as [rest Hp].
  unfold middleware, middleware_kepsek, authenticated, authenticated_kepsek,
    with_profile, with_profile_kepsek.
  rewrite Hu, Hf, Ht, Hp.
  unfold guard_dashboard, guard_siswa, guard_guru, guard_guruwali,
    guard_kepsek, guard_orangtua, guard_unknown, root_redirect,
    root_redirect_kepsek.
  rewrite (RouteGuardFacts.eqb_false _ _ Hrk).
  split; reflexivity.
Qed.

Lemma api_request_of_resolved_role_proceeds_witness :
  isApiRoute "/api/teacher/students" = true
  /\ middleware (Samples.page "/api/teacher/students" (Some "p1")) = Next
  /\ middleware_kepsek (Samples.page "/api/teacher/students" (Some "p1")) = Next.
Proof.
  split; [reflexivity|].
  apply (api_request_of_resolved_role_proceeds
           (Samples.page "/api/teacher/students" (Some "p1")) "p1"
           (Samples.profile "p1" 3 None None None));
    try reflexivity.
  discriminate.
Defined.

(** X5: a user whose role is [unknown] reaches nothing but the quarantine
    page: off the public routes, every request is redirected to [/unknown],
    and the request for [/unknown] itself is let through. *)
Theorem unknown_role_is_confined (req : request) (uid : string)
    (profile : user_profile) :
  user req = Some uid ->
  find_profile req uid = Some profile ->
  truthy_roleid (roleid profile) = true ->
  roleKey_for req profile = "unknown" ->
  isPublicRoute (pathname req) = false ->
  middleware req
    = (if String.eqb (pathname req) "/unknown" then Next
       else landing "/unknown")
  /\ middleware_kepsek req
     = (if String.eqb (pathname req) "/unknown" then Next
        else landing "/unknown").
Proof.
  intros Hu Hf Ht Hrk Hpub.
  unfold middleware, middleware_kepsek, authenticated, authenticated_kepsek,
    with_profile, with_profile_kepsek.
  rewrite Hu, Hf, Ht, Hpub, Hrk. cbn [negb].
  unfold guard_dashboard, guard_siswa, guard_guru, guard_guruwali,
    guard_kepsek, guard_orangtua, guard_unknown, root_redirect,
    root_redirect_kepsek, redirect.
  destruct (String.eqb_spec (pathname req) "/unknown") as [->|_].
  - split; reflexivity.
  - generalize (JS.startsWith (pathname req) "/dashboard")
      (JS.startsWith (pathname req) "/siswa")
      (JS.startsWith (pathname req) "/guruwali")
      (JS.startsWith (pathname req) "/guru")
      (JS.startsWith (pathname req) "/kepsek")
      (JS.startsWith (pathname req) "/orangtua").
    intros b1 b2 b3 b4 b5 b6.
    cbn [String.eqb Ascii.eqb Bool.eqb negb andb orb].
    destruct b1, b2, b3, b4, b5, b6,
      (is_true (is_guruwali profile)), (roleid_eqb (roleid profile) 6);
      split; reflexivity.
Qed.

Lemma unknown_role_is_confined_witness :
  roleKey_for (Samples.page "/siswa/kegiatan" (Some "u1"))
    (Samples.profile "u1" 1 None None None) = "unknown"
  /\ middleware (Samples.page "/siswa/kegiatan" (Some "u1")) = landing "/unknown"
  /\ middleware (Samples.page "/unknown" (Some "u1")) = Next.
Proof.
  split; [reflexivity|]. split.
  - exact (proj1 (unknown_role_is_confined
                    (Samples.page "/siswa/kegiatan" (Some "u1")) "u1"
                    (Samples.profile "u1" 1 None None None)
                    eq_refl eq_refl eq_refl eq_refl eq_refl)).
  - exact (proj1 (unknown_role_is_confined
                    (Samples.page "/unknown" (Some "u1")) "u1"
                    (Samples.profile "u1" 1 None None None)
                    eq_refl eq_refl eq_refl eq_refl eq_refl)).
Defined.

End RouteGuardMore.


(** ** Redirect sanitising *)

Module SanitizeFacts.

Import SanitizeRedirect.

Lemma trimStart_idem (s : string) : JS.trimStart (JS.trimStart s) = JS.trimStart s.
Proof.
  induction s as [|c r IH]; simpl; [reflexivity|].
  destruct (JS.is_space c) eqn:E; [exact IH|]. simpl. now rewrite E.
Qed.

Lemma trimEnd_idem (s : string) : JS.trimEnd (JS.trimEnd s) = JS.trimEnd s.
Proof.
  induction s as [|c r IH]; [reflexivity|].
  cbn [JS.trimEnd]. destruct (JS.trimEnd r) as [|c' r'] eqn:E.
  - destruct (JS.is_space c) eqn:Ec; [reflexivity|].
    cbn [JS.trimEnd]. now rewrite Ec.
  - cbn [JS.trimEnd] in *. now rewrite IH.
Qed.

(** A string that does not begin with white space is left alone by
    [trimStart], also after [trimEnd]. *)
Lemma trimStart_head (c : ascii) (r : string) :
  JS.is_space c = false -> JS.trimStart (String c r) = String c r.
Proof. intros E. simpl. now rewrite E. Qed.

Lemma trimEnd_head (c : ascii) (r : string) :
  JS.is_space c = false -> exists r', JS.trimEnd (String c r) = String c r'.
Proof.
  intros E. cbn [JS.trimEnd]. destruct (JS.trimEnd r).
  - rewrite E. now exists EmptyString.
  - eexists. reflexivity.
Qed.

Lemma trimStart_shape (s : string) :
  JS.trimStart s = EmptyString
  \/ exists c r, JS.trimStart s = String c r /\ JS.is_space c = false.
Proof.
  induction s as [|c r IH]; simpl; [now left|].
  destruct (JS.is_space c) eqn:E; [exact IH|].
  right. now exists c, r.
Qed.

Lemma trim_idem (s : string) : JS.trim (JS.trim s) = JS.trim s.
Proof.
  unfold JS.trim.
  destruct (trimStart_shape s) as [E|(c & r & E & Hc)]; rewrite E.
  - reflexivity.
  - destruct (trimEnd_head c r Hc) as [r' E'].
    rewrite E', (trimStart_head c r' Hc), <- E'. apply trimEnd_idem.
Qed.

Section Facts.

Variable parseURL : string -> option (string * string * string).

(** What every result looks like. *)
Lemma sanitize_shape (input : option string) (c : string) :
  sanitizeRedirectPath parseURL input = Some c ->
  JS.startsWith c "/" = true /\ JS.startsWith c "//" = false
  /\ isBlocked (pathOnly c) = false.
Proof.
  unfold sanitizeRedirectPath. destruct input as [text|]; [|discriminate].
  destruct (String.eqb (JS.trim text) ""); [discriminate|].
  match goal with
  | |- match ?r with _ => _ end = _ -> _ => destruct r as [cand|]
  end; [|discriminate].
  destruct (JS.startsWith cand "/") eqn:E1; [|discriminate]. cbn [negb].
  destruct (JS.startsWith cand "//") eqn:E2; [discriminate|].
  destruct (isBlocked (pathOnly cand)) eqn:E3; [discriminate|].
  intros [= <-]. auto.
Qed.

(** X6: sanitising is a projection on local paths.  For an input that is
    not an absolute http(s) URL the result, if any, is the trimmed input,
    and sanitising a result once more gives it back unchanged. *)
Theorem sanitize_local_path_idempotent (text c : string) :
  (JS.startsWith (JS.trim text) "http://"
   || JS.startsWith (JS.trim text) "https://")%bool = false ->
  sanitizeRedirectPath parseURL (Some text) = Some c ->
  c = JS.trim text
  /\ sanitizeRedirectPath parseURL (Some c) = Some c.
Proof.
  intros Hurl H.
  assert (Hc : c = JS.trim text).
  { revert H. unfold sanitizeRedirectPath. rewrite Hurl.
    destruct (String.eqb (JS.trim text) ""); [discriminate|].
    destruct (negb (JS.startsWith (JS.trim text) "/")); [discriminate|].
    destruct (JS.startsWith (JS.trim text) "//"); [discriminate|].
    destruct (isBlocked (pathOnly (JS.trim text))); [discriminate|].
    now intros [= <-]. }
  split; [exact Hc|].
  rewrite <- H at 2. unfold sanitizeRedirectPath.
  now rewrite Hc, trim_idem.
Qed.

(** X7: the [origin] the guard puts on a login redirect is exactly the
    sanitised path of the request: a path on this site (one leading slash)
    whose path part is none of [/api], [/auth], [/login], [/signup] nor below
    one of them; the guard's own test against [/login] never changes it. *)
Theorem login_redirect_origin (pathname search hash : string)
    (profiles : list user_profile) (roles : list role_row)
    (t : string) (o : option string) (st : Z) :
  RouteGuard.middleware
    (guarded_request parseURL pathname search hash None profiles roles)
    = RouteGuard.Redirect t o st ->
  t = "/login" /\ st = 302
  /\ o = sanitizeRedirectPath parseURL (Some (pathname ++ search ++ hash))
  /\ (forall c, o = Some c ->
        JS.startsWith c "/" = true /\ JS.startsWith c "//" = false
        /\ isBlocked (pathOnly c) = false).
Proof.
  unfold RouteGuard.middleware, RouteGuard.unauthenticated, guarded_request.
  cbn [RouteGuard.user RouteGuard.pathname RouteGuard.originPath].
  destruct (RouteGuard.isApiRoute pathname); [discriminate|].
  destruct (negb (RouteGuard.isPublicRoute pathname)
            && negb (String.eqb pathname "/"))%bool; [|discriminate].
  destruct (sanitizeRedirectPath parseURL (Some (pathname ++ search ++ hash)))
    as [c|] eqn:E.
  - destruct (sanitize_shape _ _ E) as (S1 & S2 & S3).
    assert (Hne : (negb (String.eqb c "") && negb (String.eqb c "/login"))%bool
                  = true).
    { destruct (String.eqb_spec c "") as [->|_]; [discriminate S1|].
      destruct (String.eqb_spec c "/login") as [->|_]; [discriminate S3|].
      reflexivity. }
    rewrite Hne. intros [= <- <- <-].
    split; [reflexivity|]. split; [reflexivity|]. split; [reflexivity|].
    intros c' [= <-]. auto.
  - intros [= <- <- <-].
    split; [reflexivity|]. split; [reflexivity|]. split; [reflexivity|].
    intros c' Hc. discriminate Hc.
Qed.

End Facts.

Lemma sanitize_local_path_idempotent_witness :
  sanitizeRedirectPath (fun _ => None) (Some "  /siswa/kegiatan?tab=2  ")
    = Some "/siswa/kegiatan?tab=2"
  /\ sanitizeRedirectPath (fun _ => None) (Some "/siswa/kegiatan?tab=2")
     = Some "/siswa/kegiatan?tab=2".
Proof.
  split; [reflexivity|].
  exact (proj2 (sanitize_local_path_idempotent (fun _ => None)
                  "  /siswa/kegiatan?tab=2  " "/siswa/kegiatan?tab=2"
                  eq_refl eq_refl)).
Defined.

Lemma login_redirect_origin_witness :
  RouteGuard.middleware
    (guarded_request (fun _ => None) "/siswa" "?tab=2" "" None [] [])
  = RouteGuard.Redirect "/login" (Some "/siswa?tab=2") 302
  /\ isBlocked (pathOnly "/siswa?tab=2") = false.
Proof.
  split; [reflexivity|].
  destruct (login_redirect_origin (fun _ => None) "/siswa" "?tab=2" "" [] []
              "/login" (Some "/siswa?tab=2") 302 eq_refl)
    as (_ & _ & _ & Hshape).
  exact (proj2 (proj2 (Hshape "/siswa?tab=2" eq_refl))).
Defined.

End SanitizeFacts.


(** ** Raw statistics: what [byUser] holds *)

Module ByUserFacts.

Import TeacherStudents StudentCards.

Lemma entries_get_set {V} (m : list (string * V)) (k k' : string) (v : V) :
  JS.entries_get (JS.entries_set m k v) k'
  = if String.eqb k k' then Some v else JS.entries_get m k'.
Proof.
  induction m as [|[k0 v0] m IH]; cbn [JS.entries_set JS.entries_get].
  - reflexivity.
  - destruct (String.eqb_spec k0 k) as [->|Hne]; cbn [JS.entries_get].
    + destruct (String.eqb k k'); reflexivity.
    + rewrite IH. destruct (String.eqb_spec k0 k') as [->|_]; [|reflexivity].
      now rewrite (proj2 (String.eqb_neq k k')) by congruence.
Qed.

Lemma byUser_of_snoc (rows : list activity) (a : activity) :
  byUser_of (rows ++ [a])%list = byUser_step (byUser_of rows) a.
Proof. unfold byUser_of. now rewrite List.fold_left_app. Qed.

Lemma gt_irrefl (x : string) : JS.gt x x = false.
Proof. unfold JS.gt. now rewrite AggregateFacts.compare_refl. Qed.

Lemma gt_trans (x y z : string) :
  JS.gt x y = true -> JS.gt y z = true -> JS.gt x z = true.
Proof.
  unfold JS.gt.
  destruct (String.compare x y) eqn:E1; try discriminate.
  destruct (String.compare y z) eqn:E2; try discriminate.
  now rewrite (AggregateFacts.compare_trans Gt x y z E1 E2).
Qed.

Lemma not_gt_empty (x : string) : JS.gt x "" = false -> x = "".
Proof. destruct x; [reflexivity | discriminate]. Qed.

Lemma gt_empty_l (x : string) : JS.gt "" x = false.
Proof. destruct x; reflexivity. Qed.

Lemma describes_snoc (cur : stats) (mine : list activity) (a : activity) :
  (mine = [] /\ cur = zero_stats) \/ describes cur mine ->
  describes
    {| total := total cur + 1;
       completed := if column_eqb (act_status a) "completed"
                    then completed cur + 1 else completed cur;
       last := if newer (timestamp_of a) (last cur)
               then Some (timestamp_of a) else last cur |}
    (mine ++ [a])%list.
Proof.
  intros H. unfold describes. cbn [total completed last].
  assert (Hlen : Z.of_nat (length (mine ++ [a])%list)
                 = Z.of_nat (length mine) + 1).
  { rewrite List.length_app. simpl. lia. }
  assert (Hcomp : Z.of_nat (length (completed_rows (mine ++ [a])%list))
                  = if column_eqb (act_status a) "completed"
                    then Z.of_nat (length (completed_rows mine)) + 1
                    else Z.of_nat (length (completed_rows mine))).
  { unfold completed_rows. rewrite List.filter_app. cbn [List.filter].
    destruct (column_eqb (act_status a) "completed").
    - rewrite List.length_app. simpl. lia.
    - now rewrite List.app_nil_r. }
  rewrite Hlen, Hcomp, List.map_app. cbn [map].
  destruct H as [[-> ->] | (Ht & Hc & ts & Hl & Hin & Hmax)].
  - cbn. split; [reflexivity|]. split.
    { destruct (column_eqb (act_status a) "completed"); reflexivity. }
    exists (timestamp_of a). split; [reflexivity|]. split; [now left|].
    intros a' [<-|[]]. apply gt_irrefl.
  - rewrite Ht, Hc, Hl. split; [reflexivity|]. split.
    { destruct (column_eqb (act_status a) "completed"); reflexivity. }
    cbn [newer].
    destruct (String.eqb_spec ts "") as [->|Hne]; cbn [orb].
    + exists (timestamp_of a). split; [reflexivity|].
      split; [apply List.in_app_iff; right; now left|].
      intros a' Ha'. apply List.in_app_iff in Ha' as [Ha'|[<-|[]]].
      * rewrite (not_gt_empty _ (Hmax a' Ha')). apply gt_empty_l.
      * apply gt_irrefl.
    + destruct (JS.gt (timestamp_of a) ts) eqn:Hgt.
      * exists (timestamp_of a). split; [reflexivity|].
        split; [apply List.in_app_iff; right; now left|].
        intros a' Ha'. apply List.in_app_iff in Ha' as [Ha'|[<-|[]]].
        -- destruct (JS.gt (timestamp_of a') (timestamp_of a)) eqn:E;
             [|reflexivity].
           rewrite <- (Hmax a' Ha'). symmetry.
           eapply gt_trans; eassumption.
        -- apply gt_irrefl.
      * exists ts. split; [reflexivity|].
        split; [apply List.in_app_iff; now left|].
        intros a' Ha'. apply List.in_app_iff in Ha' as [Ha'|[<-|[]]].
        -- now apply Hmax.
        -- exact Hgt.
Qed.

(** X8: the raw statistics count the rows.  For every user id, [byUser]
    has an entry exactly when the user has activity rows, and the entry
    gives their number, the number of the completed ones and the latest of
    their timestamps. *)
Theorem byUser_describes_rows (activityRows : list activity) (u : string) :
  u <> "" ->
  match JS.entries_get (byUser_of activityRows) u with
  | Some s => rows_of u activityRows <> []
              /\ describes s (rows_of u activityRows)
  | None => rows_of u activityRows = []
  end.
Proof.
  intros Hu. induction activityRows as [|a rows IH] using List.rev_ind.
  - reflexivity.
  - rewrite byUser_of_snoc. unfold rows_of in *. rewrite List.filter_app.
    cbn [List.filter]. unfold byUser_step.
    destruct (act_userid a) as [u0|] eqn:Ea; cbn [column_eqb].
    + destruct (String.eqb_spec u0 "") as [->|Hne0].
      * rewrite (proj2 (String.eqb_neq "" u)) by congruence.
        now rewrite List.app_nil_r.
      * rewrite entries_get_set.
        destruct (String.eqb_spec u0 u) as [->|Hne]; cycle 1.
        { now rewrite List.app_nil_r. }
        split.
        { intros E. apply List.app_eq_nil in E as [_ E]. discriminate E. }
        apply (describes_snoc _ _ a).
        destruct (JS.entries_get (byUser_of rows) u) as [s|].
        -- right. apply IH.
        -- left. now split.
    + now rewrite List.app_nil_r.
Qed.

Lemma byUser_describes_rows_witness :
  let rows :=
    [ {| act_userid := Some "s1"; act_status := Some "completed";
         act_created_at := Some "2024-01-02T01:00:00" |};
      {| act_userid := Some "s2"; act_status := None;
         act_created_at := Some "2024-01-03T01:00:00" |};
      {| act_userid := Some "s1"; act_status := Some "pending";
         act_created_at := Some "2024-01-01T01:00:00" |} ] in
  "s1" <> ""
  /\ exists s, JS.entries_get (byUser_of rows) "s1" = Some s
       /\ describes s (rows_of "s1" rows)
       /\ total s = 2 /\ last s = Some "2024-01-02T01:00:00".
Proof.
  intros rows. split; [discriminate|].
  pose proof (byUser_describes_rows rows "s1") as H.
  exists {| total := 2; completed := 1; last := Some "2024-01-02T01:00:00" |}.
  split; [reflexivity|]. split; [|split; reflexivity].
  change (JS.entries_get (byUser_of rows) "s1")
    with (Some {| total := 2; completed := 1;
                  last := Some "2024-01-02T01:00:00" |}) in H.
  apply H. discriminate.
Defined.

End ByUserFacts.


(** ** Aggregation: groups and revisions *)

Module GroupFacts.

Import TeacherStudents StudentCards.

Lemma step2_lookup (aliases : list (string * list string))
    (m : gmap string stats) (u p : string) (s : stats) :
  aggregate_step2 aliases m (u, s) !! p
  = if String.eqb (primary_or_self aliases u) p
    then Some (merge_stats (card_stats m p) s) else m !! p.
Proof.
  unfold aggregate_step2, card_stats.
  destruct (String.eqb_spec (primary_or_self aliases u) p) as [->|Hne].
  - apply lookup_insert_eq.
  - now apply lookup_insert_ne.
Qed.

Lemma not_gt_trans (x y z : string) :
  JS.gt x y = false -> JS.gt y z = false -> JS.gt x z = false.
Proof.
  intros Hxy Hyz. destruct (JS.gt x z) eqn:Hxz; [|reflexivity].
  rewrite <- Hxy. symmetry. unfold JS.gt in *.
  destruct (String.compare x z) eqn:E1; try discriminate.
  destruct (String.compare y z) eqn:E2; try discriminate.
  - apply String.compare_eq_iff in E2. subst y. now rewrite E1.
  - apply AggregateFacts.compare_flip in E2. simpl in E2.
    now rewrite (AggregateFacts.compare_trans Gt x z y E1 E2).
Qed.

Lemma gt_asym (x y : string) : JS.gt x y = true -> JS.gt y x = false.
Proof.
  unfold JS.gt. destruct (String.compare x y) eqn:E; try discriminate.
  apply AggregateFacts.compare_flip in E. now rewrite E.
Qed.

(** The timestamp kept after merging a member with timestamp [x]. *)
Lemma pick_last_bounds (agg : option string) (x : string) :
  exists m, pick_last agg (Some x) = Some m
    /\ (m = x \/ agg = Some m)
    /\ JS.gt x m = false
    /\ (forall t, agg = Some t -> JS.gt t m = false).
Proof.
  destruct (JS.truthy agg) eqn:Hagg.
  - destruct agg as [a|]; [|discriminate].
    assert (Ha : a <> "") by (intros ->; discriminate).
    rewrite (AggregateFacts.pick_last_truthy a x Ha).
    destruct (JS.gt x a) eqn:E.
    + exists x. split; [reflexivity|]. split; [now left|].
      split; [apply ByUserFacts.gt_irrefl|].
      intros t [= <-]. now apply gt_asym.
    + exists a. split; [reflexivity|]. split; [now right|].
      split; [exact E|].
      intros t [= <-]. apply ByUserFacts.gt_irrefl.
  - rewrite (AggregateFacts.pick_last_falsy agg x Hagg).
    exists x. split; [reflexivity|]. split; [now left|].
    split; [apply ByUserFacts.gt_irrefl|].
    intros t Et. revert Hagg. rewrite Et. unfold JS.truthy.
    destruct (String.eqb_spec t "") as [E|E]; [|discriminate].
    intros _. rewrite E. apply ByUserFacts.gt_empty_l.
Qed.

Section Group.

Variable aliases : list (string * list string).
Variable p : string.

Lemma members_cons (u : string) (s : stats) (l : list (string * stats)) :
  members aliases p ((u, s) :: l)
  = if String.eqb (primary_or_self aliases u) p
    then (u, s) :: members aliases p l else members aliases p l.
Proof. reflexivity. Qed.

(** The loop of the second revision, from any accumulated map. *)
Lemma fold2_group (l : list (string * stats)) (m : gmap string stats) :
  (members aliases p l = [] ->
   fold_left (aggregate_step2 aliases) l m !! p = m !! p)
  /\ (members aliases p l <> [] ->
      exists st, fold_left (aggregate_step2 aliases) l m !! p = Some st
        /\ total st = total (card_stats m p) + sum_total (members aliases p l)
        /\ completed st
           = completed (card_stats m p) + sum_completed (members aliases p l)).
Proof.
  revert m. induction l as [|[u s] l IH]; intros m.
  - split; [reflexivity | intros H; now destruct H].
  - cbn [fold_left]. rewrite members_cons.
    destruct (IH (aggregate_step2 aliases m (u, s))) as [IH0 IH1].
    pose proof (step2_lookup aliases m u p s) as Hstep.
    destruct (String.eqb (primary_or_self aliases u) p) eqn:E.
    + split; [discriminate|]. intros _.
      assert (Hcs : card_stats (aggregate_step2 aliases m (u, s)) p
                    = merge_stats (card_stats m p) s).
      { unfold card_stats at 1. now rewrite Hstep. }
      destruct (members aliases p l) as [|e l'] eqn:El.
      * exists (merge_stats (card_stats m p) s).
        rewrite IH0 by reflexivity. split; [exact Hstep|].
        cbn. split; lia.
      * destruct IH1 as (st & Hst & Ht & Hc); [discriminate|].
        exists st. split; [exact Hst|]. rewrite Ht, Hc, Hcs.
        cbn [sum_total sum_completed fold_right snd merge_stats total completed].
        split; lia.
    + assert (Hcs : card_stats (aggregate_step2 aliases m (u, s)) p
                    = card_stats m p).
      { unfold card_stats. now rewrite Hstep. }
      split.
      * intros H. now rewrite (IH0 H).
      * intros H. destruct (IH1 H) as (st & Hst & Ht & Hc).
        exists st. now rewrite <- Hcs.
Qed.

(** The latest timestamp of the group, when every member carries one. *)
Lemma fold2_last (l : list (string * stats)) (m : gmap string stats) :
  (forall e, In e (members aliases p l) -> last (snd e) <> None) ->
  members aliases p l <> [] ->
  exists st ts, fold_left (aggregate_step2 aliases) l m !! p = Some st
    /\ last st = Some ts
    /\ (In (Some ts) (map (fun e => last (snd e)) (members aliases p l))
        \/ last (card_stats m p) = Some ts)
    /\ (forall e t, In e (members aliases p l) -> last (snd e) = Some t ->
          JS.gt t ts = false)
    /\ (forall t, last (card_stats m p) = Some t -> JS.gt t ts = false).
Proof.
  revert m. induction l as [|[u s] l IH]; intros m Hdef Hne;
    [now destruct Hne|].
  cbn [fold_left]. rewrite members_cons in *.
  pose proof (step2_lookup aliases m u p s) as Hstep.
  destruct (String.eqb (primary_or_self aliases u) p) eqn:E.
  - assert (Hcs : card_stats (aggregate_step2 aliases m (u, s)) p
                  = merge_stats (card_stats m p) s).
    { unfold card_stats at 1. now rewrite Hstep. }
    destruct (last s) as [x|] eqn:Hx;
      [|exfalso; apply (Hdef (u, s)); [now left | exact Hx]].
    destruct (pick_last_bounds (last (card_stats m p)) x)
      as (m1 & Hm1 & Hfrom & Hx1 & Hagg1).
    assert (Hl1 : last (merge_stats (card_stats m p) s) = Some m1).
    { cbn [merge_stats last]. now rewrite Hx. }
    destruct (members aliases p l) as [|e l'] eqn:El.
    + destruct (fold2_group l (aggregate_step2 aliases m (u, s))) as [G0 _].
      exists (merge_stats (card_stats m p) s), m1.
      rewrite G0, Hstep by exact El. split; [reflexivity|].
      split; [exact Hl1|]. split.
      { destruct Hfrom as [->|Hfrom]; [left; cbn; left; now rewrite Hx|].
        now right. }
      split.
      * intros e t [<-|[]] Ht. cbn in Ht. rewrite Hx in Ht.
        injection Ht as <-. exact Hx1.
      * exact Hagg1.
    + destruct (IH (aggregate_step2 aliases m (u, s)))
        as (st & ts & Hst & Hts & Hin & Hmem & Hacc).
      { intros e' He'. apply Hdef. now right. }
      { discriminate. }
      rewrite Hcs, Hl1 in Hin, Hacc.
      exists st, ts. split; [exact Hst|]. split; [exact Hts|].
      assert (Hm1ts : JS.gt m1 ts = false) by now apply Hacc.
      split.
      { destruct Hin as [Hin|[= <-]]; [left; now right|].
        destruct Hfrom as [->|Hfrom]; [left; left; cbn; now rewrite Hx|].
        now right. }
      split.
      * intros e' t [<-|He'] Ht.
        -- cbn in Ht. rewrite Hx in Ht. injection Ht as <-.
           eapply not_gt_trans; eassumption.
        -- eapply Hmem; eassumption.
      * intros t Ht. eapply not_gt_trans; [now apply Hagg1 | exact Hm1ts].
  - assert (Hcs : card_stats (aggregate_step2 aliases m (u, s)) p
                  = card_stats m p).
    { unfold card_stats. now rewrite Hstep. }
    destruct (IH (aggregate_step2 aliases m (u, s)) Hdef Hne)
      as (st & ts & Hst & Hts & Hin & Hmem & Hacc).
    rewrite Hcs in Hin, Hacc.
    exists st, ts. auto.
Qed.

End Group.

(** X9: aggregation sums every alias group.  In the second revision, for
    any alias table and any raw statistics, the aggregated map has an entry
    for an id exactly when some raw entry aggregates under it, and the
    entry holds the sums of the members' counts and, when the members carry
    timestamps, the latest of them. *)
Theorem aggregate2_sums_groups (aliases : list (string * list string))
    (activityStats : list (string * stats)) (p : string) :
  match aggregate2_with aliases activityStats !! p with
  | None => members aliases p activityStats = []
  | Some st =>
      members aliases p activityStats <> []
      /\ total st = sum_total (members aliases p activityStats)
      /\ completed st = sum_completed (members aliases p activityStats)
      /\ ((forall e, In e (members aliases p activityStats) ->
             last (snd e) <> None) ->
          exists ts, last st = Some ts
            /\ In (Some ts) (map (fun e => last (snd e))
                               (members aliases p activityStats))
            /\ forall e t, In e (members aliases p activityStats) ->
                 last (snd e) = Some t -> JS.gt t ts = false)
  end.
Proof.
  unfold aggregate2_with.
  destruct (fold2_group aliases p activityStats ∅) as [G0 G1].
  destruct (members aliases p activityStats) as [|e l] eqn:El.
  - rewrite G0 by reflexivity. now rewrite lookup_empty.
  - destruct G1 as (st & Hst & Ht & Hc); [discriminate|].
    rewrite Hst. split; [discriminate|].
    unfold card_stats in Ht, Hc. rewrite lookup_empty in Ht, Hc.
    cbn [zero_stats total completed] in Ht, Hc.
    split; [lia|]. split; [lia|].
    intros Hdef.
    destruct (fold2_last aliases p activityStats ∅)
      as (st' & ts & Hst' & Hts & Hin & Hmem & _).
    { now rewrite El. }
    { rewrite El. discriminate. }
    rewrite Hst in Hst'. injection Hst' as <-.
    rewrite El in Hin, Hmem.
    exists ts. split; [exact Hts|]. split; [|exact Hmem].
    destruct Hin as [Hin|Hin]; [exact Hin|].
    unfold card_stats in Hin. rewrite lookup_empty in Hin. discriminate Hin.
Qed.

Lemma VERIFIED_ALIASES_heads : heads_nonempty VERIFIED_ALIASES.
Proof.
  intros u l. unfold VERIFIED_ALIASES. cbn [JS.entries_get].
  repeat match goal with
         | |- context [String.eqb ?a u] => destruct (String.eqb a u)
         end; intros H; try discriminate H; injection H as <-;
    eexists _, _; (split; [reflexivity | discriminate]).
Qed.

Lemma aggregate_with_snoc (aliases : list (string * list string))
    (l : list (string * stats)) (e : string * stats) :
  aggregate_with aliases (l ++ [e])%list
  = aggregate_step aliases (aggregate_with aliases l) e
  /\ aggregate2_with aliases (l ++ [e])%list
     = aggregate_step2 aliases (aggregate2_with aliases l) e.
Proof.
  unfold aggregate_with, aggregate2_with. now rewrite !List.fold_left_app.
Qed.

Lemma revisions_agree (aliases : list (string * list string))
    (byUser : list (string * stats)) :
  primaries_listed aliases -> heads_nonempty aliases ->
  List.NoDup (map fst byUser) ->
  aggregate_with aliases byUser = aggregate2_with aliases byUser.
Proof.
  intros Hlisted Hheads.
  induction byUser as [|[u s] l IH] using List.rev_ind; intros Hnd.
  - reflexivity.
  - destruct (aggregate_with_snoc aliases l (u, s)) as [-> ->].
    rewrite List.map_app in Hnd. cbn [map fst] in Hnd.
    assert (Hl : List.NoDup (map fst l)).
    { apply List.NoDup_remove_1 in Hnd. now rewrite List.app_nil_r in Hnd. }
    assert (Hu : ~ In u (map fst l)).
    { apply List.NoDup_remove_2 in Hnd. now rewrite List.app_nil_r in Hnd. }
    rewrite (IH Hl). unfold aggregate_step, aggregate_step2, primary_or_self.
    destruct (JS.entries_get aliases u) as [li|] eqn:E.
    + destruct (Hheads u li E) as (p & rest & -> & Hp).
      cbn [first_alias]. now rewrite (proj2 (String.eqb_neq p "") Hp).
    + destruct (AliasGroupFacts.aggregate_fold_unaliased aliases Hlisted u E
                  l ∅ Hu) as [_ H2].
      unfold aggregate2_with. rewrite H2, lookup_empty.
      now rewrite AggregateFacts.merge_zero.
Qed.

(** X10: the two revisions of the aggregation loop compute the same map
    from every raw stats map (distinct ids), although the first copies the
    statistics of an id outside the alias table and the second adds them
    to zero. *)
Theorem aggregate_revisions_agree (byUser : list (string * stats)) :
  List.NoDup (map fst byUser) -> aggregate byUser = aggregate2 byUser.
Proof.
  apply revisions_agree.
  - apply AggregateFacts.VERIFIED_ALIASES_primaries_listed.
  - apply VERIFIED_ALIASES_heads.
Qed.

Lemma aggregate_revisions_agree_witness :
  let byUser :=
    [ ("6f07ae03-187e-4e25-a519-9f72f96f22ff",
       {| total := 3; completed := 1; last := Some "2024-01-01" |});
      ("0b1c", {| total := 4; completed := 0; last := None |});
      ("eca885ad-1119-48ca-8efe-91efcbfb54b4",
       {| total := 2; completed := 2; last := Some "2024-01-05" |}) ] in
  List.NoDup (map fst byUser) /\ aggregate byUser = aggregate2 byUser.
Proof.
  intros byUser.
  assert (Hnd : List.NoDup (map fst byUser)).
  { repeat constructor; simpl; intuition discriminate. }
  split; [exact Hnd|]. now apply aggregate_revisions_agree.
Defined.

Lemma aggregate2_sums_groups_witness :
  let x := "6f07ae03-187e-4e25-a519-9f72f96f22ff" in
  let y := "eca885ad-1119-48ca-8efe-91efcbfb54b4" in
  let activityStats :=
    [ (y, {| total := 2; completed := 2; last := Some "2024-01-05" |});
      ("0b1c", {| total := 4; completed := 0; last := Some "2024-01-03" |});
      (x, {| total := 3; completed := 1; last := Some "2024-01-01" |}) ] in
  aggregate2 activityStats !! x
  = Some {| total := 5; completed := 3; last := Some "2024-01-05" |}
  /\ sum_total (members VERIFIED_ALIASES x activityStats) = 5.
Proof.
  intros x y activityStats.
  assert (E : aggregate2 activityStats !! x
              = Some {| total := 5; completed := 3;
                        last := Some "2024-01-05" |}) by reflexivity.
  split; [exact E|].
  pose proof (aggregate2_sums_groups VERIFIED_ALIASES activityStats x) as H.
  unfold aggregate2 in E. rewrite E in H.
  destruct H as (_ & Ht & _). symmetry. exact Ht.
Defined.

End GroupFacts.


(** ** Alias expansion: what the result contains *)

Module ExpandMore.

Import TeacherStudents.

Lemma add_all_extends (l s : list string) :
  exists added, fold_left JS.set_add l s = (s ++ added)%list.
Proof.
  revert s. induction l as [|x l IH]; intros s; cbn [fold_left].
  - exists []. now rewrite List.app_nil_r.
  - destruct (IH (JS.set_add s x)) as [added ->].
    unfold JS.set_add. destruct (JS.set_has s x).
    + now exists added.
    + exists (x :: added). now rewrite <- List.app_assoc.
Qed.

Lemma expand_step_extends (s : list string) (entry : string * list string) :
  exists added, expand_step s entry = (s ++ added)%list.
Proof.
  destruct entry as [primary list]. unfold expand_step.
  destruct (existsb (JS.set_has s) list || JS.set_has s primary)%bool.
  - destruct (add_all_extends list (JS.set_add s primary)) as [added ->].
    unfold JS.set_add. destruct (JS.set_has s primary).
    + now exists added.
    + exists (primary :: added). now rewrite <- List.app_assoc.
  - exists []. now rewrite List.app_nil_r.
Qed.

Lemma expand_fold_extends (aliases : list (string * list string))
    (s : list string) :
  exists added, fold_left expand_step aliases s = (s ++ added)%list.
Proof.
  revert s. induction aliases as [|e t IH]; intros s; cbn [fold_left].
  - exists []. now rewrite List.app_nil_r.
  - destruct (expand_step_extends s e) as [a1 E1].
    destruct (IH (expand_step s e)) as [a2 ->]. rewrite E1.
    exists (a1 ++ a2)%list. now rewrite List.app_assoc.
Qed.

Section Closed.

Variable aliases : list (string * list string).

Hypothesis groups_closed :
  forall e1 e2, In e1 aliases -> In e2 aliases ->
    (exists x, In x (fst e1 :: snd e1) /\ In x (fst e2 :: snd e2)) ->
    forall x, In x (fst e1 :: snd e1) <-> In x (fst e2 :: snd e2).

Variable ids : list string.

Lemma expand_fold_reached (todo : list (string * list string))
    (s : list string) :
  (forall e, In e todo -> In e aliases) ->
  (forall x, In x s -> AliasReach.reached aliases ids x) ->
  forall x, In x (fold_left expand_step todo s) -> AliasReach.reached aliases ids x.
Proof.
  revert s. induction todo as [|e0 todo IH]; intros s Hin Hs x Hx.
  - now apply Hs.
  - cbn [fold_left] in Hx. apply (IH (expand_step s e0)); auto.
    + intros e He. apply Hin. now right.
    + intros y Hy.
      destruct (ExpandFacts.hit_dec s e0) as [H0|H0].
      * apply (ExpandFacts.expand_step_hit s e0 H0) in Hy as [Hy|Hy];
          [now apply Hs|].
        right. exists e0. split; [apply Hin; now left|]. split; [exact Hy|].
        destruct H0 as (z & Hz & Hzs).
        destruct (Hs z Hzs) as [Hseed|(e' & He' & Hze' & (w & Hw & Hwids))].
        -- now exists z.
        -- exists w. split; [|exact Hwids].
           apply (groups_closed e' e0 He' (Hin e0 (or_introl eq_refl)));
             [now exists z | exact Hw].
      * rewrite (ExpandFacts.expand_step_miss s e0 H0) in Hy. now apply Hs.
Qed.

Lemma expand_with_reached (x : string) :
  In x (expand_with aliases ids) <-> AliasReach.reached aliases ids x.
Proof.
  split.
  - unfold expand_with. apply expand_fold_reached; auto.
    intros y Hy. left. now apply ExpandFacts.set_of_In.
  - intros [Hx|(e & He & Hxe & (w & Hw & Hwids))].
    + apply ExpandFacts.expand_fold_incl. now apply ExpandFacts.set_of_In.
    + apply (ExpandFacts.expand_with_closed aliases groups_closed ids e He);
        [|exact Hxe].
      exists w. split; [exact Hw|].
      apply ExpandFacts.expand_fold_incl. now apply ExpandFacts.set_of_In.
Qed.

End Closed.

(** X11: what [expandWithVerifiedAliases] returns.  The result has no
    repetition, begins with the seed ids in their order of first occurrence,
    and holds exactly the seed ids and the members of the alias groups that
    the seed meets: nothing is dropped and nothing else is added. *)
Theorem expand_result (ids : list string) :
  List.NoDup (expandWithVerifiedAliases ids)
  /\ (exists added,
        expandWithVerifiedAliases ids = (JS.set_of ids ++ added)%list)
  /\ (forall x, In x (expandWithVerifiedAliases ids) <->
        In x ids
        \/ exists e, In e VERIFIED_ALIASES /\ In x (fst e :: snd e)
                     /\ hit ids e).
Proof.
  split; [|split].
  - apply ExpandFacts.expand_fold_NoDup, ExpandFacts.set_of_NoDup.
  - apply expand_fold_extends.
  - intros x.
    apply (expand_with_reached VERIFIED_ALIASES
             ExpandFacts.VERIFIED_ALIASES_closed ids x).
Qed.

End ExpandMore.


(** ** Student cards *)

Module CardFacts.

Import TeacherStudents StudentCards.

(** Keeping the first value seen for each key. *)
Lemma first_seen_get {A} (key : A -> string) (items : list A)
    (m : list (string * A)) (k : string) :
  JS.entries_get
    (fold_left
       (fun m x => match JS.entries_get m (key x) with
                   | Some _ => m
                   | None => JS.entries_set m (key x) x
                   end) items m) k
  = match JS.entries_get m k with
    | Some v => Some v
    | None => List.find (fun x => String.eqb (key x) k) items
    end.
Proof.
  revert m. induction items as [|x items IH]; intros m; cbn [fold_left List.find].
  - now destruct (JS.entries_get m k).
  - rewrite IH. destruct (JS.entries_get m (key x)) as [v|] eqn:E.
    + destruct (JS.entries_get m k) as [w|] eqn:Ek; [reflexivity|].
      destruct (String.eqb_spec (key x) k) as [Hk|_]; [|reflexivity].
      rewrite Hk in E. congruence.
    + rewrite ByUserFacts.entries_get_set.
      destruct (String.eqb_spec (key x) k) as [Hk|_].
      * rewrite <- Hk, E. reflexivity.
      * reflexivity.
Qed.

Lemma first_seen_NoDup {A} (key : A -> string) (items : list A)
    (m : list (string * A)) :
  List.NoDup (map fst m) ->
  List.NoDup
    (map fst
       (fold_left
          (fun m x => match JS.entries_get m (key x) with
                      | Some _ => m
                      | None => JS.entries_set m (key x) x
                      end) items m)).
Proof.
  revert m. induction items as [|x items IH]; intros m Hm; cbn [fold_left].
  - exact Hm.
  - apply IH. destruct (JS.entries_get m (key x)); [exact Hm|].
    now apply EntriesFacts.entries_set_NoDup.
Qed.

Lemma entries_In_get {A} (m : list (string * A)) (k : string) (v : A) :
  List.NoDup (map fst m) -> In (k, v) m -> JS.entries_get m k = Some v.
Proof.
  induction m as [|[k0 v0] m IH]; cbn [map fst JS.entries_get In];
    intros Hnd Hin; [destruct Hin|].
  inversion Hnd as [|? ? Hk0 Hm]; subst.
  destruct Hin as [[= -> ->]|Hin].
  - now rewrite String.eqb_refl.
  - destruct (String.eqb_spec k0 k) as [->|_]; [|now apply IH].
    exfalso. apply Hk0. apply List.in_map_iff. now exists (k, v).
Qed.

(** X12: duplicate profiles collapse onto the first one seen.  In both
    revisions the map of cards has one entry per card key, and the profile
    kept under a key is the first profile of the input, in input order,
    that maps to the key. *)
Theorem cards_keep_first_profile (aliases : list (string * list string))
    (profiles : list user_profile) (k : string) :
  List.NoDup (map fst (mapProfile aliases profiles))
  /\ List.NoDup (map fst (studentMap2 aliases profiles))
  /\ JS.entries_get (mapProfile aliases profiles) k
     = List.find (fun p => String.eqb (card_key aliases (userid p)) k) profiles
  /\ JS.entries_get (studentMap2 aliases profiles) k
     = List.find (fun p => String.eqb (primary_or_self aliases (userid p)) k)
                 profiles.
Proof.
  split; [|split; [|split]].
  - apply (first_seen_NoDup (fun p => card_key aliases (userid p))).
    constructor.
  - apply (first_seen_NoDup (fun p => primary_or_self aliases (userid p))).
    constructor.
  - apply (first_seen_get (fun p => card_key aliases (userid p)) profiles []).
  - apply (first_seen_get (fun p => primary_or_self aliases (userid p))
             profiles []).
Qed.

Lemma find_key {A} (key : A -> string) (items : list A) (k : string) (x : A) :
  List.find (fun y => String.eqb (key y) k) items = Some x -> key x = k.
Proof.
  intros H. apply List.find_some in H as [_ H]. now apply String.eqb_eq.
Qed.

Lemma aggregate_never_second (byUser : list (string * stats))
    (m : gmap string stats) :
  fold_left (aggregate_step VERIFIED_ALIASES) byUser m
    !! "eca885ad-1119-48ca-8efe-91efcbfb54b4"
  = m !! "eca885ad-1119-48ca-8efe-91efcbfb54b4".
Proof.
  revert m. induction byUser as [|[u s] l IH]; intros m; cbn [fold_left];
    [reflexivity|].
  rewrite IH. unfold aggregate_step, VERIFIED_ALIASES. cbn [JS.entries_get].
  destruct (String.eqb_spec "6f07ae03-187e-4e25-a519-9f72f96f22ff" u) as [E1|E1].
  - now apply lookup_insert_ne.
  - destruct (String.eqb_spec "eca885ad-1119-48ca-8efe-91efcbfb54b4" u)
      as [E2|E2].
    + now apply lookup_insert_ne.
    + now apply lookup_insert_ne.
Qed.

Lemma aliasPrimaryById_verified :
  aliasPrimaryById VERIFIED_ALIASES
  = [("6f07ae03-187e-4e25-a519-9f72f96f22ff",
      "eca885ad-1119-48ca-8efe-91efcbfb54b4");
     ("eca885ad-1119-48ca-8efe-91efcbfb54b4",
      "eca885ad-1119-48ca-8efe-91efcbfb54b4")].
Proof. vm_compute. reflexivity. Qed.

(** X13: in the first revision the card of the merged student never shows
    an activity.  The card of a profile whose id is in the curated alias
    group is keyed by the second id of the group, while the aggregation
    files the statistics of the group under the first id: whatever the
    activity rows are, the card gets the zero statistics.  The card of any
    other profile shows the statistics of its id. *)
Theorem merged_card_shows_no_activity (profilesData : list user_profile)
    (byUser : list (string * stats)) (key : string) (p : user_profile) :
  In (key, p) (mapProfile VERIFIED_ALIASES profilesData) ->
  (In (userid p) ["6f07ae03-187e-4e25-a519-9f72f96f22ff";
                  "eca885ad-1119-48ca-8efe-91efcbfb54b4"] ->
   key = "eca885ad-1119-48ca-8efe-91efcbfb54b4"
   /\ card_stats (aggregate byUser) key = zero_stats)
  /\ (~ In (userid p) ["6f07ae03-187e-4e25-a519-9f72f96f22ff";
                       "eca885ad-1119-48ca-8efe-91efcbfb54b4"] ->
      userid p <> "" ->
      forall s, List.NoDup (map fst byUser) -> In (userid p, s) byUser ->
      key = userid p /\ card_stats (aggregate byUser) key = s).
Proof.
  intros Hin.
  destruct (cards_keep_first_profile VERIFIED_ALIASES profilesData key)
    as (Hnd & _ & Hget & _).
  rewrite (entries_In_get _ _ _ Hnd Hin) in Hget. symmetry in Hget.
  apply find_key in Hget. split.
  - intros Hid. assert (Hkey : key = "eca885ad-1119-48ca-8efe-91efcbfb54b4").
    { rewrite <- Hget. destruct Hid as [<-|[<-|[]]]; reflexivity. }
    split; [exact Hkey|]. rewrite Hkey. unfold card_stats, aggregate,
      aggregate_with. now rewrite aggregate_never_second, lookup_empty.
  - intros Hid Hne s Hnodup Hs.
    assert (H1 : "6f07ae03-187e-4e25-a519-9f72f96f22ff" <> userid p).
    { intros E. apply Hid. now left. }
    assert (H2 : "eca885ad-1119-48ca-8efe-91efcbfb54b4" <> userid p).
    { intros E. apply Hid. right. now left. }
    assert (Hkey : key = userid p).
    { rewrite <- Hget. unfold card_key. rewrite aliasPrimaryById_verified.
      cbn [JS.entries_get].
      rewrite (proj2 (String.eqb_neq _ _) H1).
      now rewrite (proj2 (String.eqb_neq _ _) H2). }
    split; [exact Hkey|]. rewrite Hkey. unfold card_stats, aggregate.
    destruct (AliasGroupFacts.aggregate_unaliased VERIFIED_ALIASES
                AggregateFacts.VERIFIED_ALIASES_primaries_listed (userid p))
      with (byUser := byUser) (s := s) as [E _]; try assumption.
    + unfold VERIFIED_ALIASES. cbn [JS.entries_get].
      rewrite (proj2 (String.eqb_neq _ _) H1).
      now rewrite (proj2 (String.eqb_neq _ _) H2).
    + now rewrite E.
Qed.

Lemma merged_card_shows_no_activity_witness :
  let x := "6f07ae03-187e-4e25-a519-9f72f96f22ff" in
  let y := "eca885ad-1119-48ca-8efe-91efcbfb54b4" in
  let p := Samples.profile x 5 (Some "7A") None None in
  let byUser :=
    [ (x, {| total := 3; completed := 1; last := Some "2024-01-01" |}) ] in
  In (y, p) (mapProfile VERIFIED_ALIASES [p])
  /\ card_stats (aggregate byUser) y = zero_stats.
Proof.
  intros x y p byUser.
  assert (Hin : In (y, p) (mapProfile VERIFIED_ALIASES [p]))
    by (left; reflexivity).
  split; [exact Hin|].
  destruct (merged_card_shows_no_activity [p] byUser y p Hin) as [H _].
  apply H. left. reflexivity.
Defined.

(** X14: in the second revision a card counts the activities of the whole
    alias group.  The card of a student is keyed by the primary id of the
    student, which is the key under which the aggregation files the
    statistics of the group: the counts on the card are the sums over every
    raw entry of the group, the student's own included. *)
Theorem card_counts_whole_group (aliases : list (string * list string))
    (students : list user_profile) (activityStats : list (string * stats))
    (key : string) (st : user_profile) :
  In (key, st) (studentMap2 aliases students) ->
  key = primary_or_self aliases (userid st)
  /\ total (card_stats (aggregate2_with aliases activityStats) key)
     = sum_total (members aliases key activityStats)
  /\ completed (card_stats (aggregate2_with aliases activityStats) key)
     = sum_completed (members aliases key activityStats)
  /\ forall s, In (userid st, s) activityStats ->
               In (userid st, s) (members aliases key activityStats).
Proof.
  intros Hin.
  destruct (cards_keep_first_profile aliases students key)
    as (_ & Hnd & _ & Hget).
  rewrite (entries_In_get _ _ _ Hnd Hin) in Hget. symmetry in Hget.
  apply (find_key (fun p => primary_or_self aliases (userid p))) in Hget.
  split; [now symmetry|].
  unfold aggregate2_with.
  destruct (GroupFacts.fold2_group aliases key activityStats ∅) as [G0 G1].
  destruct (members aliases key activityStats) as [|e l] eqn:El.
  - unfold card_stats at 1 2. rewrite G0 by reflexivity.
    rewrite lookup_empty. split; [reflexivity|]. split; [reflexivity|].
    intros s Hs. rewrite <- El. unfold members. apply List.filter_In.
    split; [exact Hs|]. cbn [fst]. now apply String.eqb_eq.
  - destruct G1 as (agg & Hagg & Ht & Hc); [discriminate|].
    unfold card_stats at 1 2. rewrite Hagg.
    unfold card_stats in Ht, Hc. rewrite lookup_empty in Ht, Hc.
    cbn [zero_stats total completed] in Ht, Hc.
    split; [lia|]. split; [lia|].
    intros s Hs. rewrite <- El. unfold members. apply List.filter_In.
    split; [exact Hs|]. cbn [fst]. now apply String.eqb_eq.
Qed.

Lemma card_counts_whole_group_witness :
  let x := "6f07ae03-187e-4e25-a519-9f72f96f22ff" in
  let y := "eca885ad-1119-48ca-8efe-91efcbfb54b4" in
  let st := Samples.profile y 5 (Some "7A") None None in
  let activityStats :=
    [ (y, {| total := 2; completed := 2; last := Some "2024-01-05" |});
      (x, {| total := 3; completed := 1; last := Some "2024-01-01" |}) ] in
  In (x, st) (studentMap2 VERIFIED_ALIASES [st])
  /\ total (card_stats (aggregate2 activityStats) x) = 5.
Proof.
  intros x y st activityStats.
  assert (Hin : In (x, st) (studentMap2 VERIFIED_ALIASES [st]))
    by (left; reflexivity).
  split; [exact Hin|].
  destruct (card_counts_whole_group VERIFIED_ALIASES [st] activityStats x st Hin)
    as (_ & Ht & _).
  exact Ht.
Defined.

End CardFacts.


(** ** Listing scopes: every outcome *)

Module ScopeMore.

Lemma scope_keys (store : list user_profile) (studentRole : Z)
    (homeClass : option string) (access : bool) (actor : string) (u : string) :
  let after_class :=
    match homeClass with
    | Some c =>
        add_students []
          (List.filter (fun s => (roleid_eqb (roleid s) studentRole
                                  && column_eqb (kelas s) c)%bool) store)
    | None => []
    end in
  In u (map fst
          (if access
           then add_students after_class
                  (List.filter
                     (fun s => (roleid_eqb (roleid s) studentRole
                                && column_eqb (guruwali_userid s) actor)%bool)
                     store)
           else after_class))
  <-> Listing.listed store studentRole homeClass access actor u.
Proof.
  intros after_class. subst after_class. unfold Listing.listed.
  destruct access.
  - destruct (ScopeFacts.two_branch_scope store studentRole homeClass actor _
                eq_refl) as [Hk _].
    rewrite (Hk u). unfold Spec.teacher_branch, Spec.supervisor_branch.
    split; intros (s & Hs & Hu & Hne & Hr & Hb); exists s;
      (split; [exact Hs|]); (split; [exact Hu|]); (split; [exact Hne|]);
      (split; [exact Hr|]).
    + destruct Hb as [Hb|Hb]; [now left | now right].
    + destruct Hb as [Hb|[_ Hb]]; [now left | now right].
  - destruct homeClass as [c|].
    + rewrite ScopeFacts.add_students_keys. split.
      * intros [[]|(s & Hs & Hu & Hne)].
        apply List.filter_In in Hs as [Hs Hf].
        apply andb_true_iff in Hf as [Hr Hc].
        apply ScopeFacts.roleid_eqb_eq in Hr.
        apply ScopeFacts.column_eqb_eq in Hc.
        exists s. split; [exact Hs|]. split; [exact Hu|]. split; [exact Hne|].
        split; [exact Hr|]. left. now exists c.
      * intros (s & Hs & Hu & Hne & Hr & [(c' & [= <-] & Hc)|[Hf _]]);
          [|discriminate Hf].
        right. exists s. split; [|now split].
        apply List.filter_In. split; [exact Hs|].
        apply andb_true_iff. split.
        -- now apply ScopeFacts.roleid_eqb_eq.
        -- now apply ScopeFacts.column_eqb_eq.
    + cbn [map In]. split; [intros []|].
      intros (s & _ & _ & _ & _ & [(c & [=] & _)|[Hf _]]). discriminate Hf.
Qed.

Lemma roleid_eqb_false (r : option Z) (n : Z) :
  roleid_eqb r n = false <-> r <> Some n.
Proof.
  rewrite <- ScopeFacts.roleid_eqb_eq. destruct (roleid_eqb r n); split;
    congruence.
Qed.

(** X15: every outcome of the scope of the student listing (first
    revision).  For a caller with a profile, the listing is refused with
    403 exactly for roles other than 2 and 6, and with 400 exactly for a
    teacher (role 2) without class and without the supervision flag: a
    role-6 supervisor is never asked for a class.  Otherwise the scope
    holds exactly the non-empty ids of the students of the caller's class
    and, only when the caller has supervision access, of the students
    assigned to the caller. *)
Theorem listing_scope_outcome (req : TeacherStudents.request) (uid : string)
    (p : user_profile) :
  TeacherStudents.user req = Some uid ->
  JS.single (List.filter (fun q => String.eqb (userid q) uid)
                         (TeacherStudents.user_profiles req)) = Some p ->
  match TeacherStudents.scope req with
  | TeacherStudents.Rejected status _ =>
      (status = 403 /\ roleid p <> Some 2 /\ roleid p <> Some 6)
      \/ (status = 400 /\ roleid p = Some 2
          /\ JS.truthy (kelas p) = false /\ TeacherStudents.flag p = false)
  | TeacherStudents.Scoped studentMap =>
      (roleid p = Some 2 \/ roleid p = Some 6)
      /\ (JS.truthy (kelas p) = true
          \/ TeacherStudents.isGuruWaliAccess p = true)
      /\ forall u, In u (map fst studentMap) <->
           Listing.listed (TeacherStudents.user_profiles req)
             (TeacherStudents.siswaRoleId (TeacherStudents.role req))
             (TeacherStudents.teacherClass p)
             (TeacherStudents.isGuruWaliAccess p) (userid p) u
  end.
Proof.
  intros Hu Hp. unfold TeacherStudents.scope. rewrite Hu, Hp.
  destruct (roleid_eqb (roleid p) 2) eqn:E2;
    destruct (roleid_eqb (roleid p) 6) eqn:E6; cbn [negb andb].
  - apply ScopeFacts.roleid_eqb_eq in E2, E6. congruence.
  - apply ScopeFacts.roleid_eqb_eq in E2.
    unfold TeacherStudents.isGuruWaliAccess at 1. rewrite E6. cbn [orb].
    destruct (JS.truthy (kelas p)) eqn:Ek; cbn [negb andb].
    + split; [now left|]. split; [now left|]. intros u.
      apply (scope_keys (TeacherStudents.user_profiles req)).
    + destruct (TeacherStudents.flag p) eqn:Ef; cbn [negb].
      * split; [now left|]. split.
        { right. unfold TeacherStudents.isGuruWaliAccess. rewrite Ef.
          apply orb_true_r. }
        intros u. apply (scope_keys (TeacherStudents.user_profiles req)).
      * right. now repeat split.
  - unfold TeacherStudents.isGuruWaliAccess at 1.
    rewrite E6. cbn [orb negb].
    rewrite andb_false_r. split.
    { right. now apply ScopeFacts.roleid_eqb_eq. }
    split.
    { right. unfold TeacherStudents.isGuruWaliAccess. now rewrite E6. }
    intros u. apply (scope_keys (TeacherStudents.user_profiles req)).
  - left. apply roleid_eqb_false in E2, E6. now repeat split.
Qed.

(** X16: every outcome of the scope of the daily report.  For a caller
    with a profile, the report is refused with 403 exactly for roles other
    than 2 (a role-6 supervisor included), and with 400 exactly for a
    teacher who has neither a class name left after trimming nor the
    supervision flag, or whose date parameter is malformed.  Otherwise the
    scope holds exactly the non-empty ids of the role-5 students of the
    trimmed class and, only for a flagged teacher, of the students assigned
    to the caller. *)
Theorem report_scope_outcome (req : DailyInactive.request) (uid : string)
    (p : user_profile) :
  DailyInactive.user req = Some uid ->
  JS.single (List.filter (fun q => String.eqb (userid q) uid)
                         (DailyInactive.user_profiles req)) = Some p ->
  match DailyInactive.scope req with
  | DailyInactive.Rejected status _ =>
      (status = 403 /\ roleid p <> Some 2)
      \/ (status = 400 /\ roleid p = Some 2
          /\ ((DailyInactive.className p = None
               /\ DailyInactive.isGuruWali p = false)
              \/ DailyInactive.date_ok (DailyInactive.date req) = false))
  | DailyInactive.Scoped studentMap =>
      roleid p = Some 2
      /\ DailyInactive.date_ok (DailyInactive.date req) = true
      /\ (DailyInactive.className p <> None
          \/ DailyInactive.isGuruWali p = true)
      /\ forall u, In u (map fst studentMap) <->
           Listing.listed (DailyInactive.user_profiles req) 5
             (DailyInactive.className p) (DailyInactive.isGuruWali p) uid u
  end.
Proof.
  intros Hu Hp. unfold DailyInactive.scope. rewrite Hu, Hp.
  destruct (roleid_eqb (roleid p) 2) eqn:E2; cbn [negb].
  2:{ left. apply roleid_eqb_false in E2. now split. }
  apply ScopeFacts.roleid_eqb_eq in E2.
  assert (Hc : JS.truthy (DailyInactive.className p) = true
               <-> DailyInactive.className p <> None).
  { unfold DailyInactive.className.
    destruct (kelas p) as [k|]; [|split; [discriminate|congruence]].
    destruct (String.eqb (JS.trim k) "") eqn:Et.
    - split; [discriminate|congruence].
    - cbn [JS.truthy]. rewrite Et. split; [discriminate|reflexivity]. }
  destruct (JS.truthy (DailyInactive.className p)) eqn:Ek; cbn [negb andb].
  - destruct (DailyInactive.date_ok (DailyInactive.date req)) eqn:Ed;
      cbn [negb].
    + split; [exact E2|]. split; [reflexivity|]. split.
      { left. now apply Hc. }
      intros u. apply (scope_keys (DailyInactive.user_profiles req)).
    + right. split; [reflexivity|]. split; [exact E2|]. now right.
  - destruct (DailyInactive.isGuruWali p) eqn:Ef; cbn [negb].
    + destruct (DailyInactive.date_ok (DailyInactive.date req)) eqn:Ed;
        cbn [negb].
      * split; [exact E2|]. split; [reflexivity|]. split; [now right|].
        intros u. unfold DailyInactive.studentMap_of. rewrite Ef.
        apply (scope_keys (DailyInactive.user_profiles req) 5
                 (DailyInactive.className p) true uid u).
      * right. split; [reflexivity|]. split; [exact E2|]. now right.
    + right. split; [reflexivity|]. split; [exact E2|]. left.
      split; [|reflexivity].
      destruct (DailyInactive.className p) eqn:Ec; [|reflexivity].
      exfalso. assert (H : false = true); [|discriminate H].
      apply Hc. discriminate.
Qed.

Lemma listing_scope_outcome_witness :
  exists studentMap,
    TeacherStudents.scope (Samples.listing (Some "t1"))
    = TeacherStudents.Scoped studentMap
    /\ forall u, In u (map fst studentMap) <->
         Listing.listed Samples.profiles 5 (Some "7A") true "t1" u.
Proof.
  pose proof (listing_scope_outcome (Samples.listing (Some "t1")) "t1"
                (Samples.profile "t1" 2 (Some "7A") (Some true) None)
                eq_refl eq_refl) as H.
  destruct (TeacherStudents.scope (Samples.listing (Some "t1")))
    as [status error|studentMap] eqn:E; [discriminate E|].
  exists studentMap. split; [reflexivity|]. exact (proj2 (proj2 H)).
Defined.

Lemma report_scope_outcome_witness :
  exists status error,
    DailyInactive.scope (Samples.report (Some "s1"))
    = DailyInactive.Rejected status error
    /\ status = 403.
Proof.
  pose proof (report_scope_outcome (Samples.report (Some "s1")) "s1"
                (Samples.profile "s1" 5 (Some "7A") None None)
                eq_refl eq_refl) as H.
  destruct (DailyInactive.scope (Samples.report (Some "s1")))
    as [status error|studentMap] eqn:E.
  - exists status, error. split; [reflexivity|].
    destruct H as [[H _]|(_ & H & _)]; [exact H | discriminate H].
  - destruct H as [H _]. discriminate H.
Defined.

End ScopeMore.


(** ** Task detail: who may submit *)

Module KegiatanMore.

Import Kegiatan.

Section Facts.

Context {category : Type}.

Lemma role_with_aktivitas (e : env category) (a : pg_error + list aktivitas_row) :
  getCurrentRoleName (with_aktivitas e a) = getCurrentRoleName e.
Proof. reflexivity. Qed.

Lemma maybeSingle_some {A} (rows : list A) (r : A) :
  fst (JS.maybeSingle rows) = Some r <-> rows = [r].
Proof.
  destruct rows as [|x [|y l]]; cbn; split; intros H;
    try discriminate H; congruence.
Qed.

(** X17: a caller who is not a student is never refused and may always
    submit.  When the linked role name is not [student] (a signed-out
    caller included) the handler answers without reading the activity
    records: the answer is the same for every content of that table, an
    error answer has status 500, and a data answer carries
    [canSubmit = true] with no last submission. *)
Theorem non_student_may_always_submit (e : env category) (kegiatanid : string)
    (a : pg_error + list aktivitas_row) :
  is_student (snd (getCurrentRoleName e)) = false ->
  GET (with_aktivitas e a) kegiatanid = GET e kegiatanid
  /\ match GET e kegiatanid with
     | Error status _ => status = 500
     | Data _ _ submissionStatus =>
         submissionStatus = {| canSubmit := true; lastSubmittedAt := None |}
     end.
Proof.
  intros Hs. unfold GET. rewrite role_with_aktivitas.
  destruct (getCurrentRoleName e) as [userId roleName]. cbn [snd] in Hs.
  rewrite Hs. cbn [with_aktivitas kegiatan categories].
  destruct (kegiatan e) as [err|keg]; [now split|].
  destruct (categories e) as [err|cats]; [now split|].
  unfold submissionStatus_of. rewrite Hs. cbn [andb].
  destruct userId; now split.
Qed.

(** X18: a student is told [canSubmit = false] exactly when the store
    holds one record of the student for the task dated today.  In a data
    answer, [canSubmit] is false if and only if the caller is a student
    with a non-empty id and the filter on task, user and today's Jakarta
    date selects exactly one row, whose creation time is then reported;
    with no such row, or with several, the answer allows the submission. *)
Theorem canSubmit_false_iff_one_record (e : env category) (kegiatanid : string)
    (keg : kegiatan_row) (cats : list category) (st : submission_status) :
  GET e kegiatanid = Data keg cats st ->
  (canSubmit st = false <->
   exists uid rows row,
     getCurrentRoleName e = (Some uid, Some "student") /\ uid <> ""
     /\ aktivitas e = inr rows
     /\ List.filter
          (fun a => (column_eqb (a_kegiatanid a) kegiatanid
                     && column_eqb (a_userid a) uid
                     && column_eqb (submitted_date a)
                          (todayInJakarta (now e)))%bool) rows = [row]
     /\ lastSubmittedAt st = created_at row)
  /\ (canSubmit st = true -> lastSubmittedAt st = None).
Proof.
  unfold GET.
  destruct (getCurrentRoleName e) as [userId roleName] eqn:Hrole.
  destruct (if is_student roleName then isSubmissionWindowOpen e else inr true)
    as [err|[|]]; try discriminate.
  destruct (kegiatan e) as [err|keg0]; try discriminate.
  destruct (categories e) as [err|cats0]; try discriminate.
  unfold submissionStatus_of.
  assert (Hopen : forall s : submission_status,
             s = {| canSubmit := true; lastSubmittedAt := None |} ->
             (canSubmit s = false <->
              exists uid rows row,
                (userId, roleName) = (Some uid, Some "student") /\ uid <> ""
                /\ aktivitas e = inr rows
                /\ List.filter
                     (fun a => (column_eqb (a_kegiatanid a) kegiatanid
                                && column_eqb (a_userid a) uid
                                && column_eqb (submitted_date a)
                                     (todayInJakarta (now e)))%bool) rows
                   = [row]
                /\ lastSubmittedAt s = created_at row) ->
             (canSubmit s = false <->
              exists uid rows row,
                (userId, roleName) = (Some uid, Some "student") /\ uid <> ""
                /\ aktivitas e = inr rows
                /\ List.filter
                     (fun a => (column_eqb (a_kegiatanid a) kegiatanid
                                && column_eqb (a_userid a) uid
                                && column_eqb (submitted_date a)
                                     (todayInJakarta (now e)))%bool) rows
                   = [row]
                /\ lastSubmittedAt s = created_at row)
             /\ (canSubmit s = true -> lastSubmittedAt s = None)).
  { intros s -> H. split; [exact H|reflexivity]. }
  destruct userId as [uid|].
  2:{ intros [= _ _ <-]. apply Hopen; [reflexivity|]. cbn [canSubmit lastSubmittedAt].
      split; [discriminate|]. intros (u & rows & row & [=] & _). }
  destruct (is_student roleName) eqn:Hs.
  2:{ cbn [andb]. intros [= _ _ <-]. apply Hopen; [reflexivity|]. cbn [canSubmit lastSubmittedAt].
      split; [discriminate|]. intros (u & rows & row & [= _ ->] & _).
      discriminate Hs. }
  assert (Hr : roleName = Some "student").
  { destruct roleName as [r|]; [|discriminate Hs]. cbn in Hs.
    apply String.eqb_eq in Hs. now rewrite Hs. }
  destruct (String.eqb_spec uid "") as [Hu|Hu]; cbn [andb negb].
  { intros [= _ _ <-]. apply Hopen; [reflexivity|]. cbn [canSubmit lastSubmittedAt].
    split; [discriminate|]. intros (u & rows & row & [= <- _] & Hne & _).
    now destruct Hne. }
  unfold existingToday. destruct (aktivitas e) as [err|rows] eqn:Ha.
  { destruct (String.eqb (code err) "PGRST116"); [|discriminate].
    intros [= _ _ <-]. apply Hopen; [reflexivity|]. cbn [canSubmit lastSubmittedAt].
    split; [discriminate|]. intros (u & rows & row & _ & _ & [=] & _). }
  cbv zeta.
  match goal with
  | |- context [JS.maybeSingle ?l] => remember l as found eqn:Hfound
  end.
  destruct (fst (JS.maybeSingle found)) as [row|] eqn:Hm; rewrite Hfound in Hm.
  - apply maybeSingle_some in Hm. intros [= _ _ <-]. cbn [canSubmit lastSubmittedAt]. split.
    + split; [intros _|reflexivity].
      exists uid, rows, row. rewrite Hr. now repeat split.
    + discriminate.
  - intros [= _ _ <-]. apply Hopen; [reflexivity|]. cbn [canSubmit lastSubmittedAt].
    split; [discriminate|].
    intros (u & rows' & row & [= <- _] & _ & [= <-] & Hf & _).
    rewrite Hf in Hm. discriminate Hm.
Qed.

End Facts.

Lemma non_student_may_always_submit_witness :
  GET (Samples.task None Samples.window_closed) "k1"
  = GET (with_aktivitas (Samples.task None Samples.window_closed) (inr [])) "k1".
Proof.
  symmetry.
  exact (proj1 (non_student_may_always_submit
                  (Samples.task None Samples.window_closed) "k1" (inr [])
                  eq_refl)).
Defined.

Lemma canSubmit_false_iff_one_record_witness :
  let e := Samples.task (Some "s1") Samples.window_open in
  exists uid rows row,
    getCurrentRoleName e = (Some uid, Some "student") /\ uid <> ""
    /\ aktivitas e = inr rows
    /\ List.filter
         (fun a => (column_eqb (a_kegiatanid a) "k1"
                    && column_eqb (a_userid a) uid
                    && column_eqb (submitted_date a)
                         (todayInJakarta (now e)))%bool) rows = [row]
    /\ Some "2023-12-31T17:05:00+00:00" = created_at row.
Proof.
  intros e.
  assert (H : GET e "k1"
              = Data {| kegiatanid := "k1"; kegiatanname := Some "Sholat";
                        k_created_at := None |} ["c1"]
                  {| canSubmit := false;
                     lastSubmittedAt := Some "2023-12-31T17:05:00+00:00" |})
    by (vm_compute; reflexivity).
  destruct (canSubmit_false_iff_one_record e "k1" _ _ _ H) as [[H1 _] _].
  exact (H1 eq_refl).
Defined.

End KegiatanMore.


(** ** Task detail: field types *)

Module FieldTypeFacts.

Import FieldType.

Lemma replace_hyphens_get (s : string) (n : nat) :
  String.get n (replace_hyphens s) <> Some "-"%char.
Proof.
  revert n. induction s as [|c r IH]; intros n; [discriminate|].
  cbn [replace_hyphens]. destruct n as [|n]; cbn [String.get]; [|apply IH].
  destruct (Ascii.eqb_spec c "-") as [_|Hc]; [discriminate|].
  intros [= E]. now apply Hc.
Qed.

(** X19: a field type is always normalised to one of the five known
    types.  Whatever the stored value is, [sanitizeFieldType] returns a
    member of [allowedFieldTypes]; it returns every known type unchanged,
    so that normalising twice changes nothing; and since the canonical
    form holds no hyphen, the case ["multi-select"] of the switch is never
    taken. *)
Theorem sanitizeFieldType_normalises (value : option string) :
  In (sanitizeFieldType value) allowedFieldTypes
  /\ (forall t, In t allowedFieldTypes -> sanitizeFieldType (Some t) = t)
  /\ sanitizeFieldType (Some (sanitizeFieldType value))
     = sanitizeFieldType value
  /\ (forall v, canonical_of v <> "multi-select").
Proof.
  assert (Hin : In (sanitizeFieldType value) allowedFieldTypes).
  { destruct value as [v|]; [|left; reflexivity].
    unfold sanitizeFieldType.
    destruct (_ || _)%bool; [cbn; tauto|].
    destruct (_ || _)%bool; [cbn; tauto|].
    destruct (String.eqb _ "jam"); [cbn; tauto|].
    destruct (JS.set_has allowedFieldTypes (canonical_of v)) eqn:E.
    - now apply ExpandFacts.set_has_In.
    - left; reflexivity. }
  assert (Hfix : forall t, In t allowedFieldTypes ->
                           sanitizeFieldType (Some t) = t).
  { intros t [<-|[<-|[<-|[<-|[<-|[]]]]]]; vm_compute; reflexivity. }
  split; [exact Hin|]. split; [exact Hfix|]. split; [now apply Hfix|].
  intros v E.
  apply (replace_hyphens_get
           (replace_spaces (JS.toLowerCase (JS.trim v))) 5).
  unfold canonical_of in E. rewrite E. reflexivity.
Qed.

Lemma sanitizeFieldType_normalises_witness :
  sanitizeFieldType (Some "multiselect") = "multiselect".
Proof.
  destruct (sanitizeFieldType_normalises None) as (_ & H & _).
  apply H. cbn. tauto.
Defined.

End FieldTypeFacts.


(** ** Task detail: what [PATCH] leaves in the store *)

Module KegiatanWriteFacts.

Import Kegiatan KegiatanWrite.

Lemma row_eqb_eq (a b : join_row) : row_eqb a b = true <-> a = b.
Proof.
  destruct a as [a1 a2], b as [b1 b2]. unfold row_eqb. cbn [fst snd].
  rewrite andb_true_iff, !String.eqb_eq. split; [intros [-> ->]|intros [= -> ->]];
    auto.
Qed.

Lemma has_row (t : list join_row) (r : join_row) :
  existsb (row_eqb r) t = true <-> In r t.
Proof.
  rewrite List.existsb_exists. split.
  - intros (x & Hx & E). apply row_eqb_eq in E. now subst x.
  - intros H. exists r. split; [exact H|]. now apply row_eqb_eq.
Qed.

Lemma upsert_In (rows t : list join_row) (r : join_row) :
  In r (upsert t rows) <-> In r t \/ In r rows.
Proof.
  unfold upsert. revert t. induction rows as [|x rows IH]; intros t;
    cbn [fold_left In]; [tauto|].
  rewrite IH. destruct (existsb (row_eqb x) t) eqn:E.
  - apply has_row in E. split; [tauto|]. intros [H|[<-|H]]; tauto.
  - rewrite List.in_app_iff. cbn [In]. tauto.
Qed.



Lemma curSet_In (t : list join_row) (k c : string) :
  In c (curSet_of t k) <-> In (k, c) t.
Proof.
  unfold curSet_of. rewrite ExpandFacts.set_of_In, List.in_map_iff. split.
  - intros ([k' c'] & E & H). cbn [snd] in E. subst c'.
    apply List.filter_In in H as [H Hk]. cbn [fst] in Hk.
    apply String.eqb_eq in Hk. now subst k'.
  - intros H. exists (k, c). split; [reflexivity|].
    apply List.filter_In. split; [exact H|]. cbn [fst]. apply String.eqb_refl.
Qed.

Lemma newSet_In (categories : list string) (c : string) :
  In c (newSet_of categories) <-> In c categories /\ c <> "".
Proof.
  unfold newSet_of. rewrite ExpandFacts.set_of_In, List.filter_In.
  rewrite negb_true_iff, String.eqb_neq. tauto.
Qed.

Lemma delete_in_In (t : list join_row) (k : string) (ids : list string)
    (r : join_row) :
  In r (delete_in t k ids) <-> In r t /\ ~ (fst r = k /\ In (snd r) ids).
Proof.
  unfold delete_in. rewrite List.filter_In, negb_true_iff, andb_false_iff.
  rewrite String.eqb_neq, ExpandFacts.set_has_not_In.
  destruct (String.eqb_spec (fst r) k); tauto.
Qed.

Lemma filter_nil_iff {A} (f : A -> bool) (l : list A) :
  List.filter f l = [] <-> forall x, In x l -> f x = false.
Proof.
  induction l as [|a l IH]; cbn [List.filter In]; [tauto|].
  destruct (f a) eqn:E.
  - split; [discriminate|]. intros H. specialize (H a (or_introl eq_refl)).
    congruence.
  - rewrite IH. split.
    + intros H x [<-|Hx]; auto.
    + intros H x Hx. apply H. now right.
Qed.

(** The rows the synchronisation leaves, when the upsert is accepted. *)
Lemma sync_In (s : store) (k : string) (categories : list string)
    (table : list join_row) :
  sync_categories s k categories = Some table ->
  forall k' c,
    In (k', c) table <->
    (k' = k /\ In c (newSet_of categories))
    \/ (k' <> k /\ In (k', c) (kegiatan_categories s)).
Proof.
  unfold sync_categories.
  set (newSet := newSet_of categories).
  set (curSet := curSet_of (kegiatan_categories s) k).
  set (toAdd := List.filter (fun id => negb (JS.set_has curSet id)) newSet).
  set (toDel := List.filter (fun id => negb (JS.set_has newSet id)) curSet).
  assert (HtoAdd : forall c, In c toAdd <-> In c newSet /\ ~ In c curSet).
  { intros c. unfold toAdd.
    now rewrite List.filter_In, negb_true_iff, ExpandFacts.set_has_not_In. }
  assert (HtoDel : forall c, In c toDel <-> In c curSet /\ ~ In c newSet).
  { intros c. unfold toDel.
    now rewrite List.filter_In, negb_true_iff, ExpandFacts.set_has_not_In. }
  assert (Hcur : forall c, In c curSet <-> In (k, c) (kegiatan_categories s))
    by (intros c; apply curSet_In).
  intros H k' c.
  assert (Hadded : exists added,
             (forall r, In r added <->
                In r (kegiatan_categories s)
                \/ (fst r = k /\ In (snd r) toAdd))
             /\ table = match toDel with
                        | [] => added
                        | _ => delete_in added k toDel
                        end).
  { destruct toAdd as [|a l] eqn:Ea.
    - injection H as <-. exists (kegiatan_categories s).
      split; [|reflexivity]. intros r. cbn [In]. tauto.
    - destruct (forallb _ _); [|discriminate H]. injection H as <-.
      exists (upsert (kegiatan_categories s)
                (map (fun cid => (k, cid)) (a :: l))).
      split; [|reflexivity]. intros r.
      rewrite upsert_In, List.in_map_iff. split.
      + intros [Hr|(x & <- & Hx)]; [now left|]. right.
        split; [reflexivity|exact Hx].
      + intros [Hr|[Hk Hx]]; [now left|]. right. exists (snd r).
        split; [|exact Hx]. destruct r as [r1 r2]. cbn [fst snd] in *.
        now subst r1. }
  destruct Hadded as (added & Hin & ->).
  assert (Hfinal : In (k', c) match toDel with
                              | [] => added
                              | _ => delete_in added k toDel
                              end
                   <-> In (k', c) added /\ ~ (k' = k /\ In c toDel)).
  { destruct toDel as [|d l] eqn:Ed.
    - cbn [In]. tauto.
    - apply (delete_in_In added k (d :: l) (k', c)). }
  rewrite Hfinal, Hin, HtoAdd, HtoDel. cbn [fst snd].
  destruct (String.eqb_spec k' k) as [->|Hk].
  - pose proof (Hcur c) as Hc. pose proof (eq_refl k) as Hk.
    destruct (JS.set_has newSet c) eqn:En;
      [apply ExpandFacts.set_has_In in En
      |apply ExpandFacts.set_has_not_In in En];
      destruct (JS.set_has curSet c) eqn:Ec;
      [apply ExpandFacts.set_has_In in Ec
      |apply ExpandFacts.set_has_not_In in Ec
      |apply ExpandFacts.set_has_In in Ec
      |apply ExpandFacts.set_has_not_In in Ec]; tauto.
  - tauto.
Qed.

(** When the upsert is refused. *)
Lemma sync_refused (s : store) (k : string) (categories : list string) :
  sync_categories s k categories = None <->
  exists c, In c (newSet_of categories)
            /\ ~ In (k, c) (kegiatan_categories s)
            /\ fk_ok s (k, c) = false.
Proof.
  unfold sync_categories.
  set (newSet := newSet_of categories).
  set (curSet := curSet_of (kegiatan_categories s) k).
  set (toAdd := List.filter (fun id => negb (JS.set_has curSet id)) newSet).
  assert (HtoAdd : forall c, In c toAdd <->
                             In c newSet /\ ~ In (k, c) (kegiatan_categories s)).
  { intros c. unfold toAdd.
    rewrite List.filter_In, negb_true_iff, ExpandFacts.set_has_not_In.
    unfold curSet. now rewrite curSet_In. }
  destruct toAdd as [|a l] eqn:Ea.
  - split; [discriminate|]. intros (c & Hc & Hn & _).
    destruct (proj2 (HtoAdd c) (conj Hc Hn)).
  - destruct (forallb (fk_ok s) (map (fun cid => (k, cid)) (a :: l))) eqn:Ef.
    + split; [discriminate|]. intros (c & Hc & Hn & Hfk).
      rewrite List.forallb_forall in Ef.
      rewrite (Ef (k, c)) in Hfk; [discriminate Hfk|].
      apply List.in_map_iff. exists c. split; [reflexivity|].
      apply HtoAdd. now split.
    + split; [intros _|reflexivity].
      destruct (List.forallb_forall (fk_ok s)
                  (map (fun cid => (k, cid)) (a :: l))) as [_ Hall].
      destruct (List.existsb_exists (fun r => negb (fk_ok s r))
                  (map (fun cid => (k, cid)) (a :: l))) as [Hex _].
      destruct Hex as (r & Hr & Hneg).
      { destruct (existsb (fun r => negb (fk_ok s r))
                    (map (fun cid => (k, cid)) (a :: l))) eqn:Ex;
          [reflexivity|].
        exfalso. assert (Ht : true = false); [|discriminate Ht].
        rewrite <- Ef. symmetry. apply Hall. intros x Hx.
        destruct (fk_ok s x) eqn:Efk; [reflexivity|]. exfalso.
        assert (Hy : existsb (fun r => negb (fk_ok s r))
                       (map (fun cid => (k, cid)) (a :: l)) = true).
        { apply List.existsb_exists. exists x. split; [exact Hx|].
          now rewrite Efk. }
        congruence. }
      apply List.in_map_iff in Hr as (c & <- & Hc).
      apply HtoAdd in Hc as [Hc Hn]. exists c. split; [exact Hc|].
      split; [exact Hn|]. now apply negb_true_iff.
Qed.




Lemma rename_ids (now k name : string) (rows : list task_row) :
  map task_id (rename now k name rows) = map task_id rows.
Proof.
  unfold rename. rewrite List.map_map. apply List.map_ext. intros r.
  now destruct (String.eqb (task_id r) k).
Qed.

Lemma has_kegiatan_ids (s : store) (k : string) :
  has_kegiatan s k = true <-> In k (map task_id (kegiatan s)).
Proof.
  unfold has_kegiatan. rewrite List.existsb_exists, List.in_map_iff.
  split; intros (r & H1 & H2).
  - apply String.eqb_eq in H2. now exists r.
  - exists r. split; [exact H2|]. now apply String.eqb_eq.
Qed.

Lemma fk_ok_ids (s s' : store) (r : join_row) :
  map task_id (kegiatan s') = map task_id (kegiatan s) ->
  category s' = category s ->
  fk_ok s' r = fk_ok s r.
Proof.
  intros Hk Hc. unfold fk_ok. rewrite Hc. f_equal.
  destruct (has_kegiatan s (fst r)) eqn:E.
  - apply has_kegiatan_ids. rewrite Hk. now apply has_kegiatan_ids.
  - destruct (has_kegiatan s' (fst r)) eqn:E'; [|reflexivity].
    apply has_kegiatan_ids in E'. rewrite Hk in E'.
    apply has_kegiatan_ids in E'. congruence.
Qed.



Lemma renamed_ids (s : store) (now k : string) (b : body) :
  map task_id (kegiatan (renamed s now k b)) = map task_id (kegiatan s).
Proof.
  unfold renamed. cbn [kegiatan].
  destruct (body_kegiatanname b); [apply rename_ids|reflexivity].
Qed.



Lemma rename_name (now k name : string) (rows : list task_row)
    (r : task_row) :
  In r (rename now k name rows) -> task_id r = k -> task_name r = Some name.
Proof.
  unfold rename. intros H Hk. apply List.in_map_iff in H as (x & <- & _).
  destruct (String.eqb_spec (task_id x) k) as [_|E]; [reflexivity|].
  now destruct E.
Qed.

Lemma single_by_id (rows : list task_row) (k : string) :
  List.NoDup (map task_id rows) -> In k (map task_id rows) ->
  exists r, List.filter (fun r => String.eqb (task_id r) k) rows = [r]
            /\ task_id r = k /\ In r rows.
Proof.
  induction rows as [|a rows IH]; cbn [map In List.filter]; intros Hnd Hin;
    [destruct Hin|].
  inversion Hnd as [|? ? Ha Hrows]; subst.
  destruct (String.eqb_spec (task_id a) k) as [E|E].
  - exists a. split; [|split; [exact E|now left]]. f_equal.
    apply filter_nil_iff. intros x Hx. apply String.eqb_neq. intros Ex.
    apply Ha. rewrite E, <- Ex. now apply List.in_map.
  - destruct Hin as [Hin|Hin]; [now destruct E|].
    destruct (IH Hrows Hin) as (r & Hf & Hk & Hr).
    exists r. split; [exact Hf|]. split; [exact Hk|now right].
Qed.








(** X20: a [PATCH] that succeeds leaves the task with exactly the
    requested categories.  In a store that satisfies the keys of the
    schema, for an existing task and a request whose non-empty category ids
    all exist, the answer is the row of the task, carrying the trimmed name
    when one was sent; afterwards the task is linked to exactly the
    non-empty requested ids and the links of every other task are
    untouched. *)
Theorem PATCH_sets_categories (s : store) (now k : string) (b : body)
    (categories : list string) :
  integrity s ->
  has_kegiatan s k = true ->
  body_categories b = Some categories ->
  (forall c, In c categories -> c <> "" -> In c (category s)) ->
  exists data,
    snd (PATCH s now k b) = Updated data
    /\ kegiatanid data = k
    /\ (forall name, body_kegiatanname b = Some name ->
                     kegiatanname data = Some (JS.trim name))
    /\ forall k' c,
         In (k', c) (kegiatan_categories (fst (PATCH s now k b))) <->
         (k' = k /\ In c categories /\ c <> "")
         \/ (k' <> k /\ In (k', c) (kegiatan_categories s)).
Proof.
  intros (Hids & _ & _) Hk Hb Hall. unfold PATCH. cbv zeta. rewrite Hb.
  destruct (sync_categories (renamed s now k b) k categories)
    as [table|] eqn:Es.
  - cbn [fst snd].
    destruct (single_by_id (kegiatan (renamed s now k b)) k)
      as (r & Hf & Hr & Hin).
    { now rewrite renamed_ids. }
    { rewrite renamed_ids. now apply has_kegiatan_ids. }
    exists (selected r). unfold answer_of. rewrite Hf. cbn [JS.single].
    split; [reflexivity|]. split; [exact Hr|]. split.
    + intros name Hn. unfold renamed in Hin. cbn [kegiatan] in Hin.
      rewrite Hn in Hin. cbn [selected kegiatanname].
      now apply (rename_name now k _ (kegiatan s)).
    + intros k' c. cbn [with_links kegiatan_categories].
      rewrite (sync_In _ _ _ _ Es k' c), newSet_In. reflexivity.
  - exfalso. apply sync_refused in Es as (c & Hc & _ & Hfk).
    apply newSet_In in Hc as [Hc Hne].
    rewrite (fk_ok_ids s (renamed s now k b)) in Hfk;
      [|apply renamed_ids|reflexivity].
    unfold fk_ok in Hfk. cbn [fst snd] in Hfk. rewrite Hk in Hfk.
    rewrite (proj2 (ExpandFacts.set_has_In _ _) (Hall c Hc Hne)) in Hfk.
    discriminate Hfk.
Qed.

(** X21: a [PATCH] that asks for an unknown category fails after the
    rename.  When some non-empty requested id is not the id of a category,
    the answer is the failure and no link is changed, but the name sent
    with the request has already been written to the task. *)
Theorem PATCH_unknown_category (s : store) (now k : string) (b : body)
    (categories : list string) (c : string) :
  integrity s ->
  body_categories b = Some categories ->
  In c categories -> c <> "" -> ~ In c (category s) ->
  PATCH s now k b = (renamed s now k b, Failed)
  /\ kegiatan_categories (renamed s now k b) = kegiatan_categories s
  /\ forall name, body_kegiatanname b = Some name ->
        kegiatan (renamed s now k b)
        = rename now k (JS.trim name) (kegiatan s).
Proof.
  intros (_ & _ & Hfk) Hb Hc Hne Hcat.
  split; [|split; [reflexivity|]].
  - unfold PATCH. cbv zeta. rewrite Hb.
    assert (Hnone : sync_categories (renamed s now k b) k categories = None).
    { apply sync_refused. exists c.
      assert (Hbad : fk_ok s (k, c) = false).
      { unfold fk_ok. cbn [fst snd].
        rewrite (proj2 (ExpandFacts.set_has_not_In _ _) Hcat).
        apply andb_false_r. }
      split; [now apply newSet_In|]. split.
      - intros Hin. apply Hfk in Hin. congruence.
      - rewrite (fk_ok_ids s (renamed s now k b));
          [exact Hbad|apply renamed_ids|reflexivity]. }
    now rewrite Hnone.
  - intros name Hn. unfold renamed. cbn [kegiatan]. now rewrite Hn.
Qed.




Lemma PATCH_sets_categories_witness :
  let s := {| kegiatan := [ {| task_id := "k1"; task_name := Some "Sholat";
                               task_created_at := None;
                               task_updated_at := None |};
                            {| task_id := "k2"; task_name := Some "Olahraga";
                               task_created_at := None;
                               task_updated_at := None |} ];
              category := ["c1"; "c2"; "c3"];
              kegiatan_categories := [("k1", "c1"); ("k2", "c1"); ("k1", "c2")];
              aktivitas := [] |} in
  let b := {| body_kegiatanname := Some " Sholat Subuh ";
              body_categories := Some ["c3"; ""; "c2"; "c3"] |} in
  exists data,
    snd (PATCH s "2024-01-02T00:00:00Z" "k1" b) = Updated data
    /\ kegiatanname data = Some "Sholat Subuh"
    /\ kegiatan_categories (fst (PATCH s "2024-01-02T00:00:00Z" "k1" b))
       = [("k2", "c1"); ("k1", "c2"); ("k1", "c3")].
Proof.
  intros s b.
  assert (Hi : integrity s).
  { split; [|split].
    - repeat constructor; cbn; intuition discriminate.
    - repeat constructor; cbn; intuition discriminate.
    - intros r [<-|[<-|[<-|[]]]]; reflexivity. }
  destruct (PATCH_sets_categories s "2024-01-02T00:00:00Z" "k1" b
              ["c3"; ""; "c2"; "c3"] Hi eq_refl eq_refl)
    as (data & Hd & _ & Hn & _).
  { intros c [<-|[<-|[<-|[<-|[]]]]] Hne; cbn; tauto. }
  exists data. split; [exact Hd|]. split; [exact (Hn _ eq_refl)|].
  vm_compute. reflexivity.
Defined.

Lemma PATCH_unknown_category_witness :
  let s := {| kegiatan := [ {| task_id := "k1"; task_name := Some "Sholat";
                               task_created_at := None;
                               task_updated_at := None |} ];
              category := ["c1"];
              kegiatan_categories := [("k1", "c1")];
              aktivitas := [] |} in
  let b := {| body_kegiatanname := Some "Sholat Subuh";
              body_categories := Some ["c9"] |} in
  snd (PATCH s "2024-01-02T00:00:00Z" "k1" b) = Failed
  /\ map task_name (kegiatan (fst (PATCH s "2024-01-02T00:00:00Z" "k1" b)))
     = [Some "Sholat Subuh"].
Proof.
  intros s b.
  assert (Hi : integrity s).
  { split; [|split].
    - repeat constructor; cbn; intuition discriminate.
    - repeat constructor; cbn; intuition discriminate.
    - intros r [<-|[]]; reflexivity. }
  destruct (PATCH_unknown_category s "2024-01-02T00:00:00Z" "k1" b
              ["c9"] "c9" Hi eq_refl)
    as (Hp & _ & Hn).
  - now left.
  - discriminate.
  - cbn. intuition discriminate.
  - rewrite Hp. cbn [fst snd]. split; [reflexivity|].
    rewrite (Hn _ eq_refl). reflexivity.
Defined.


End KegiatanWriteFacts.


(** ** Role ids *)

Module RolesFacts.

Import Roles.

Lemma has_In (s : list Z) (x : Z) : has s x = true <-> In x s.
Proof.
  unfold has. rewrite List.existsb_exists. split.
  - intros (y & Hy & E). apply Z.eqb_eq in E. now subst y.
  - intros H. exists x. split; [exact H|]. apply Z.eqb_refl.
Qed.

Lemma add_In (s : list Z) (x y : Z) : In y (add s x) <-> In y s \/ y = x.
Proof.
  unfold add. destruct (has s x) eqn:E.
  - apply has_In in E. split; [tauto|]. intros [H| ->]; assumption.
  - rewrite List.in_app_iff. cbn [In]. split.
    + intros [H|[H|[]]]; [now left|now right].
    + intros [H|H]; [now left|]. right. left. now symmetry.
Qed.

Section Facts.

Variable Number : string -> option Z.
Variable env : string -> option string.

Lemma isAdminRole_list (r : Z) :
  isAdminRole Number env (Some r) = true <-> In r (getAdminRoleIds Number env).
Proof.
  unfold isAdminRole, getAdminRoleIds.
  destruct (env_number Number env "ADMIN_ROLE_ID") as [n|].
  - rewrite add_In. destruct (Z.eqb_spec r n) as [->|Hn].
    + split; [now right|reflexivity].
    + rewrite has_In. tauto.
  - apply has_In.
Qed.

Lemma isParentRole_list (r : Z) :
  isParentRole Number env (Some r) = true <-> In r (getParentRoleIds Number env).
Proof.
  unfold isParentRole, getParentRoleIds.
  destruct (env_number Number env "PARENT_ROLE_ID") as [n|].
  - rewrite add_In. destruct (Z.eqb_spec r n) as [->|Hn].
    + split; [now right|reflexivity].
    + rewrite has_In. tauto.
  - apply has_In.
Qed.

Lemma isStudentRole_list (r : Z) :
  isStudentRole Number env (Some r) = true
  <-> In r (getStudentRoleIds Number env).
Proof.
  unfold isStudentRole, getStudentRoleIds.
  destruct (env_number Number env "STUDENT_ROLE_ID") as [n|].
  - rewrite add_In. destruct (Z.eqb_spec r n) as [->|Hn].
    + split; [now right|reflexivity].
    + rewrite has_In. tauto.
  - apply has_In.
Qed.

(** X24: the role predicates and the role-id lists agree, and an unset
    variable admits role id 0.  For every setting of the environment a role
    id satisfies [isAdminRole], [isParentRole] or [isStudentRole] exactly
    when it is in the list the matching getter returns, and the fallback
    ids 4, 3 and 5 are always in.  When a variable is not set its text is
    empty, which [Number] reads as 0: role id 0 then counts as that role. *)
Theorem role_predicates_agree_with_lists (r : Z) :
  (isAdminRole Number env (Some r) = true
   <-> In r (getAdminRoleIds Number env))
  /\ (isParentRole Number env (Some r) = true
      <-> In r (getParentRoleIds Number env))
  /\ (isStudentRole Number env (Some r) = true
      <-> In r (getStudentRoleIds Number env))
  /\ (In 4 (getAdminRoleIds Number env)
      /\ In 3 (getParentRoleIds Number env)
      /\ In 5 (getStudentRoleIds Number env))
  /\ (Number "" = Some 0 ->
      (env "ADMIN_ROLE_ID" = None -> isAdminRole Number env (Some 0) = true)
      /\ (env "PARENT_ROLE_ID" = None ->
          isParentRole Number env (Some 0) = true)
      /\ (env "STUDENT_ROLE_ID" = None ->
          isStudentRole Number env (Some 0) = true)).
Proof.
  split; [apply isAdminRole_list|]. split; [apply isParentRole_list|].
  split; [apply isStudentRole_list|]. split.
  - split; [|split].
    + apply isAdminRole_list. unfold isAdminRole.
      destruct (env_number Number env "ADMIN_ROLE_ID") as [n|];
        [now destruct (4 =? n)|reflexivity].
    + apply isParentRole_list. unfold isParentRole.
      destruct (env_number Number env "PARENT_ROLE_ID") as [n|];
        [now destruct (3 =? n)|reflexivity].
    + apply isStudentRole_list. unfold isStudentRole.
      destruct (env_number Number env "STUDENT_ROLE_ID") as [n|];
        [now destruct (5 =? n)|reflexivity].
  - intros H0. split; [|split]; intros He.
    + unfold isAdminRole, env_number. now rewrite He, H0.
    + unfold isParentRole, env_number. now rewrite He, H0.
    + unfold isStudentRole, env_number. now rewrite He, H0.
Qed.

End Facts.

Lemma role_predicates_agree_with_lists_witness :
  isAdminRole decimal (fun _ => None) (Some 0) = true
  /\ getAdminRoleIds decimal (fun _ => None) = [4; 0].
Proof.
  destruct (role_predicates_agree_with_lists decimal (fun _ => None) 0)
    as (_ & _ & _ & _ & H).
  split; [|reflexivity]. apply (H eq_refl). reflexivity.
Defined.

End RolesFacts.


(** ** Supervisor assignments *)

Module AssignmentsFacts.

Import Assignments.

Lemma filter_Permutation {A} (f : A -> bool) (l l' : list A) :
  Permutation l l' -> Permutation (List.filter f l) (List.filter f l').
Proof.
  induction 1 as [|x l l' _ IH|x y l|l l' l'' _ IH1 _ IH2];
    cbn [List.filter].
  - constructor.
  - destruct (f x); [now constructor|exact IH].
  - destruct (f x), (f y); try reflexivity. apply perm_swap.
  - now transitivity (List.filter f l').
Qed.

Lemma filter_filter_implied {A} (f g : A -> bool) (l : list A) :
  (forall x, f x = true -> g x = true) ->
  List.filter f (List.filter g l) = List.filter f l.
Proof.
  intros H. induction l as [|a l IH]; [reflexivity|].
  cbn [List.filter]. destruct (g a) eqn:Eg; cbn [List.filter].
  - now rewrite IH.
  - rewrite IH. destruct (f a) eqn:Ef; [|reflexivity].
    apply H in Ef. congruence.
Qed.

(** The map of supervisors, from any accumulated map. *)
Lemma guruWaliMap_get (l : list user_profile) (m : list (string * user_profile))
    (k : string) :
  match JS.entries_get
          (fold_left (fun m gw => JS.entries_set m (userid gw) gw) l m) k with
  | Some v => JS.entries_get m k = Some v \/ (In v l /\ userid v = k)
  | None => JS.entries_get m k = None /\ forall v, In v l -> userid v <> k
  end.
Proof.
  revert m. induction l as [|a l IH]; intros m; cbn [fold_left].
  - destruct (JS.entries_get m k); [now left|]. split; [reflexivity|].
    intros v [].
  - specialize (IH (JS.entries_set m (userid a) a)).
    destruct (JS.entries_get (fold_left _ l _) k) as [v|].
    + destruct IH as [IH|[IH Hk]]; [|right; split; [now right|exact Hk]].
      rewrite ByUserFacts.entries_get_set in IH.
      destruct (String.eqb_spec (userid a) k) as [E|E].
      * injection IH as <-. right. split; [now left|exact E].
      * now left.
    + destruct IH as [IH Hl]. rewrite ByUserFacts.entries_get_set in IH.
      destruct (String.eqb_spec (userid a) k) as [E|E]; [discriminate IH|].
      split; [exact IH|]. intros v [<-|Hv]; [exact E|now apply Hl].
Qed.

Section Facts.

Variable Number : string -> option Z.
Variable env : string -> option string.
Variable order : list user_profile -> list user_profile.
Hypothesis order_Permutation : forall l, Permutation (order l) l.

Lemma student_in_role (s : user_profile) :
  Roles.isStudentRole Number env (roleid s) = true ->
  in_role match Roles.getStudentRoleIds Number env with
          | [] => [-1]
          | _ => Roles.getStudentRoleIds Number env
          end s = true.
Proof.
  unfold in_role. destruct (roleid s) as [r|]; [|discriminate].
  intros H. apply RolesFacts.isStudentRole_list in H.
  destruct (Roles.getStudentRoleIds Number env) as [|a l]; [destruct H|].
  now apply RolesFacts.has_In.
Qed.

(** X25: the assignments an administrator gets.  A caller with a profile
    is refused with 403 exactly when the role is not an administrator's.
    Otherwise the answer lists, up to the order of the store, exactly the
    profiles with a student role, each once per row: the second filter on
    the student role drops nothing.  The supervisor shown for a student is
    a profile of the store whose id is the student's [guruwali_userid] and
    which has role 6 or is a flagged teacher; no supervisor is shown
    exactly when no such profile exists or the reference is empty. *)
Theorem assignments_of_admin (req : request) (uid : string)
    (profile : user_profile) :
  user req = Some uid ->
  JS.single (List.filter (fun p => String.eqb (userid p) uid)
                         (user_profiles req)) = Some profile ->
  match GET Number env order req with
  | Error status _ =>
      status = 403 /\ Roles.isAdminRole Number env (roleid profile) = false
  | Ok data =>
      Roles.isAdminRole Number env (roleid profile) = true
      /\ Permutation
           (map student data)
           (List.filter (fun s => Roles.isStudentRole Number env (roleid s))
                        (user_profiles req))
      /\ forall a, In a data ->
           match guruwali a with
           | Some g =>
               guruwali_userid (student a) = Some (userid g)
               /\ userid g <> "" /\ In g (user_profiles req)
               /\ is_supervisor g = true
           | None =>
               forall g, In g (user_profiles req) -> is_supervisor g = true ->
                         guruwali_userid (student a) = Some (userid g) ->
                         userid g = ""
           end
  end.
Proof.
  intros Hu Hp. unfold GET. rewrite Hu, Hp.
  destruct (Roles.isAdminRole Number env (roleid profile)) eqn:Ea;
    cbn [negb]; [|now split].
  split; [reflexivity|]. split.
  - rewrite List.map_map. cbn [assignment_of student]. rewrite List.map_id.
    etransitivity; [apply filter_Permutation, order_Permutation|].
    rewrite filter_filter_implied; [reflexivity|].
    intros s. apply student_in_role.
  - intros a Ha. apply List.in_map_iff in Ha as (s & <- & _).
    unfold assignment_of. cbn [guruwali student].
    destruct (guruwali_userid s) as [g|] eqn:Eg; cbn [JS.truthy];
      [|intros g _ _ [=]].
    destruct (String.eqb_spec g "") as [E0|E0]; cbn [negb].
    { intros g' _ _ [= E]. now rewrite <- E. }
    pose proof (guruWaliMap_get
                  (List.filter is_supervisor (user_profiles req)) [] g) as H.
    unfold guruWaliMap_of.
    destruct (JS.entries_get (fold_left _ _ _) g) as [v|].
    + destruct H as [H|[Hv Hk]]; [discriminate H|].
      apply List.filter_In in Hv as [Hv Hs].
      split; [now rewrite Hk|]. split; [now rewrite Hk|]. now split.
    + destruct H as [_ H]. intros g' Hin Hs [= E]. exfalso.
      apply (H g'); [|now symmetry].
      apply List.filter_In. now split.
Qed.

End Facts.

Lemma assignments_of_admin_witness :
  let admin := Samples.profile "a1" 4 None None None in
  let req := {| user := Some "a1"; user_profiles := admin :: Samples.profiles |} in
  exists data,
    GET Roles.decimal (fun _ => None) (fun l => l) req = Ok data
    /\ Permutation (map student data)
         (List.filter
            (fun s => Roles.isStudentRole Roles.decimal (fun _ => None) (roleid s))
            (admin :: Samples.profiles)).
Proof.
  intros admin req.
  pose proof (assignments_of_admin Roles.decimal (fun _ => None) (fun l => l)
                (fun l => Permutation_refl l) req "a1" admin
                eq_refl eq_refl) as H.
  destruct (GET Roles.decimal (fun _ => None) (fun l => l) req)
    as [status error|data] eqn:E.
  - destruct H as [_ H]. discriminate H.
  - exists data. split; [reflexivity|]. exact (proj1 (proj2 H)).
Defined.

End AssignmentsFacts.


(** ** The two revisions of the statistics *)

Module RevisionFacts.

Import TeacherStudents StudentCards.

Lemma byUser_step_cases (m : list (string * stats)) (a : activity) :
  byUser_step m a
  = if JS.truthy (act_userid a) then activityStats_step m a else m.
Proof.
  unfold byUser_step, activityStats_step, JS.truthy.
  destruct (act_userid a) as [u|]; [|reflexivity].
  destruct (String.eqb u ""); reflexivity.
Qed.

Lemma byUser_fold_filter (rows : list activity) (m : list (string * stats)) :
  fold_left byUser_step rows m
  = fold_left activityStats_step
      (List.filter (fun a => JS.truthy (act_userid a)) rows) m.
Proof.
  revert m. induction rows as [|a rows IH]; intros m; [reflexivity|].
  cbn [fold_left List.filter]. rewrite IH, byUser_step_cases.
  destruct (JS.truthy (act_userid a)); reflexivity.
Qed.

Lemma activityStats_key_stays (rows : list activity)
    (m : list (string * stats)) (k : string) :
  JS.entries_get m k <> None ->
  JS.entries_get (fold_left activityStats_step rows m) k <> None.
Proof.
  revert m. induction rows as [|a rows IH]; intros m H; [exact H|].
  cbn [fold_left]. apply IH. unfold activityStats_step.
  rewrite ByUserFacts.entries_get_set.
  now destruct (String.eqb _ k).
Qed.

(** X26: the first revision consolidates the rows the second one does,
    minus the rows without a user id.  The raw statistics of the first
    revision are those the second revision computes from the rows that
    carry a non-empty user id, and so are the aggregated statistics; a row
    without a user id, which the first revision skips, is counted by the
    second under the key ["null"]. *)
Theorem revisions_count_the_same_rows (activityRows : list activity) :
  byUser_of activityRows
  = activityStats_of
      (List.filter (fun a => JS.truthy (act_userid a)) activityRows)
  /\ aggregate (byUser_of activityRows)
     = aggregate2
         (activityStats_of
            (List.filter (fun a => JS.truthy (act_userid a)) activityRows))
  /\ ((exists a, In a activityRows /\ act_userid a = None) ->
      JS.entries_get (activityStats_of activityRows) "null" <> None).
Proof.
  assert (H : byUser_of activityRows
              = activityStats_of
                  (List.filter (fun a => JS.truthy (act_userid a))
                               activityRows))
    by apply byUser_fold_filter.
  split; [exact H|]. split.
  - rewrite <- H.
    apply (GroupFacts.revisions_agree VERIFIED_ALIASES).
    + apply AggregateFacts.VERIFIED_ALIASES_primaries_listed.
    + apply GroupFacts.VERIFIED_ALIASES_heads.
    + apply RawStatsFacts.byUser_of_raw_stats.
  - intros (a & Ha & Hnull). unfold activityStats_of.
    apply List.in_split in Ha as (l1 & l2 & ->).
    rewrite List.fold_left_app. cbn [fold_left].
    apply activityStats_key_stays. unfold activityStats_step at 1.
    rewrite Hnull, ByUserFacts.entries_get_set. cbn. discriminate.
Qed.

Lemma revisions_count_the_same_rows_witness :
  let rows :=
    [ {| act_userid := None; act_status := Some "completed";
         act_created_at := Some "2024-01-02T01:00:00" |};
      {| act_userid := Some "s1"; act_status := None;
         act_created_at := Some "2024-01-03T01:00:00" |} ] in
  JS.entries_get (activityStats_of rows) "null" <> None
  /\ JS.entries_get (byUser_of rows) "null" = None.
Proof.
  intros rows. split; [|reflexivity].
  destruct (revisions_count_the_same_rows rows) as (_ & _ & H).
  apply H. eexists. split; [left; reflexivity|reflexivity].
Defined.

End RevisionFacts.
